(** * Spending insights: classification cascade and anomaly detection

    A shallow embedding of [config.py], [classify.py] and [anomalies.py].

    Conventions of the embedding.
    - A Polars [DataFrame] of transactions is a [list Row]; a column rewrite
      ([with_columns]) is a [map] over the rows.
    - Python dictionaries that the code iterates over ([CATEGORY_KEYWORDS],
      [DIRECT_EXPENSE_TYPE_MAPPING], the high-payment thresholds) are
      association lists in declaration order.
    - A [Float64] is its exact value: a rational ([Q]) when finite, or an
      infinity or NaN.  The amount of a row is finite.  Sums, products and
      quotients are rounded to the nearest double as IEEE 754 binary64 does
      ([round64], on the division of the standard library's [SpecFloat]);
      the thresholds of [config.py] are the doubles that its literals
      denote.  The sign of a zero is not kept.
    - [pl.Date] is a day number ([Z]); the difference of two dates in days is
      the difference of the numbers.
    - Strings are byte strings; case folding of [(?i)] is folded on the ASCII
      letters only.
    - Logging is left out, except where evaluating a log message can raise. *)

From Stdlib Require Import List String Ascii Bool ZArith QArith Lia.
From Stdlib Require Import Permutation Sorted SpecFloat.
Import ListNotations.

Local Open Scope string_scope.
Local Open Scope list_scope.
Local Open Scope Z_scope.

(** ** Outcomes of a call that may raise *)

Inductive Exn : Type :=
| ValueError
| ZeroDivisionError
| SchemaError.

Inductive Result (A : Type) : Type :=
| Ok (value : A)
| Raise (e : Exn).

Arguments Ok {A} value.
Arguments Raise {A} e.

(** The rest of a computation runs on the value of a call that returned. *)
Definition bind {A B : Type} (r : Result A) (f : A -> Result B) : Result B :=
  match r with
  | Ok value => f value
  | Raise e => Raise e
  end.

(** A loop that appends one item for each member of a list: it stops at the
    first member on which the body raises. *)
Fixpoint collect {A B : Type} (body : A -> Result B) (l : list A)
  : Result (list B) :=
  match l with
  | [] => Ok []
  | x :: rest =>
      bind (body x) (fun item =>
      bind (collect body rest) (fun items => Ok (item :: items)))
  end.

(** ** Strings: case-insensitive substring search *)

Module Str.

Definition lower_ascii (c : ascii) : ascii :=
  let n := N_of_ascii c in
  if (65 <=? n)%N && (n <=? 90)%N then ascii_of_N (n + 32) else c.

Fixpoint lower (s : string) : string :=
  match s with
  | EmptyString => EmptyString
  | String c rest => String (lower_ascii c) (lower rest)
  end.

Fixpoint starts_with (p s : string) : bool :=
  match p, s with
  | EmptyString, _ => true
  | String a p', String b s' => Ascii.eqb a b && starts_with p' s'
  | String _ _, EmptyString => false
  end.

(** [contains p s]: [p] occurs somewhere in [s]. *)
Fixpoint contains (p s : string) : bool :=
  starts_with p s ||
  match s with
  | EmptyString => false
  | String _ rest => contains p rest
  end.

(** A keyword searched with the [(?i)] flag. *)
Definition contains_ci (kw s : string) : bool :=
  contains (lower kw) (lower s).

(** The characters that a regular expression does not read literally. *)
Definition regex_meta (c : ascii) : bool :=
  existsb (Ascii.eqb c)
    ["."; "^"; "$"; "*"; "+"; "?"; "("; ")"; "["; "]"; "{"; "}"; "|"; "\"]%char.

Fixpoint regex_literal (s : string) : bool :=
  match s with
  | EmptyString => true
  | String c rest => negb (regex_meta c) && regex_literal rest
  end.

(** [ci_substring kw s]: [kw] occurs in [s] up to the case of letters. *)
Definition ci_substring (kw s : string) : Prop :=
  exists pre post, lower s = (pre ++ lower kw ++ post)%string.

End Str.

(** ** config.py *)

Module Config.

Definition CATEGORIES : list string :=
  [ "IT"; "Consultancy"; "Construction"; "Operations"; "Legal";
    "HR/Staffing"; "Grants"; "Administrative" ].

Definition KeywordTable : Type := list (string * list string).
Definition DirectMapping : Type := list (string * list (string * string)).

Record Thresholds : Type := {
  high_payment : list (string * Q);
  concentration_threshold_spend : Q;
  concentration_threshold_txn : Q;
  duplicate_window_days : Z
}.

(** The module-level tables that [classify.py] and [anomalies.py] read. *)
Record t : Type := {
  CATEGORY_KEYWORDS : KeywordTable;
  DIRECT_EXPENSE_TYPE_MAPPING : DirectMapping;
  ANOMALY_THRESHOLDS : Thresholds
}.

Definition declared_CATEGORY_KEYWORDS : KeywordTable :=
  [ ("IT",
      [ "software"; "IT"; "licence"; "license"; "system"; "digital"; "cloud";
        "hosting"; "server"; "hardware"; "telephony"; "computer"; "laptop";
        "ICT"; "infrastructure"; "network"; "data centre"; "data center";
        "IT RUN"; "END USER COMPUTER"; "NETWORKING"; "DATA CHARGES";
        "application licensing"; "technical service"; "connectivity" ]);
    ("Consultancy",
      [ "consultancy"; "consulting"; "consultant"; "advisory";
        "professional services"; "technical"; "organisational";
        "organizational"; "market"; "research"; "audit"; "accounting";
        "finance"; "tax"; "forensic";
        "HIRE OF CONSULTANTS"; "MANAGEMENT CONSULT"; "user research" ]);
    ("Construction",
      [ "construction"; "building"; "infrastructure"; "AUC";
        "capital"; "renewal"; "maintenance"; "estate"; "facilities";
        "refurbishment"; "repair"; "property"; "leasehold";
        "BUILDING SERVICE"; "ESTATE MANAGEMENT"; "PROPERTY MAINTENANCE";
        "vessel maintenance"; "motorcycle maintenance" ]);
    ("Operations",
      [ "TOC"; "train"; "rail"; "travel"; "accommodation"; "hotel";
        "vehicle"; "fleet"; "fuel"; "fares"; "aviation"; "franchise";
        "utilities"; "electricity"; "gas"; "water"; "energy";
        "marketing"; "advertising"; "campaign"; "media"; "PR";
        "postal"; "courier"; "mail";
        "ARVAL FUEL"; "RAIL FARES"; "ASYLUM SEEKER TRAVEL";
        "eurocontrol"; "flying charge"; "corporate travel" ]);
    ("Legal",
      [ "legal"; "barrister"; "solicitor"; "counsel"; "appeal";
        "litigation"; "tribunal"; "LEGAL ADVICE"; "LEGAL REPRESENTATION";
        "ADVERSE LEGAL"; "claim"; "liability" ]);
    ("HR/Staffing",
      [ "contingent labour"; "mandays"; "recruitment"; "contractor";
        "agency"; "temporary"; "staffing"; "personnel";
        "CONTINGENT LABOUR"; "PROJECT MANDAYS"; "AGENCY STAFF";
        "basic salary"; "salary"; "apprentice levy";
        "partner: staffing"; "technical partner"; "commercial partner" ]);
    ("Grants",
      [ "grant"; "grt"; "subsidy"; "subsid"; "aid"; "fund"; "payment to";
        "transfer";
        "GRT AID"; "CAP GRT"; "CURR GRT"; "CAPITAL GRANT"; "grant in aid" ]);
    ("Administrative",
      [ "business rates"; "insurance"; "car parking"; "parking";
        "conference"; "training"; "learning"; "subscription"; "membership";
        "office"; "stationery"; "supplies"; "camera"; "equipment";
        "bank charges"; "block charges"; "service charge"; "allocation";
        "PFI"; "unitary"; "suspense"; "GR/IR";
        "CS LEARNING"; "CONFERENCES"; "BPO VOLUMETRIC"; "DIRECT COSTS";
        "FM ALLOCATION"; "printing"; "non-stock"; "expense claim" ]) ].

Definition declared_DIRECT_EXPENSE_TYPE_MAPPING : DirectMapping :=
  [ ("HMRC",
      [ ("PROJECT Mandays Supp", "HR/Staffing");
        ("Utility Payments - electricity", "Operations");
        ("PROJECT Mandays HMRC", "HR/Staffing");
        ("Project Development", "IT");
        ("Physical Hosting and Infrastructure", "IT");
        ("System Maintenance", "IT");
        ("Property Management Services (Irrecoverable VAT)", "Construction");
        ("Project support", "IT");
        ("Desktop Services", "IT");
        ("Rent (Irrec VAT)", "Construction");
        ("Virtual Hosting and Infrastructure", "IT");
        ("IT Software Licenses and Support", "IT");
        ("Employee education", "Administrative");
        ("Contin Labor Build", "HR/Staffing");
        ("Contracted Services", "Operations");
        ("Consultancy - IT", "Consultancy");
        ("Projects VAT irrec", "IT");
        ("Tribunal appellant costs", "Legal");
        ("Maintenance fees", "Construction");
        ("Contingent Labour Build", "HR/Staffing") ]);
    ("Home Office",
      [ ("IT RUN COST", "IT");
        ("CONTINGENT LABOUR OTHER", "HR/Staffing");
        ("OTHER ICT COSTS", "IT");
        ("SYSTEM CLEARING", "IT");
        ("FULL COST", "HR/Staffing");
        ("RESEARCH AND DEVELOPMENT", "Consultancy");
        ("HOSTING", "IT");
        ("ASYLUM CASES", "Operations");
        ("END USER COMPUTER SOFTWARE", "IT");
        ("IN COUNTRY ESCORT", "Operations");
        ("ADVICE", "Consultancy");
        ("RUN COSTS", "Operations");
        ("SPECIALIST USER SOFTWARE & HARDWARE", "IT");
        ("BASIC SALARY", "HR/Staffing");
        ("CONTRACTS", "Operations");
        ("PROJECT", "IT");
        ("LEGAL ADVICE", "Legal");
        ("AD PRODUCTION", "Operations");
        ("FLEET MANAGEMENT", "Operations");
        ("OTHER", "Administrative") ]);
    ("DfT",
      [ ("TA Cost AUC - Programme", "Construction");
        ("TA Renewal of Roads - Capital", "Construction");
        ("Subsidies Private Se", "Grants");
        ("TA Renewal of Structures - Capital", "Construction");
        ("Cap Grt Loc Auth", "Grants");
        ("TA Cost AUC  Non SRN", "Construction");
        ("CM - Lump Sum Fees", "Construction");
        ("AUC - Phase 1", "Construction");
        ("Contractor Costs", "HR/Staffing");
        ("RM Cost Reimbursable", "Construction");
        ("TA Cost AUC – Non SRN", "Construction");
        ("Support Services", "Administrative");
        ("Research", "Consultancy");
        ("Professional Services", "Consultancy");
        ("Cap Grt Pri Sec-Cos.", "Grants");
        ("Mail Collection/Deli", "Operations");
        ("IT Ser Running Costs", "IT");
        ("Consultants Costs", "Consultancy");
        ("PFI Service Payments", "Administrative");
        ("TOCOpCosts(Pub)", "Operations") ]) ].

(** The thresholds are the values of the literals: [934_000] and the like
    are integers, [0.15] is the double 5404319552844595 / 2^55 and [0.10] the
    double 3602879701896397 / 2^55. *)
Definition declared_ANOMALY_THRESHOLDS : Thresholds := {|
  high_payment :=
    [ ("HMRC", 934000 # 1); ("Home Office", 884000 # 1); ("DfT", 1360000 # 1) ]%Q;
  concentration_threshold_spend := (5404319552844595 # 36028797018963968)%Q;
  concentration_threshold_txn := (3602879701896397 # 36028797018963968)%Q;
  duplicate_window_days := 7
|}.

(** The configuration of the repository. *)
Definition declared : t := {|
  CATEGORY_KEYWORDS := declared_CATEGORY_KEYWORDS;
  DIRECT_EXPENSE_TYPE_MAPPING := declared_DIRECT_EXPENSE_TYPE_MAPPING;
  ANOMALY_THRESHOLDS := declared_ANOMALY_THRESHOLDS
|}.

Definition mem (x : string) (l : list string) : bool :=
  existsb (String.eqb x) l.

Definition subset (l1 l2 : list string) : bool :=
  forallb (fun x => mem x l2) l1.

(** [set(a) == set(b)] *)
Definition set_eq (l1 l2 : list string) : bool :=
  subset l1 l2 && subset l2 l1.

(** Every key of a dictionary occurs once. *)
Fixpoint unique_keys (l : list (string * string)) : bool :=
  match l with
  | [] => true
  | k :: rest =>
      negb (existsb (fun k' => String.eqb (fst k) (fst k')
                               && String.eqb (snd k) (snd k')) rest)
      && unique_keys rest
  end.

(** [validate_config]: the keys of the keyword table are exactly the
    categories, every direct mapping targets a category, and the three
    departments have a high-payment threshold. *)
Definition validate_config (cfg : t) : Result unit :=
  if negb (set_eq (map fst (CATEGORY_KEYWORDS cfg)) CATEGORIES) then
    Raise ValueError
  else if negb (forallb (fun dm => subset (map snd (snd dm)) CATEGORIES)
                  (DIRECT_EXPENSE_TYPE_MAPPING cfg)) then
    Raise ValueError
  else if negb (subset ["HMRC"; "Home Office"; "DfT"]
                  (map fst (high_payment (ANOMALY_THRESHOLDS cfg)))) then
    Raise ValueError
  else Ok tt.

End Config.

(** ** config.py: the environment file *)

Module Environ.

(** [os.environ]: the names that are set, each with its value. *)
Definition t : Type := list (string * string).

Fixpoint getenv (key : string) (env : t) : option string :=
  match env with
  | [] => None
  | (k, v) :: rest => if String.eqb key k then Some v else getenv key rest
  end.

(** [key in os.environ] *)
Definition contains (key : string) (env : t) : bool :=
  match getenv key env with
  | Some _ => true
  | None => false
  end.

(** [os.environ[key] = value] for a name that is not set. *)
Definition setenv (key value : string) (env : t) : t := (key, value) :: env.

(** The characters that [str.strip()] removes, among the ASCII ones: tab,
    line feed, vertical tab, form feed, carriage return, the four
    separators 28 to 31 and the space. *)
Definition isspace (c : ascii) : bool :=
  let n := N_of_ascii c in
  ((9 <=? n)%N && (n <=? 13)%N) || ((28 <=? n)%N && (n <=? 32)%N).

Fixpoint lstrip (p : ascii -> bool) (s : string) : string :=
  match s with
  | EmptyString => EmptyString
  | String c rest => if p c then lstrip p rest else s
  end.

Fixpoint rstrip (p : ascii -> bool) (s : string) : string :=
  match s with
  | EmptyString => EmptyString
  | String c rest =>
      match rstrip p rest with
      | EmptyString => if p c then EmptyString else String c EmptyString
      | kept => String c kept
      end
  end.

(** [s.strip()] and [s.strip(chars)] *)
Definition strip (p : ascii -> bool) (s : string) : string :=
  lstrip p (rstrip p s).

(** [line.split("=", 1)] on a line that holds an equals sign, [None] on a
    line that holds none. *)
Fixpoint split_once (s : string) : option (string * string) :=
  match s with
  | EmptyString => None
  | String c rest =>
      if Ascii.eqb c "=" then Some (EmptyString, rest)
      else match split_once rest with
           | Some (key, value) => Some (String c key, value)
           | None => None
           end
  end.

(** The double quote. *)
Definition dquote : ascii := ascii_of_N 34.

Fixpoint has_nul (s : string) : bool :=
  match s with
  | EmptyString => false
  | String c rest => Ascii.eqb c "000" || has_nul rest
  end.

Definition first_char (s : string) : option ascii :=
  match s with
  | EmptyString => None
  | String c _ => Some c
  end.

Fixpoint last_char (s : string) : option ascii :=
  match s with
  | EmptyString => None
  | String c EmptyString => Some c
  | String _ rest => last_char rest
  end.

Fixpoint occurs (c : ascii) (s : string) : bool :=
  match s with
  | EmptyString => false
  | String x rest => Ascii.eqb x c || occurs c rest
  end.

(** Neither end of the string is a character of the class. *)
Definition clean_ends (p : ascii -> bool) (s : string) : Prop :=
  (forall c, first_char s = Some c -> p c = false)
  /\ (forall c, last_char s = Some c -> p c = false).

(** The name and the value that a line of the file gives, if it gives
    any: blank lines, comments and lines without an equals sign give
    none. *)
Definition parse_line (raw_line : string) : option (string * string) :=
  let line := strip isspace raw_line in
  if String.eqb line "" || Str.starts_with "#" line then None
  else
    match split_once line with
    | None => None
    | Some (key, value) =>
        let key := strip isspace key in
        let value :=
          strip (Ascii.eqb "'") (strip (Ascii.eqb dquote) (strip isspace value)) in
        Some (key, value)
    end.

(** One turn of the loop.  Setting a name or a value that holds a NUL
    character raises [ValueError]. *)
Definition load_line (raw_line : string) (env : t) : Result t :=
  match parse_line raw_line with
  | None => Ok env
  | Some (key, value) =>
      if negb (String.eqb key "") && negb (contains key env) then
        if has_nul key || has_nul value then Raise ValueError
        else Ok (setenv key value env)
      else Ok env
  end.

(** The loop over the lines: the environment when the loop ends, and the
    exception that ended it, if one did. *)
Fixpoint load_lines (lines : list string) (env : t) : t * option Exn :=
  match lines with
  | [] => (env, None)
  | raw_line :: rest =>
      match load_line raw_line env with
      | Ok env' => load_lines rest env'
      | Raise e => (env, Some e)
      end
  end.

(** [load_environment_variables]: [file] is [None] when the path does not
    exist, and the lines of its text ([read_text().splitlines()])
    otherwise. *)
Definition load_environment_variables (file : option (list string)) (env : t)
  : t * option Exn :=
  match file with
  | None => (env, None)
  | Some lines => load_lines lines env
  end.

End Environ.

(** ** The transaction table *)

(** One row of the standardised table.  Only the columns that the
    classifier and the detectors read are kept.  [category] is [None] while
    the table has no such column. *)
Record Row : Type := {
  department : string;
  supplier : string;
  amount : Q;
  date : Z;
  expense_type : string;
  description : string;
  category : option string
}.

Definition DataFrame : Type := list Row.

(** ** classify.py *)

Module Classify.

Import Config.

(** [pl.col('category')] on a row of a table that has the column. *)
Definition col_category (r : Row) : string :=
  match category r with
  | Some c => c
  | None => ""
  end.

Definition set_category (c : string) (r : Row) : Row := {|
  department := department r;
  supplier := supplier r;
  amount := amount r;
  date := date r;
  expense_type := expense_type r;
  description := description r;
  category := Some c
|}.

(** [df.with_columns(expr.alias('category'))]: the column is added, or
    replaced when the table already has one. *)
Definition with_category (expr : Row -> string) (df : DataFrame) : DataFrame :=
  map (fun r => set_category (expr r) r) df.

(** The list [tier0_conditions]: one [(department, expense_type)] test and
    its category per entry of the direct mapping, in declaration order. *)
Definition tier0_conditions (mapping : DirectMapping)
  : list ((string * string) * string) :=
  flat_map (fun dm => map (fun ec => ((fst dm, fst ec), snd ec)) (snd dm))
    mapping.

(** One [pl.when(condition).then(category).otherwise(expr)]. *)
Definition when_then_otherwise (r : Row) (expr : string)
  (cc : (string * string) * string) : string :=
  if String.eqb (department r) (fst (fst cc))
     && String.eqb (expense_type r) (snd (fst cc))
     && String.eqb (col_category r) ""
  then snd cc else expr.

(** The expression built by the loop over [tier0_conditions], evaluated on
    one row: a condition added later is tested before the earlier ones. *)
Definition tier0_expr (conds : list ((string * string) * string)) (r : Row)
  : string :=
  fold_left (when_then_otherwise r) conds (col_category r).

(** The pattern ['|'.join(f'(?i){kw}' for kw in keywords)] searched in [s].
    The keywords are read literally (see [keywords_are_literal]).  The join
    of no keyword is the empty pattern, which every string contains. *)
Definition str_contains (keywords : list string) (s : string) : bool :=
  match keywords with
  | [] => true
  | _ :: _ => existsb (fun kw => Str.contains_ci kw s) keywords
  end.

(** One iteration of the loops of Tier 1 and Tier 2 over
    [CATEGORY_KEYWORDS.items()]. *)
Definition keyword_step (field : Row -> string) (result : DataFrame)
  (ck : string * list string) : DataFrame :=
  with_category
    (fun r =>
       if String.eqb (col_category r) "" && str_contains (snd ck) (field r)
       then fst ck else col_category r)
    result.

Definition init_category (df : DataFrame) : DataFrame :=
  with_category (fun _ => "") df.

Definition tier0 (cfg : Config.t) (use_direct_map : bool) (result : DataFrame)
  : DataFrame :=
  if use_direct_map then
    with_category
      (tier0_expr (tier0_conditions (DIRECT_EXPENSE_TYPE_MAPPING cfg))) result
  else result.

Definition tier1 (cfg : Config.t) (result : DataFrame) : DataFrame :=
  fold_left (keyword_step description) (CATEGORY_KEYWORDS cfg) result.

Definition tier2 (cfg : Config.t) (result : DataFrame) : DataFrame :=
  fold_left (keyword_step expense_type) (CATEGORY_KEYWORDS cfg) result.

Definition mark_uncategorised (result : DataFrame) : DataFrame :=
  with_category
    (fun r => if String.eqb (col_category r) "" then "Uncategorised"
              else col_category r)
    result.

(** [classify_payments].  The progress messages divide by
    [stats['total'] = len(df)]; on a table without rows the first of them
    raises [ZeroDivisionError]. *)
Definition classify_payments (cfg : Config.t) (df : DataFrame)
  (use_direct_map : bool) : Result DataFrame :=
  let result := init_category df in
  let result := tier0 cfg use_direct_map result in
  if Nat.eqb (List.length df) 0 then Raise ZeroDivisionError else
  let result := tier1 cfg result in
  let result := tier2 cfg result in
  let result := mark_uncategorised result in
  Ok result.

(** The column rewrites of a run, in program order. *)
Definition rewrites (cfg : Config.t) (use_direct_map : bool)
  : list (DataFrame -> DataFrame) :=
  ([tier0 cfg use_direct_map]
   ++ map (fun ck df => keyword_step description df ck) (CATEGORY_KEYWORDS cfg)
   ++ map (fun ck df => keyword_step expense_type df ck) (CATEGORY_KEYWORDS cfg)
   ++ [mark_uncategorised])%list.

Definition run (fs : list (DataFrame -> DataFrame)) (df : DataFrame)
  : DataFrame :=
  fold_left (fun acc f => f acc) fs df.

(** Removing the [category] column of a table. *)
Definition drop_category (df : DataFrame) : DataFrame :=
  map (fun r => {|
    department := department r;
    supplier := supplier r;
    amount := amount r;
    date := date r;
    expense_type := expense_type r;
    description := description r;
    category := None
  |}) df.

(** The same rewrites on a single row. *)

Definition step_row (field : Row -> string) (r : Row)
  (ck : string * list string) : Row :=
  set_category
    (if String.eqb (col_category r) "" && str_contains (snd ck) (field r)
     then fst ck else col_category r) r.

Definition tier0_row (cfg : Config.t) (use_direct_map : bool) (r : Row) : Row :=
  if use_direct_map then
    set_category
      (tier0_expr (tier0_conditions (DIRECT_EXPENSE_TYPE_MAPPING cfg)) r) r
  else r.

Definition tier1_row (cfg : Config.t) (r : Row) : Row :=
  fold_left (step_row description) (CATEGORY_KEYWORDS cfg) r.

Definition tier2_row (cfg : Config.t) (r : Row) : Row :=
  fold_left (step_row expense_type) (CATEGORY_KEYWORDS cfg) r.

Definition mark_row (r : Row) : Row :=
  set_category
    (if String.eqb (col_category r) "" then "Uncategorised"
     else col_category r) r.

Definition classify_row (cfg : Config.t) (use_direct_map : bool) (r : Row)
  : Row :=
  mark_row
    (tier2_row cfg (tier1_row cfg (tier0_row cfg use_direct_map
                                     (set_category "" r)))).

(** The category that a run gives to a row, tier by tier. *)

Definition kw_cat (s : string) (table : KeywordTable) (c : string) : string :=
  fold_left
    (fun c ck => if String.eqb c "" && str_contains (snd ck) s
                 then fst ck else c)
    table c.

Definition tier0_cat (cfg : Config.t) (use_direct_map : bool) (r : Row)
  : string :=
  if use_direct_map then
    tier0_expr (tier0_conditions (DIRECT_EXPENSE_TYPE_MAPPING cfg))
      (set_category "" r)
  else "".

Definition tier1_cat (cfg : Config.t) (use_direct_map : bool) (r : Row)
  : string :=
  kw_cat (description r) (CATEGORY_KEYWORDS cfg) (tier0_cat cfg use_direct_map r).

Definition tier2_cat (cfg : Config.t) (use_direct_map : bool) (r : Row)
  : string :=
  kw_cat (expense_type r) (CATEGORY_KEYWORDS cfg) (tier1_cat cfg use_direct_map r).

Definition category_of (cfg : Config.t) (use_direct_map : bool) (r : Row)
  : string :=
  let c := tier2_cat cfg use_direct_map r in
  if String.eqb c "" then "Uncategorised" else c.

(** A second run on the outcome of a first one. *)
Definition and_then {A B : Type} (x : Result A) (f : A -> Result B)
  : Result B :=
  match x with
  | Ok v => f v
  | Raise e => Raise e
  end.

(** What the sentences on Tier 1 and Tier 0 speak of. *)

(** Some keyword of the list occurs in [s], case-insensitively. *)
Definition category_matches (keywords : list string) (s : string) : Prop :=
  exists kw, In kw keywords /\ Str.ci_substring kw s.

(** [c] is the first category, in the order of the table, one of whose
    keywords occurs in [s]. *)
Definition first_matching (table : KeywordTable) (s c : string) : Prop :=
  exists before keywords after,
    table = (before ++ (c, keywords) :: after)%list
    /\ category_matches keywords s
    /\ Forall (fun ck => ~ category_matches (snd ck) s) before.

(** The direct mapping has the entry [department -> expense_type -> c]. *)
Definition direct_entry (mapping : DirectMapping) (dept et c : string) : Prop :=
  exists m, In (dept, m) mapping /\ In (et, c) m.

End Classify.

(** ** anomalies.py *)

Module Anomalies.

Import Config.

Local Open Scope Q_scope.

(** *** Numbers *)

(** A value of a [Float64] column or of a Python [float]: the exact value
    of a finite double, an infinity or NaN. *)
Inductive float : Type :=
| Finite (q : Q)
| PosInf
| NegInf
| NaN.

(** binary64: 53 bits of mantissa, exponents below 1024. *)
Definition prec : Z := 53.
Definition emax : Z := 1024.

(** The value of a binary64 number of [SpecFloat]. *)
Definition of_spec (x : spec_float) : float :=
  match x with
  | S754_zero _ => Finite 0
  | S754_infinity false => PosInf
  | S754_infinity true => NegInf
  | S754_nan => NaN
  | S754_finite s m e =>
      let n := if s then Zneg m else Zpos m in
      match e with
      | Zneg k => Finite (Qred (n # (2 ^ k)))
      | _ => Finite (inject_Z (n * 2 ^ e))
      end
  end.

(** The double nearest to a rational, ties to the even mantissa, an
    infinity beyond the largest double: the rounded quotient of the
    numerator by the denominator. *)
Definition round64 (q : Q) : float :=
  match Qnum q with
  | Z0 => Finite 0
  | Zpos n =>
      of_spec (SFdiv prec emax (S754_finite false n 0)
                 (S754_finite false (Qden q) 0))
  | Zneg n =>
      of_spec (SFdiv prec emax (S754_finite true n 0)
                 (S754_finite false (Qden q) 0))
  end.

Definition Qgtb (x y : Q) : bool := negb (Qle_bool x y).

(** The infinity of the sign of a comparison with zero, NaN without a
    sign. *)
Definition inf_of (c : comparison) : float :=
  match c with
  | Gt => PosInf
  | Lt => NegInf
  | Eq => NaN
  end.

(** [x + y] *)
Definition fadd (x y : float) : float :=
  match x, y with
  | NaN, _ | _, NaN => NaN
  | PosInf, NegInf | NegInf, PosInf => NaN
  | PosInf, _ | _, PosInf => PosInf
  | NegInf, _ | _, NegInf => NegInf
  | Finite a, Finite b => round64 (a + b)
  end.

(** [x * y] *)
Definition fmul (x y : float) : float :=
  match x, y with
  | NaN, _ | _, NaN => NaN
  | Finite a, Finite b => round64 (a * b)
  | Finite a, PosInf | PosInf, Finite a => inf_of (a ?= 0)
  | Finite a, NegInf | NegInf, Finite a => inf_of (0 ?= a)
  | PosInf, PosInf | NegInf, NegInf => PosInf
  | PosInf, NegInf | NegInf, PosInf => NegInf
  end.

(** [x / y] on a Polars column: a division by zero gives an infinity or
    NaN. *)
Definition fdiv (x y : float) : float :=
  match x, y with
  | NaN, _ | _, NaN => NaN
  | Finite a, Finite b =>
      if Qeq_bool b 0 then inf_of (a ?= 0) else round64 (a / b)
  | Finite _, PosInf | Finite _, NegInf => Finite 0
  | PosInf, Finite b => if Qgtb 0 b then NegInf else PosInf
  | NegInf, Finite b => if Qgtb 0 b then PosInf else NegInf
  | PosInf, PosInf | PosInf, NegInf | NegInf, PosInf | NegInf, NegInf => NaN
  end.

Definition is_zero (v : float) : bool :=
  match v with
  | Finite b => Qeq_bool b 0
  | _ => false
  end.

(** [x / y] on two Python numbers: a zero divisor raises. *)
Definition py_div (x y : float) : Result float :=
  if is_zero y then Raise ZeroDivisionError else Ok (fdiv x y).

(** [v > t] on a Polars column: NaN is ordered above every number. *)
Definition fgt (v : float) (t : Q) : bool :=
  match v with
  | Finite q => Qgtb q t
  | PosInf => true
  | NegInf => false
  | NaN => true
  end.

(** [pl.col('amount').sum()] on the rows of a group.  Polars leaves the
    order of the additions open; here the amounts are added one after the
    other in the order of the rows, every partial sum rounded to a double.
    No statement on all tables depends on that order, and the totals of the
    sample tables are exact or have two terms, so that no order of the
    additions gives another double. *)
Definition sum_amount (rows : list Row) : float :=
  fold_left (fun acc r => fadd acc (Finite (amount r))) rows (Finite 0).

Definition len {A : Type} (l : list A) : Z := Z.of_nat (List.length l).

(** *** The anomaly table *)

Inductive dtype : Type := Utf8 | Float64 | Int64.

Definition dtype_eqb (a b : dtype) : bool :=
  match a, b with
  | Utf8, Utf8 | Float64, Float64 | Int64, Int64 => true
  | _, _ => false
  end.

(** The [details] text, kept as its template and the values formatted into
    it. *)
Inductive Details : Type :=
| PaymentExceeds (amount threshold : Q)
| PaidTimes (amount : Q) (count window_days : Z)
| ShareOfSpend (pct threshold_pct : float)
| ShareOfTransactions (pct threshold_pct : float).

Record Anomaly : Type := {
  anomaly_type : string;
  severity : string;
  anomaly_department : string;
  anomaly_supplier : string;
  details : Details;
  anomaly_amount : float;
  count : Z
}.

Record AnomalyFrame : Type := {
  schema : list (string * dtype);
  rows : list Anomaly
}.

Definition anomaly_schema : list (string * dtype) :=
  [ ("anomaly_type", Utf8); ("severity", Utf8); ("department", Utf8);
    ("supplier", Utf8); ("details", Utf8); ("amount", Float64);
    ("count", Int64) ]%string.

Definition _empty_anomaly_df : AnomalyFrame :=
  {| schema := anomaly_schema; rows := [] |}.

(** [pl.DataFrame(anomalies)] on a non-empty list of the dictionaries that
    the detectors build: the columns are the keys, in the order written. *)
Definition DataFrame_of_dicts (anomalies : list Anomaly) : AnomalyFrame :=
  {| schema := anomaly_schema; rows := anomalies |}.

Definition of_anomalies (anomalies : list Anomaly) : AnomalyFrame :=
  match anomalies with
  | _ :: _ => DataFrame_of_dicts anomalies
  | [] => _empty_anomaly_df
  end.

Definition schema_eqb (s1 s2 : list (string * dtype)) : bool :=
  Nat.eqb (List.length s1) (List.length s2)
  && forallb (fun p => String.eqb (fst (fst p)) (fst (snd p))
                       && dtype_eqb (snd (fst p)) (snd (snd p)))
       (combine s1 s2).

Fixpoint concat_onto (acc : AnomalyFrame) (items : list AnomalyFrame)
  : Result AnomalyFrame :=
  match items with
  | [] => Ok acc
  | f :: rest =>
      if schema_eqb (schema acc) (schema f) then
        concat_onto {| schema := schema acc; rows := (rows acc ++ rows f)%list |} rest
      else Raise SchemaError
  end.

(** [pl.concat(items, how="vertical")]: refuses the empty list
    ("cannot concat empty list") and frames of different schemas. *)
Definition pl_concat (items : list AnomalyFrame) : Result AnomalyFrame :=
  match items with
  | [] => Raise ValueError
  | f :: rest => concat_onto f rest
  end.

(** *** Grouping *)

Section GroupBy.

Context {K : Type}.
Variable eqb : K -> K -> bool.
Variable key : Row -> K.

(** The keys of a table, each once.  Polars leaves the order of the groups
    open; here it is the order of first occurrence. *)
Fixpoint distinct (ks : list K) : list K :=
  match ks with
  | [] => []
  | k :: rest => k :: filter (fun k' => negb (eqb k k')) (distinct rest)
  end.

Definition group_by (df : DataFrame) : list (K * DataFrame) :=
  map (fun k => (k, filter (fun r => eqb k (key r)) df))
    (distinct (map key df)).

End GroupBy.

(** *** High payments *)

Definition detect_high_payments (cfg : Config.t) (df : DataFrame)
  : AnomalyFrame :=
  let anomalies :=
    flat_map
      (fun dt : string * Q =>
         let (dept, threshold) := dt in
         let high :=
           filter (fun r => String.eqb (department r) dept
                            && Qgtb (amount r) threshold) df in
         map (fun row => {|
           anomaly_type := "high_payment";
           severity := "high";
           anomaly_department := department row;
           anomaly_supplier := supplier row;
           details := PaymentExceeds (amount row) threshold;
           anomaly_amount := Finite (amount row);
           count := 1
         |}) high)
      (high_payment (ANOMALY_THRESHOLDS cfg)) in
  of_anomalies anomalies.

(** *** Duplicate patterns *)

Fixpoint insert_date (d : Z) (l : list Z) : list Z :=
  match l with
  | [] => [d]
  | x :: rest => if (d <=? x)%Z then d :: l else x :: insert_date d rest
  end.

(** [pl.col('date').sort()] *)
Fixpoint sort (l : list Z) : list Z :=
  match l with
  | [] => []
  | d :: rest => insert_date d (sort rest)
  end.

Definition dup_key (r : Row) : string * string * Q :=
  (department r, supplier r, amount r).

Definition dup_key_eqb (a b : string * string * Q) : bool :=
  String.eqb (fst (fst a)) (fst (fst b))
  && String.eqb (snd (fst a)) (snd (fst b))
  && Qeq_bool (snd a) (snd b).

(** A row of [grouped]. *)
Record DupGroup : Type := {
  dup_department : string;
  dup_supplier : string;
  dup_amount : Q;
  dup_date : list Z;
  dup_count : Z
}.

Definition grouped (df : DataFrame) : list DupGroup :=
  map (fun g : (string * string * Q) * DataFrame => {|
    dup_department := fst (fst (fst g));
    dup_supplier := snd (fst (fst g));
    dup_amount := snd (fst g);
    dup_date := sort (map date (snd g));
    dup_count := len (snd g)
  |}) (group_by dup_key_eqb dup_key df).

(** The scan of the adjacent pairs of the sorted dates. *)
Fixpoint has_close_dates (dates : list Z) (window_days : Z) : bool :=
  match dates with
  | d0 :: rest =>
      match rest with
      | d1 :: _ =>
          if (d1 - d0 <=? window_days)%Z then true
          else has_close_dates rest window_days
      | [] => false
      end
  | [] => false
  end.

Definition detect_duplicate_patterns (cfg : Config.t) (df : DataFrame)
  : AnomalyFrame :=
  let potential_dupes := filter (fun g => (2 <=? dup_count g)%Z) (grouped df) in
  let window_days := duplicate_window_days (ANOMALY_THRESHOLDS cfg) in
  let anomalies :=
    flat_map
      (fun row =>
         if has_close_dates (dup_date row) window_days then
           let count := dup_count row in
           let severity := if (4 <=? count)%Z then "high" else "medium" in
           [ {| anomaly_type := "duplicate_pattern";
                severity := severity;
                anomaly_department := dup_department row;
                anomaly_supplier := dup_supplier row;
                details := PaidTimes (dup_amount row) count window_days;
                anomaly_amount := Finite (dup_amount row);
                count := count |} ]
         else [])
      potential_dupes in
  of_anomalies anomalies.

(** The check that the adjacent-pair scan stands for: some two records of
    the group, at different positions, lie at most [window_days] apart. *)
Definition naive_all_pairs (dates : list Z) (window_days : Z) : bool :=
  existsb
    (fun i =>
       existsb
         (fun j =>
            negb (Nat.eqb i j)
            && (Z.abs (nth j dates 0%Z - nth i dates 0%Z) <=? window_days)%Z)
         (seq 0 (List.length dates)))
    (seq 0 (List.length dates)).

(** *** Supplier concentration *)

Definition pair_key (r : Row) : string * string :=
  (department r, supplier r).

Definition pair_key_eqb (a b : string * string) : bool :=
  String.eqb (fst a) (fst b) && String.eqb (snd a) (snd b).

(** [left.join(right, on='department')]: every row of [left] with the value
    of the rows of [right] that have its department. *)
Definition join {L V : Type} (dept : L -> string) (left : list L)
  (right : list (string * V)) : list (L * V) :=
  flat_map
    (fun l => map (fun r => (l, snd r))
                (filter (fun r => String.eqb (dept l) (fst r)) right))
    left.

(** A row of [supplier_spend]. *)
Record SupplierSpend : Type := {
  spend_department : string;
  spend_supplier : string;
  supplier_total : float;
  txn_count : Z;
  dept_total : float
}.

(** A row of [supplier_txns]. *)
Record SupplierTxns : Type := {
  txns_department : string;
  txns_supplier : string;
  supplier_txn_count : Z;
  supplier_amount : float;
  dept_txn_total : Z
}.

Definition dept_spend (df : DataFrame) : list (string * float) :=
  map (fun g => (fst g, sum_amount (snd g)))
    (group_by String.eqb department df).

Definition supplier_spend (df : DataFrame) : list SupplierSpend :=
  map (fun j : ((string * string) * DataFrame) * float => {|
    spend_department := fst (fst (fst j));
    spend_supplier := snd (fst (fst j));
    supplier_total := sum_amount (snd (fst j));
    txn_count := len (snd (fst j));
    dept_total := snd j
  |})
  (join (fun g : (string * string) * DataFrame => fst (fst g))
     (group_by pair_key_eqb pair_key df) (dept_spend df)).

Definition dept_txns (df : DataFrame) : list (string * Z) :=
  map (fun g => (fst g, len (snd g)))
    (group_by String.eqb department df).

Definition supplier_txns (df : DataFrame) : list SupplierTxns :=
  map (fun j : ((string * string) * DataFrame) * Z => {|
    txns_department := fst (fst (fst j));
    txns_supplier := snd (fst (fst j));
    supplier_txn_count := len (snd (fst j));
    supplier_amount := sum_amount (snd (fst j));
    dept_txn_total := snd j
  |})
  (join (fun g : (string * string) * DataFrame => fst (fst g))
     (group_by pair_key_eqb pair_key df) (dept_txns df)).

(** The number of a count in a quotient. *)
Definition of_int (n : Z) : float := Finite (inject_Z n).

(** The loop over [high_spend]: the quotient of line 194 is one of Python
    floats and raises on a department whose total is zero. *)
Definition spend_results (cfg : Config.t) (df : DataFrame)
  : Result (list Anomaly) :=
  let threshold_spend := concentration_threshold_spend (ANOMALY_THRESHOLDS cfg) in
  let high_spend :=
    filter (fun row => fgt (fdiv (supplier_total row) (dept_total row))
                         threshold_spend)
      (supplier_spend df) in
  collect
    (fun row =>
       bind (py_div (supplier_total row) (dept_total row)) (fun quotient =>
       let pct := fmul quotient (Finite 100) in
       Ok {| anomaly_type := "supplier_concentration_spend";
             severity := "high";
             anomaly_department := spend_department row;
             anomaly_supplier := spend_supplier row;
             details :=
               ShareOfSpend pct (fmul (Finite threshold_spend) (Finite 100));
             anomaly_amount := supplier_total row;
             count := txn_count row |}))
    high_spend.

(** The loop over [high_txn]: the quotient of line 221 is one of two
    integers. *)
Definition txn_results (cfg : Config.t) (df : DataFrame)
  : Result (list Anomaly) :=
  let threshold_txn := concentration_threshold_txn (ANOMALY_THRESHOLDS cfg) in
  let high_txn :=
    filter (fun row => fgt (fdiv (of_int (supplier_txn_count row))
                                 (of_int (dept_txn_total row)))
                         threshold_txn)
      (supplier_txns df) in
  collect
    (fun row =>
       bind (py_div (of_int (supplier_txn_count row))
                    (of_int (dept_txn_total row))) (fun quotient =>
       let pct := fmul quotient (Finite 100) in
       Ok {| anomaly_type := "supplier_concentration_txn";
             severity := "medium";
             anomaly_department := txns_department row;
             anomaly_supplier := txns_supplier row;
             details :=
               ShareOfTransactions pct
                 (fmul (Finite threshold_txn) (Finite 100));
             anomaly_amount := supplier_amount row;
             count := supplier_txn_count row |}))
    high_txn.

(** [results] receives the spend anomalies, then the transaction ones. *)
Definition detect_supplier_concentration (cfg : Config.t) (df : DataFrame)
  : Result AnomalyFrame :=
  bind (spend_results cfg df) (fun spend =>
  bind (txn_results cfg df) (fun txn =>
  let results := (spend ++ txn)%list in
  Ok (of_anomalies results))).

(** *** The aggregator *)

Definition detect_anomalies (cfg : Config.t) (df : DataFrame)
  : Result AnomalyFrame :=
  let high_payments := detect_high_payments cfg df in
  let duplicates := detect_duplicate_patterns cfg df in
  bind (detect_supplier_concentration cfg df) (fun concentration =>
  let all_anomalies := [high_payments; duplicates; concentration] in
  match all_anomalies with
  | _ :: _ =>
      pl_concat (filter (fun a => (0 <? len (rows a))%Z) all_anomalies)
  | [] => Ok _empty_anomaly_df
  end).

(** *** What the sentences on the detectors speak of *)

(** The records of a department, and those of one of its suppliers. *)
Definition of_department (d : string) (df : DataFrame) : DataFrame :=
  filter (fun r => String.eqb d (department r)) df.

Definition of_supplier (d s : string) (df : DataFrame) : DataFrame :=
  filter (fun r => pair_key_eqb (d, s) (pair_key r)) df.

(** The records that share department, supplier and amount. *)
Definition of_payment (d s : string) (a : Q) (df : DataFrame) : DataFrame :=
  filter (fun r => dup_key_eqb (d, s, a) (dup_key r)) df.

(** The threshold configured for a department, if any. *)
Fixpoint threshold_of (dept : string) (table : list (string * Q)) : option Q :=
  match table with
  | [] => None
  | (d, t) :: rest => if String.eqb dept d then Some t else threshold_of dept rest
  end.

Definition exceeds_threshold (table : list (string * Q)) (r : Row) : bool :=
  match threshold_of (department r) table with
  | Some t => Qgtb (amount r) t
  | None => false
  end.

(** The anomaly of a record that exceeds the threshold of its department. *)
Definition high_payment_anomaly (table : list (string * Q)) (r : Row)
  : Anomaly := {|
  anomaly_type := "high_payment";
  severity := "high";
  anomaly_department := department r;
  anomaly_supplier := supplier r;
  details :=
    PaymentExceeds (amount r)
      match threshold_of (department r) table with
      | Some t => t
      | None => 0
      end;
  anomaly_amount := Finite (amount r);
  count := 1
|}.

(** A reported amount is the finite amount [a]. *)
Definition amount_is (v : float) (a : Q) : bool :=
  match v with
  | Finite q => Qeq_bool q a
  | _ => false
  end.

(** The anomalies of the table for one department, supplier and amount. *)
Definition duplicates_for (d s : string) (a : Q) (out : list Anomaly)
  : list Anomaly :=
  filter
    (fun x => String.eqb (anomaly_department x) d
              && String.eqb (anomaly_supplier x) s
              && amount_is (anomaly_amount x) a)
    out.

(** The anomalies of the table for one department and supplier and of one
    type. *)
Definition anomalies_for (ty d s : string) (out : list Anomaly) : list Anomaly :=
  filter (fun a => String.eqb (anomaly_type a) ty
                   && String.eqb (anomaly_department a) d
                   && String.eqb (anomaly_supplier a) s) out.

(** The position of a detector in the report. *)
Definition detector_rank (ty : string) : nat :=
  if String.eqb ty "high_payment" then 0
  else if String.eqb ty "duplicate_pattern" then 1
  else if String.eqb ty "supplier_concentration_spend" then 2
  else 3.

(** Some two members of the list, at different positions, are at most [w]
    apart. *)
Fixpoint close_pair (w : Z) (l : list Z) : Prop :=
  match l with
  | [] => False
  | x :: rest =>
      (exists y, In y rest /\ (Z.abs (y - x) <= w)%Z) \/ close_pair w rest
  end.

(** The order of two anomalies by their detectors. *)
Definition rank_le (a b : Anomaly) : Prop :=
  (detector_rank (anomaly_type a) <= detector_rank (anomaly_type b))%nat.

(** What the detector reports for the group of one key. *)
Definition duplicate_report (cfg : Config.t) (df : DataFrame)
  (k : string * string * Q) : list Anomaly :=
  let members := filter (fun r => dup_key_eqb k (dup_key r)) df in
  let window_days := duplicate_window_days (ANOMALY_THRESHOLDS cfg) in
  if (2 <=? len members)%Z
     && has_close_dates (sort (map date members)) window_days
  then
    [ {| anomaly_type := "duplicate_pattern";
         severity := if (4 <=? len members)%Z then "high" else "medium";
         anomaly_department := fst (fst k);
         anomaly_supplier := snd (fst k);
         details := PaidTimes (snd k) (len members) window_days;
         anomaly_amount := Finite (snd k);
         count := len members |} ]
  else [].

(** The anomaly of a supplier that holds too large a share of the spend of
    its department. *)
Definition spend_anomaly (cfg : Config.t) (df : DataFrame) (d s : string)
  : Anomaly :=
  let threshold_spend := concentration_threshold_spend (ANOMALY_THRESHOLDS cfg) in
  let total := sum_amount (of_supplier d s df) in
  let dept := sum_amount (of_department d df) in
  {| anomaly_type := "supplier_concentration_spend";
     severity := "high";
     anomaly_department := d;
     anomaly_supplier := s;
     details :=
       ShareOfSpend (fmul (fdiv total dept) (Finite 100))
         (fmul (Finite threshold_spend) (Finite 100));
     anomaly_amount := total;
     count := len (of_supplier d s df) |}.

(** What the spend variant reports for one department and supplier. *)
Definition spend_report (cfg : Config.t) (df : DataFrame) (k : string * string)
  : list Anomaly :=
  if fgt (fdiv (sum_amount (of_supplier (fst k) (snd k) df))
               (sum_amount (of_department (fst k) df)))
       (concentration_threshold_spend (ANOMALY_THRESHOLDS cfg))
  then [spend_anomaly cfg df (fst k) (snd k)] else [].

(** The spend variant lets the pair through and the total of its
    department is zero: the quotient of line 194 raises on its row. *)
Definition spend_fails (cfg : Config.t) (df : DataFrame) (k : string * string)
  : bool :=
  fgt (fdiv (sum_amount (of_supplier (fst k) (snd k) df))
            (sum_amount (of_department (fst k) df)))
    (concentration_threshold_spend (ANOMALY_THRESHOLDS cfg))
  && is_zero (sum_amount (of_department (fst k) df)).

(** The anomaly of a supplier that holds too large a share of the
    transactions of its department. *)
Definition txn_anomaly (cfg : Config.t) (df : DataFrame) (d s : string)
  : Anomaly :=
  let threshold_txn := concentration_threshold_txn (ANOMALY_THRESHOLDS cfg) in
  let n := len (of_supplier d s df) in
  let dept := len (of_department d df) in
  {| anomaly_type := "supplier_concentration_txn";
     severity := "medium";
     anomaly_department := d;
     anomaly_supplier := s;
     details :=
       ShareOfTransactions
         (fmul (fdiv (of_int n) (of_int dept)) (Finite 100))
         (fmul (Finite threshold_txn) (Finite 100));
     anomaly_amount := sum_amount (of_supplier d s df);
     count := n |}.

(** What the transaction variant reports for one department and supplier. *)
Definition txn_report (cfg : Config.t) (df : DataFrame) (k : string * string)
  : list Anomaly :=
  if fgt (fdiv (of_int (len (of_supplier (fst k) (snd k) df)))
               (of_int (len (of_department (fst k) df))))
       (concentration_threshold_txn (ANOMALY_THRESHOLDS cfg))
  then [txn_anomaly cfg df (fst k) (snd k)] else [].

(** The departments and suppliers of the table, each pair once. *)
Definition pairs (df : DataFrame) : list (string * string) :=
  distinct pair_key_eqb (map pair_key df).

(** The total of a group in exact arithmetic, and the share of a supplier
    in the spend of its department as a quotient of rationals. *)
Definition exact_total (rows : list Row) : Q :=
  fold_right (fun r acc => amount r + acc) 0 rows.

Definition exact_share (d s : string) (df : DataFrame) : Q :=
  exact_total (of_supplier d s df) / exact_total (of_department d df).

End Anomalies.

(** ** Sample tables *)

Module Samples.
Import Config Classify Anomalies.
Definition row (d s : string) (a : Q) (dt : Z) (et ds : string) : Row :=
  {| department := d; supplier := s; amount := a; date := dt;
     expense_type := et; description := ds; category := None |}.

Definition ledger : DataFrame :=
  [ row "HMRC" "ACME LTD" (934001 # 1) 20089 "System Maintenance" "capital works";
    row "HMRC" "ACME LTD" (100 # 1) 20090 "Fees" "Legal advice on IT";
    row "DfT" "BRIDGE CO" (100 # 1) 20091 "Sundry" "nothing to see";
    row "HMRC" "ACME LTD" (100 # 1) 20092 "train" "" ].

Definition ledger_classified : DataFrame :=
  [ set_category "IT" (nth 0 ledger (row "" "" 0 0 "" ""));
    set_category "IT" (nth 1 ledger (row "" "" 0 0 "" ""));
    set_category "Uncategorised" (nth 2 ledger (row "" "" 0 0 "" ""));
    set_category "Operations" (nth 3 ledger (row "" "" 0 0 "" "")) ].

(** Eleven payments of 100 to eleven suppliers of one department: no
    payment is high, none is repeated, and every supplier has one eleventh
    of the spend and of the transactions. *)
Definition quiet_ledger : DataFrame :=
  map (fun s => row "HMRC" s (100 # 1) 20089 "Fees" "sundry")
    [ "SUPPLIER A"; "SUPPLIER B"; "SUPPLIER C"; "SUPPLIER D"; "SUPPLIER E";
      "SUPPLIER F"; "SUPPLIER G"; "SUPPLIER H"; "SUPPLIER I"; "SUPPLIER J";
      "SUPPLIER K" ].

Definition ledger_anomalies : AnomalyFrame :=
  Eval vm_compute in
    match detect_anomalies declared ledger with
    | Ok out => out
    | Raise _ => _empty_anomaly_df
    end.

(** Payments at and just above the threshold of HMRC, and a payment of a
    department that has no threshold. *)
Definition high_ledger : DataFrame :=
  [ row "HMRC" "ACME LTD" (934000 # 1) 20089 "Fees" "at the threshold";
    row "HMRC" "ACME LTD" (934001 # 1) 20090 "Fees" "above the threshold";
    row "MoD" "TANKS PLC" (5000000 # 1) 20091 "Fees" "no threshold" ].

(** Three payments of 100 to one supplier on 2025-01-01, 2025-01-03 and
    2025-02-01. *)
Definition repeat_ledger : DataFrame :=
  [ row "HMRC" "ACME LTD" (100 # 1) 20089 "Fees" "first";
    row "HMRC" "ACME LTD" (100 # 1) 20120 "Fees" "third";
    row "HMRC" "ACME LTD" (100 # 1) 20091 "Fees" "second" ].

(** A department that spends 1,000,000, of which 160,000 with one supplier
    and 150,000 with another. *)
Definition share_ledger : DataFrame :=
  [ row "HMRC" "ALPHA" (100000 # 1) 20089 "Fees" "";
    row "HMRC" "BRAVO" (150000 # 1) 20090 "Fees" "";
    row "HMRC" "ALPHA" (60000 # 1) 20100 "Fees" "";
    row "HMRC" "CHARLIE" (230000 # 1) 20091 "Fees" "";
    row "HMRC" "DELTA" (230000 # 1) 20092 "Fees" "";
    row "HMRC" "ECHO" (230000 # 1) 20093 "Fees" "" ].

(** A department that pays 100 and is paid 100 back, and a department with
    one supplier. *)
Definition refund_ledger : DataFrame :=
  [ row "DfT" "ALPHA" (100 # 1) 20089 "Fees" "";
    row "DfT" "BRAVO" (-100 # 1) 20090 "Fees" "refund";
    row "HMRC" "CHARLIE" (500 # 1) 20091 "Fees" "" ].

(** The doubles 0.45 and 2.55, paid by one department to two suppliers. *)
Definition cents_ledger : DataFrame :=
  [ row "HMRC" "ALPHA" (8106479329266893 # 18014398509481984) 20089 "Fees" "";
    row "HMRC" "BRAVO" (2871044762448691 # 1125899906842624) 20090 "Fees" "" ].

(** Two payments of 100 to one supplier on 2025-01-01 and 2025-01-20. *)
Definition far_ledger : DataFrame :=
  [ row "HMRC" "ACME LTD" (100 # 1) 20089 "Fees" "first";
    row "HMRC" "ACME LTD" (100 # 1) 20108 "Fees" "second" ].

(** The lines of an environment file. *)
Definition dotenv : list string :=
  [ "# keys for the summary";
    "";
    ("ANTHROPIC_API_KEY = " ++ String Environ.dquote "sk-test"
     ++ String Environ.dquote "  ")%string;
    "ANTHROPIC_MODEL='claude'";
    "not a setting";
    "ANTHROPIC_API_KEY=second";
    "=orphan" ].
End Samples.

(** * Properties *)

(** ** Strings *)

Module StrFacts.

Import Str.

Lemma starts_with_spec (p s : string) :
  starts_with p s = true <-> exists post, s = (p ++ post)%string.
Proof.
  revert s; induction p as [|a p IH]; intros s; simpl.
  - split; [intros _; exists s; reflexivity | reflexivity].
  - destruct s as [|b s].
    + split; [discriminate | intros [post H]; discriminate].
    + rewrite andb_true_iff, Ascii.eqb_eq, IH. split.
      * intros [-> [post ->]]. exists post. reflexivity.
      * intros [post H]. injection H as -> ->. split; [reflexivity | eauto].
Qed.

Lemma contains_spec (p s : string) :
  contains p s = true <-> exists pre post, s = (pre ++ p ++ post)%string.
Proof.
  induction s as [|b s IH].
  - simpl. rewrite orb_false_r, starts_with_spec. split.
    + intros [post H]. exists EmptyString, post. exact H.
    + intros [pre [post H]]. destruct pre; simpl in H.
      * exists post. exact H.
      * discriminate.
  - cbn [contains]. rewrite orb_true_iff, starts_with_spec, IH. split.
    + intros [[post H] | [pre [post H]]].
      * exists EmptyString, post. exact H.
      * exists (String b pre), post. simpl. rewrite H. reflexivity.
    + intros [pre [post H]]. destruct pre as [|c pre]; simpl in H.
      * left. exists post. exact H.
      * right. injection H as _ H. exists pre, post. exact H.
Qed.

Lemma contains_ci_spec (kw s : string) :
  contains_ci kw s = true <-> ci_substring kw s.
Proof. unfold contains_ci, ci_substring. apply contains_spec. Qed.

End StrFacts.

(** ** The classifier *)

Module ClassifyFacts.

Import Config Classify.

Lemma col_category_set (c : string) (r : Row) :
  col_category (set_category c r) = c.
Proof. reflexivity. Qed.

Lemma set_category_twice (c c' : string) (r : Row) :
  set_category c (set_category c' r) = set_category c r.
Proof. reflexivity. Qed.

Lemma step_row_set (field : Row -> string) (r0 : Row) (c : string)
  (ck : string * list string) :
  (forall c', field (set_category c' r0) = field r0) ->
  step_row field (set_category c r0) ck
  = set_category
      (if String.eqb c "" && str_contains (snd ck) (field r0)
       then fst ck else c) r0.
Proof. intros Hf. unfold step_row. rewrite Hf. reflexivity. Qed.

Lemma fold_step_row (field : Row -> string) (r0 : Row) (table : KeywordTable) :
  (forall c', field (set_category c' r0) = field r0) ->
  forall c,
    fold_left (step_row field) table (set_category c r0)
    = set_category (kw_cat (field r0) table c) r0.
Proof.
  intros Hf. unfold kw_cat.
  induction table as [|ck table IH]; intros c; simpl.
  - reflexivity.
  - rewrite step_row_set by exact Hf. apply IH.
Qed.

Lemma keyword_fold_rows (field : Row -> string) (table : KeywordTable) :
  forall df,
    fold_left (keyword_step field) table df
    = map (fun r => fold_left (step_row field) table r) df.
Proof.
  induction table as [|ck table IH]; intros df; simpl.
  - symmetry. apply map_id.
  - rewrite IH. unfold keyword_step, with_category. rewrite map_map.
    reflexivity.
Qed.

Lemma classify_row_eq (cfg : Config.t) (b : bool) (r : Row) :
  classify_row cfg b r = set_category (category_of cfg b r) r.
Proof.
  unfold classify_row, category_of, tier2_cat, tier1_cat, tier0_cat.
  assert (H0 : tier0_row cfg b (set_category "" r)
               = set_category
                   (if b then tier0_expr
                               (tier0_conditions (DIRECT_EXPENSE_TYPE_MAPPING cfg))
                               (set_category "" r)
                    else "") r).
  { unfold tier0_row. destruct b; reflexivity. }
  rewrite H0. unfold tier1_row, tier2_row.
  rewrite (fold_step_row description) by reflexivity.
  rewrite (fold_step_row expense_type) by reflexivity.
  reflexivity.
Qed.

Lemma pipeline_rows (cfg : Config.t) (b : bool) (df : DataFrame) :
  mark_uncategorised (tier2 cfg (tier1 cfg (tier0 cfg b (init_category df))))
  = map (classify_row cfg b) df.
Proof.
  unfold mark_uncategorised, tier2, tier1.
  rewrite !keyword_fold_rows.
  assert (H0 : tier0 cfg b (init_category df)
               = map (fun r => tier0_row cfg b (set_category "" r)) df).
  { unfold tier0, tier0_row, init_category, with_category.
    destruct b; rewrite ?map_map; reflexivity. }
  rewrite H0. unfold with_category. rewrite !map_map. reflexivity.
Qed.

Lemma classify_payments_rows (cfg : Config.t) (df : DataFrame) (b : bool) :
  classify_payments cfg df b
  = if Nat.eqb (List.length df) 0 then Raise ZeroDivisionError
    else Ok (map (classify_row cfg b) df).
Proof.
  unfold classify_payments. destruct (Nat.eqb (List.length df) 0).
  - reflexivity.
  - rewrite pipeline_rows. reflexivity.
Qed.


(** *** The keyword tiers on one category value *)

Lemma kw_cat_keep (s : string) (table : KeywordTable) (c : string) :
  c <> "" -> kw_cat s table c = c.
Proof.
  unfold kw_cat. induction table as [|ck table IH]; intros Hc; simpl.
  - reflexivity.
  - apply String.eqb_neq in Hc as Hc'. rewrite Hc'. simpl. apply IH, Hc.
Qed.

Lemma kw_cat_cons (s : string) (ck : string * list string)
  (table : KeywordTable) (c : string) :
  kw_cat s (ck :: table) c
  = kw_cat s table
      (if String.eqb c "" && str_contains (snd ck) s then fst ck else c).
Proof. reflexivity. Qed.

Lemma kw_cat_none (s : string) (table : KeywordTable) :
  Forall (fun ck => str_contains (snd ck) s = false) table ->
  kw_cat s table "" = "".
Proof.
  induction 1 as [|ck table Hck _ IH].
  - reflexivity.
  - rewrite kw_cat_cons, Hck, andb_false_r. exact IH.
Qed.

Lemma kw_cat_first (s : string) (before after : KeywordTable)
  (c : string) (keywords : list string) :
  Forall (fun ck => str_contains (snd ck) s = false) before ->
  str_contains keywords s = true ->
  c <> "" ->
  kw_cat s (before ++ (c, keywords) :: after) "" = c.
Proof.
  intros Hb Hk Hc. induction Hb as [|ck before Hck _ IH].
  - simpl app. rewrite kw_cat_cons. simpl snd. rewrite Hk. simpl.
    apply kw_cat_keep, Hc.
  - simpl app. rewrite kw_cat_cons, Hck, andb_false_r. exact IH.
Qed.

Lemma kw_cat_in (s : string) (table : KeywordTable) (c : string) :
  kw_cat s table c = c \/ In (kw_cat s table c) (map fst table).
Proof.
  revert c. induction table as [|ck table IH]; intros c.
  - left. reflexivity.
  - rewrite kw_cat_cons.
    destruct (String.eqb c "" && str_contains (snd ck) s) eqn:E.
    + destruct (IH (fst ck)) as [H | H].
      * right. left. symmetry. exact H.
      * right. right. exact H.
    + destruct (IH c) as [H | H].
      * left. exact H.
      * right. right. exact H.
Qed.

Lemma str_contains_matches (keywords : list string) (s : string) :
  keywords <> [] ->
  (str_contains keywords s = true <-> category_matches keywords s).
Proof.
  intros Hne. unfold str_contains, category_matches.
  destruct keywords as [|k ks]; [contradiction|].
  rewrite existsb_exists. split.
  - intros [kw [Hin H]]. exists kw. split; [exact Hin|].
    apply StrFacts.contains_ci_spec, H.
  - intros [kw [Hin H]]. exists kw. split; [exact Hin|].
    apply StrFacts.contains_ci_spec, H.
Qed.

Lemma str_contains_no_match (keywords : list string) (s : string) :
  keywords <> [] ->
  ~ category_matches keywords s -> str_contains keywords s = false.
Proof.
  intros Hne Hno. destruct (str_contains keywords s) eqn:E; [|reflexivity].
  exfalso. apply Hno. apply str_contains_matches; assumption.
Qed.

(** *** The direct mapping *)

Lemma in_tier0_conditions (mapping : DirectMapping) (d e c : string) :
  In ((d, e), c) (tier0_conditions mapping) <-> direct_entry mapping d e c.
Proof.
  unfold tier0_conditions, direct_entry. rewrite in_flat_map. split.
  - intros [[d' m] [Hin H]]. simpl in H. apply in_map_iff in H.
    destruct H as [[e' c'] [Heq Hin']]. simpl in Heq.
    injection Heq as -> -> ->. exists m. split; assumption.
  - intros [m [Hin Hin']]. exists (d, m). split; [exact Hin|].
    simpl. apply in_map_iff. exists (e, c). split; [reflexivity | exact Hin'].
Qed.

Lemma fold_when_no_entry (r : Row) (conds : list ((string * string) * string)) :
  ~ In (department r, expense_type r) (map fst conds) ->
  forall expr, fold_left (when_then_otherwise r) conds expr = expr.
Proof.
  induction conds as [|cc conds IH]; intros Hno expr; simpl.
  - reflexivity.
  - rewrite IH by (intros H; apply Hno; right; exact H).
    unfold when_then_otherwise.
    destruct (String.eqb (department r) (fst (fst cc))) eqn:Ed; [|reflexivity].
    destruct (String.eqb (expense_type r) (snd (fst cc))) eqn:Ee; [|reflexivity].
    exfalso. apply Hno. left.
    apply String.eqb_eq in Ed, Ee. rewrite Ed, Ee.
    destruct cc as [[d e] c]. reflexivity.
Qed.

Lemma tier0_expr_no_entry (r : Row) (conds : list ((string * string) * string)) :
  ~ In (department r, expense_type r) (map fst conds) ->
  tier0_expr conds r = col_category r.
Proof. intros H. apply fold_when_no_entry, H. Qed.

Lemma tier0_expr_entry (r : Row) (conds : list ((string * string) * string))
  (c : string) :
  NoDup (map fst conds) ->
  In ((department r, expense_type r), c) conds ->
  col_category r = "" ->
  tier0_expr conds r = c.
Proof.
  intros Hnd Hin Hcat. apply in_split in Hin. destruct Hin as [l1 [l2 ->]].
  unfold tier0_expr. rewrite fold_left_app. simpl.
  rewrite map_app in Hnd. simpl in Hnd. apply NoDup_remove_2 in Hnd.
  rewrite fold_when_no_entry.
  - unfold when_then_otherwise. simpl. rewrite !String.eqb_refl, Hcat.
    reflexivity.
  - intros H. apply Hnd. apply in_or_app. right. exact H.
Qed.

Lemma tier0_expr_in (r : Row) (conds : list ((string * string) * string)) :
  tier0_expr conds r = col_category r
  \/ In (tier0_expr conds r) (map snd conds).
Proof.
  unfold tier0_expr. generalize (col_category r) as expr.
  induction conds as [|cc conds IH] using rev_ind; intros expr.
  - left. reflexivity.
  - rewrite fold_left_app, map_app. simpl.
    unfold when_then_otherwise at 1 3.
    destruct (String.eqb (department r) (fst (fst cc))
              && String.eqb (expense_type r) (snd (fst cc))
              && String.eqb (col_category r) "").
    + right. apply in_or_app. right. left. reflexivity.
    + destruct (IH expr) as [H | H].
      * left. exact H.
      * right. apply in_or_app. left. exact H.
Qed.


(** *** Valid configurations *)

Lemma mem_In (x : string) (l : list string) : mem x l = true <-> In x l.
Proof.
  unfold mem. rewrite existsb_exists. split.
  - intros [y [Hin H]]. apply String.eqb_eq in H. subst y. exact Hin.
  - intros H. exists x. split; [exact H | apply String.eqb_refl].
Qed.

Lemma subset_incl (l1 l2 : list string) :
  subset l1 l2 = true <-> incl l1 l2.
Proof.
  unfold subset, incl. rewrite forallb_forall. split.
  - intros H x Hx. apply mem_In, H, Hx.
  - intros H x Hx. apply mem_In, H, Hx.
Qed.

Lemma valid_keywords (cfg : Config.t) :
  validate_config cfg = Ok tt ->
  incl (map fst (CATEGORY_KEYWORDS cfg)) CATEGORIES.
Proof.
  unfold validate_config.
  destruct (set_eq (map fst (CATEGORY_KEYWORDS cfg)) CATEGORIES) eqn:E;
    simpl; [|discriminate].
  intros _. unfold set_eq in E. apply andb_true_iff in E.
  apply subset_incl, E.
Qed.

Lemma valid_mapping (cfg : Config.t) :
  validate_config cfg = Ok tt ->
  incl (map snd (tier0_conditions (DIRECT_EXPENSE_TYPE_MAPPING cfg))) CATEGORIES.
Proof.
  unfold validate_config.
  destruct (set_eq (map fst (CATEGORY_KEYWORDS cfg)) CATEGORIES);
    simpl; [|discriminate].
  destruct (forallb (fun dm => subset (map snd (snd dm)) CATEGORIES)
              (DIRECT_EXPENSE_TYPE_MAPPING cfg)) eqn:E; simpl; [|discriminate].
  intros _ c Hc. apply in_map_iff in Hc. destruct Hc as [[[d e] c'] [Hc Hin]].
  simpl in Hc. subst c'. apply in_tier0_conditions in Hin.
  destruct Hin as [m [Hm Hec]]. rewrite forallb_forall in E.
  specialize (E _ Hm). simpl in E. apply subset_incl in E. apply E.
  apply in_map_iff. exists (e, c). split; [reflexivity | exact Hec].
Qed.

Lemma categories_named : ~ In "" CATEGORIES.
Proof.
  intros H. apply mem_In in H. vm_compute in H. discriminate.
Qed.

Lemma tier0_cat_valid (cfg : Config.t) (b : bool) (r : Row) :
  validate_config cfg = Ok tt ->
  tier0_cat cfg b r = "" \/ In (tier0_cat cfg b r) CATEGORIES.
Proof.
  intros Hv. unfold tier0_cat. destruct b; [|left; reflexivity].
  destruct (tier0_expr_in (set_category "" r)
              (tier0_conditions (DIRECT_EXPENSE_TYPE_MAPPING cfg))) as [H | H].
  - left. exact H.
  - right. apply (valid_mapping cfg Hv), H.
Qed.

Lemma kw_cat_valid (cfg : Config.t) (s c : string) :
  validate_config cfg = Ok tt ->
  c = "" \/ In c CATEGORIES ->
  kw_cat s (CATEGORY_KEYWORDS cfg) c = ""
  \/ In (kw_cat s (CATEGORY_KEYWORDS cfg) c) CATEGORIES.
Proof.
  intros Hv Hc. destruct (kw_cat_in s (CATEGORY_KEYWORDS cfg) c) as [H | H].
  - rewrite H. exact Hc.
  - right. apply (valid_keywords cfg Hv), H.
Qed.

Lemma category_of_valid (cfg : Config.t) (b : bool) (r : Row) :
  validate_config cfg = Ok tt ->
  category_of cfg b r <> ""
  /\ (In (category_of cfg b r) CATEGORIES
      \/ category_of cfg b r = "Uncategorised").
Proof.
  intros Hv. unfold category_of.
  assert (H2 : tier2_cat cfg b r = "" \/ In (tier2_cat cfg b r) CATEGORIES).
  { unfold tier2_cat, tier1_cat.
    apply kw_cat_valid; [exact Hv|]. apply kw_cat_valid; [exact Hv|].
    apply tier0_cat_valid, Hv. }
  destruct (String.eqb (tier2_cat cfg b r) "") eqn:E.
  - split; [discriminate | right; reflexivity].
  - apply String.eqb_neq in E. destruct H2 as [H2 | H2]; [contradiction|].
    split; [exact E | left; exact H2].
Qed.

(** *** Rewrites never touch a category that is set *)

Lemma set_col_category (r : Row) :
  col_category r <> "" -> set_category (col_category r) r = r.
Proof.
  destruct r as [d s a dt e ds [c|]]; simpl; intros H.
  - reflexivity.
  - contradiction.
Qed.

Lemma tier0_expr_keep (r : Row) (conds : list ((string * string) * string)) :
  col_category r <> "" -> tier0_expr conds r = col_category r.
Proof.
  intros H. apply String.eqb_neq in H. unfold tier0_expr.
  generalize (col_category r) as expr.
  induction conds as [|cc conds IH]; intros expr; simpl.
  - reflexivity.
  - rewrite IH. unfold when_then_otherwise. rewrite H, andb_false_r.
    reflexivity.
Qed.

Lemma tier0_row_keep (cfg : Config.t) (b : bool) (r : Row) :
  col_category r <> "" -> tier0_row cfg b r = r.
Proof.
  intros H. unfold tier0_row. destruct b; [|reflexivity].
  rewrite tier0_expr_keep by exact H. apply set_col_category, H.
Qed.

Lemma step_row_keep (field : Row -> string) (r : Row)
  (ck : string * list string) :
  col_category r <> "" -> step_row field r ck = r.
Proof.
  intros H. unfold step_row. apply String.eqb_neq in H as H'. rewrite H'.
  simpl. apply set_col_category, H.
Qed.

Lemma mark_row_keep (r : Row) : col_category r <> "" -> mark_row r = r.
Proof.
  intros H. unfold mark_row. apply String.eqb_neq in H as H'. rewrite H'.
  apply set_col_category, H.
Qed.

Lemma rewrites_rowwise (cfg : Config.t) (b : bool)
  (f : DataFrame -> DataFrame) :
  In f (rewrites cfg b) ->
  exists g : Row -> Row,
    (forall df, f df = map g df)
    /\ (forall r, col_category r <> "" -> g r = r).
Proof.
  unfold rewrites. intros H.
  apply in_app_or in H. destruct H as [H | H].
  { destruct H as [<- | []]. exists (tier0_row cfg b). split.
    - intros df. unfold tier0, tier0_row, with_category.
      destruct b; [reflexivity | symmetry; apply map_id].
    - intros r. apply tier0_row_keep. }
  apply in_app_or in H. destruct H as [H | H].
  { apply in_map_iff in H. destruct H as [ck [<- _]].
    exists (fun r => step_row description r ck). split.
    - reflexivity.
    - intros r. apply step_row_keep. }
  apply in_app_or in H. destruct H as [H | H].
  { apply in_map_iff in H. destruct H as [ck [<- _]].
    exists (fun r => step_row expense_type r ck). split.
    - reflexivity.
    - intros r. apply step_row_keep. }
  destruct H as [<- | []]. exists mark_row. split.
  - reflexivity.
  - intros r. apply mark_row_keep.
Qed.

Lemma run_app (fs gs : list (DataFrame -> DataFrame)) (df : DataFrame) :
  run (fs ++ gs) df = run gs (run fs df).
Proof. unfold run. apply fold_left_app. Qed.

Lemma run_keyword_steps (field : Row -> string) (table : KeywordTable) :
  forall df,
    run (map (fun ck df => keyword_step field df ck) table) df
    = fold_left (keyword_step field) table df.
Proof.
  unfold run. induction table as [|ck table IH]; intros df; simpl.
  - reflexivity.
  - apply IH.
Qed.

Lemma run_rewrites (cfg : Config.t) (b : bool) (df : DataFrame) :
  run (rewrites cfg b) (init_category df)
  = mark_uncategorised (tier2 cfg (tier1 cfg (tier0 cfg b (init_category df)))).
Proof.
  unfold rewrites. rewrite !run_app, !run_keyword_steps. reflexivity.
Qed.


(** *** The declared configuration *)

Lemma unique_keys_NoDup (l : list (string * string)) :
  unique_keys l = true -> NoDup l.
Proof.
  induction l as [|k l IH]; simpl; intros H.
  - constructor.
  - apply andb_true_iff in H. destruct H as [Hk Hl]. constructor.
    + intros Hin. apply negb_true_iff in Hk.
      assert (E : existsb (fun k' => String.eqb (fst k) (fst k')
                                    && String.eqb (snd k) (snd k')) l = true).
      { apply existsb_exists. exists k. split; [exact Hin|].
        rewrite !String.eqb_refl. reflexivity. }
      rewrite E in Hk. discriminate.
    + apply IH, Hl.
Qed.

Lemma declared_valid : validate_config declared = Ok tt.
Proof. vm_compute. reflexivity. Qed.

Lemma declared_mapping_unique :
  NoDup (map fst (tier0_conditions declared_DIRECT_EXPENSE_TYPE_MAPPING)).
Proof. apply unique_keys_NoDup. vm_compute. reflexivity. Qed.

Lemma declared_keywords_nonempty :
  Forall (fun ck : string * list string => snd ck <> [])
    declared_CATEGORY_KEYWORDS.
Proof. repeat constructor; discriminate. Qed.

(** No keyword holds a character that a regular expression reads
    specially, so the pattern built from them searches them literally. *)
Lemma keywords_are_literal :
  forallb (fun ck : string * list string => forallb Str.regex_literal (snd ck))
    declared_CATEGORY_KEYWORDS = true.
Proof. vm_compute. reflexivity. Qed.

Lemma declared_category_named (c : string) :
  In c (map fst declared_CATEGORY_KEYWORDS) -> c <> "".
Proof.
  intros H Hc. subst c. apply categories_named.
  apply (valid_keywords declared declared_valid), H.
Qed.

(** *** First match in a keyword table *)

Lemma first_matching_kw_cat (table : KeywordTable) (s c : string) :
  Forall (fun ck : string * list string => snd ck <> []) table ->
  c <> "" ->
  first_matching table s c -> kw_cat s table "" = c.
Proof.
  intros Hne Hc [before [keywords [after [-> [Hm Hb]]]]].
  apply kw_cat_first.
  - apply Forall_app in Hne. destruct Hne as [Hne _].
    rewrite Forall_forall in *. intros ck Hin.
    apply str_contains_no_match; [apply Hne, Hin | apply Hb, Hin].
  - apply str_contains_matches; [|exact Hm].
    apply Forall_app in Hne. destruct Hne as [_ Hne].
    inversion Hne; assumption.
  - exact Hc.
Qed.

Lemma first_matching_exists (table : KeywordTable) (s : string) :
  Forall (fun ck : string * list string => snd ck <> []) table ->
  (exists ck, In ck table /\ category_matches (snd ck) s) ->
  exists c, first_matching table s c.
Proof.
  induction 1 as [|ck table Hck Hne IH]; intros [ck' [Hin Hm]].
  - destruct Hin.
  - destruct (str_contains (snd ck) s) eqn:E.
    + exists (fst ck), [], (snd ck), table. split; [|split].
      * destruct ck; reflexivity.
      * apply str_contains_matches; assumption.
      * constructor.
    + assert (Hno : ~ category_matches (snd ck) s).
      { intros Hm'. apply str_contains_matches in Hm'; [|exact Hck].
        congruence. }
      destruct Hin as [-> | Hin]; [contradiction|].
      destruct IH as [c [before [keywords [after [-> [Hm' Hb]]]]]].
      { exists ck'. split; assumption. }
      exists c, (ck :: before), keywords, after. split; [|split].
      * reflexivity.
      * exact Hm'.
      * constructor; assumption.
Qed.

Lemma no_match_kw_cat (table : KeywordTable) (s : string) :
  Forall (fun ck : string * list string => snd ck <> []) table ->
  (forall ck, In ck table -> ~ category_matches (snd ck) s) ->
  kw_cat s table "" = "".
Proof.
  intros Hne Hno. apply kw_cat_none. rewrite Forall_forall in *.
  intros ck Hin. apply str_contains_no_match; [apply Hne, Hin | apply Hno, Hin].
Qed.

Lemma first_matching_in (table : KeywordTable) (s c : string) :
  first_matching table s c -> In c (map fst table).
Proof.
  intros [before [keywords [after [-> _]]]]. rewrite map_app.
  apply in_or_app. right. left. reflexivity.
Qed.

(** *** Rows of the intermediate tables *)

Lemma tier0_rows (cfg : Config.t) (b : bool) (df : DataFrame) :
  tier0 cfg b (init_category df)
  = map (fun r => set_category (tier0_cat cfg b r) r) df.
Proof.
  unfold tier0, tier0_cat, init_category, with_category.
  destruct b; rewrite ?map_map; reflexivity.
Qed.

Lemma tier1_rows (cfg : Config.t) (b : bool) (df : DataFrame) :
  tier1 cfg (tier0 cfg b (init_category df))
  = map (fun r => set_category (tier1_cat cfg b r) r) df.
Proof.
  unfold tier1. rewrite keyword_fold_rows, tier0_rows, map_map.
  apply map_ext. intros r.
  rewrite (fold_step_row description) by reflexivity. reflexivity.
Qed.

Lemma classify_payments_nth (cfg : Config.t) (df : DataFrame) (b : bool)
  (i : nat) (r : Row) :
  nth_error df i = Some r ->
  exists out,
    classify_payments cfg df b = Ok out
    /\ nth_error out i = Some (set_category (category_of cfg b r) r).
Proof.
  intros H. rewrite classify_payments_rows.
  destruct df as [|r0 df]; [destruct i; discriminate|].
  cbn [List.length Nat.eqb]. eexists. split; [reflexivity|].
  rewrite nth_error_map, H. simpl. rewrite classify_row_eq. reflexivity.
Qed.


(** *** Tier 1 *)

(** C2.  A record that Tier 0 left unclassified and whose description
    holds, case-insensitively, a keyword of some category receives from
    [classify_payments] the first category of [CATEGORY_KEYWORDS], in
    declaration order, that has such a keyword: Tier 1 assigns it and
    nothing later changes it.  A record whose description holds no keyword
    of any category is still unclassified after Tier 1. *)
Theorem tier1_first_category_wins (df : DataFrame) (b : bool) (i : nat)
  (r : Row) :
  nth_error (tier0 declared b (init_category df)) i = Some r ->
  col_category r = "" ->
  ((exists ck, In ck (CATEGORY_KEYWORDS declared)
               /\ category_matches (snd ck) (description r)) ->
   exists c,
     first_matching (CATEGORY_KEYWORDS declared) (description r) c
     /\ nth_error (tier1 declared (tier0 declared b (init_category df))) i
        = Some (set_category c r)
     /\ exists out,
          classify_payments declared df b = Ok out
          /\ nth_error out i = Some (set_category c r))
  /\ ((forall ck, In ck (CATEGORY_KEYWORDS declared) ->
                  ~ category_matches (snd ck) (description r)) ->
      nth_error (tier1 declared (tier0 declared b (init_category df))) i
      = Some (set_category "" r)).
Proof.
  intros Hr Hcat. rewrite tier0_rows, nth_error_map in Hr.
  destruct (nth_error df i) as [r0|] eqn:Hr0; [|discriminate].
  cbn [option_map] in Hr. injection Hr as <-.
  change (tier0_cat declared b r0 = "") in Hcat.
  rewrite tier1_rows, nth_error_map, Hr0. cbn [option_map].
  change (description (set_category (tier0_cat declared b r0) r0))
    with (description r0).
  assert (H1 : tier1_cat declared b r0
               = kw_cat (description r0) declared_CATEGORY_KEYWORDS "").
  { unfold tier1_cat. rewrite Hcat. reflexivity. }
  split.
  - intros Hex.
    destruct (first_matching_exists _ _ declared_keywords_nonempty Hex)
      as [c Hc].
    assert (Hne : c <> "").
    { apply declared_category_named, (first_matching_in _ _ _ Hc). }
    assert (Hk : tier1_cat declared b r0 = c).
    { rewrite H1.
      apply first_matching_kw_cat;
        [exact declared_keywords_nonempty | exact Hne | exact Hc]. }
    exists c. split; [exact Hc|]. split.
    + rewrite Hk. reflexivity.
    + destruct (classify_payments_nth declared df b i r0 Hr0) as [out [Ho Hn]].
      exists out. split; [exact Ho|]. rewrite Hn.
      unfold category_of, tier2_cat. rewrite Hk.
      rewrite kw_cat_keep by exact Hne.
      apply String.eqb_neq in Hne. rewrite Hne. reflexivity.
  - intros Hno. rewrite H1.
    rewrite (no_match_kw_cat _ _ declared_keywords_nonempty Hno).
    reflexivity.
Qed.

(** *** The category column after a run *)

(** C5.  Under a valid configuration a run that returns gives every record
    one category, which is one of the eight declared categories or
    [Uncategorised] and is not the empty string; and no rewrite of the run
    changes the row of a record whose category is already set. *)
Theorem classify_payments_category_closed (cfg : Config.t) (df : DataFrame)
  (b : bool) (out : DataFrame) :
  validate_config cfg = Ok tt ->
  classify_payments cfg df b = Ok out ->
  List.length out = List.length df
  /\ Forall (fun r => exists c,
                category r = Some c /\ c <> ""
                /\ (In c CATEGORIES \/ c = "Uncategorised")) out
  /\ out = run (rewrites cfg b) (init_category df)
  /\ forall before f after i r,
       rewrites cfg b = before ++ f :: after ->
       nth_error (run before (init_category df)) i = Some r ->
       col_category r <> "" ->
       nth_error (f (run before (init_category df))) i = Some r.
Proof.
  intros Hv Hout. rewrite classify_payments_rows in Hout.
  destruct (Nat.eqb (List.length df) 0); [discriminate|].
  injection Hout as <-. split; [apply length_map|]. split; [|split].
  - apply Forall_map, Forall_forall. intros r _.
    rewrite classify_row_eq. exists (category_of cfg b r).
    split; [reflexivity|]. apply category_of_valid, Hv.
  - rewrite run_rewrites, pipeline_rows. reflexivity.
  - intros before f after i r Hsplit Hr Hc.
    destruct (rewrites_rowwise cfg b f) as [g [Hg Hkeep]].
    { rewrite Hsplit. apply in_or_app. right. left. reflexivity. }
    rewrite Hg, nth_error_map, Hr. simpl. rewrite Hkeep by exact Hc.
    reflexivity.
Qed.

(** *** Tier 0 *)

(** C6.  With the direct mapping enabled, a record whose department and
    expense type have an entry in [DIRECT_EXPENSE_TYPE_MAPPING] receives
    the mapped category, whatever its description holds.  The entry is
    looked up by equality of strings: without an entry for exactly this
    pair, Tier 0 leaves the record unclassified. *)
Theorem direct_mapping_takes_precedence (df : DataFrame) (i : nat) (r : Row) :
  nth_error df i = Some r ->
  (forall c,
     direct_entry (DIRECT_EXPENSE_TYPE_MAPPING declared)
       (department r) (expense_type r) c ->
     exists out,
       classify_payments declared df true = Ok out
       /\ nth_error out i = Some (set_category c r))
  /\ ((forall c,
         ~ direct_entry (DIRECT_EXPENSE_TYPE_MAPPING declared)
             (department r) (expense_type r) c) ->
      nth_error (tier0 declared true (init_category df)) i
      = Some (set_category "" r)).
Proof.
  intros Hr. split.
  - intros c Hc.
    destruct (classify_payments_nth declared df true i r Hr) as [out [Ho Hn]].
    exists out. split; [exact Ho|]. rewrite Hn.
    assert (H0 : tier0_cat declared true r = c).
    { unfold tier0_cat. apply tier0_expr_entry.
      - exact declared_mapping_unique.
      - apply in_tier0_conditions. exact Hc.
      - reflexivity. }
    assert (Hne : c <> "").
    { intros ->. apply categories_named.
      apply (valid_mapping declared declared_valid).
      apply in_map_iff. exists ((department r, expense_type r), "").
      split; [reflexivity|]. apply in_tier0_conditions. exact Hc. }
    unfold category_of, tier2_cat, tier1_cat. rewrite H0.
    rewrite (kw_cat_keep (description r)) by exact Hne.
    rewrite (kw_cat_keep (expense_type r)) by exact Hne.
    apply String.eqb_neq in Hne. rewrite Hne. reflexivity.
  - intros Hno. rewrite tier0_rows, nth_error_map, Hr. simpl.
    unfold tier0_cat. rewrite tier0_expr_no_entry; [reflexivity|].
    intros Hin. apply in_map_iff in Hin. destruct Hin as [[[d e] c] [Hk Hin]].
    simpl in Hk. injection Hk as -> ->.
    apply (Hno c). apply in_tier0_conditions. exact Hin.
Qed.

(** *** Re-running the classifier *)

Lemma category_of_set (cfg : Config.t) (b : bool) (c : string) (r : Row) :
  category_of cfg b (set_category c r) = category_of cfg b r.
Proof. reflexivity. Qed.

(** C9.  The classifier replaces whatever [category] column its input
    carries: the run on a table is the run on the same table without the
    column, and running the classifier again on its own output returns
    that output. *)
Theorem classify_payments_idempotent (cfg : Config.t) (df : DataFrame)
  (b : bool) :
  classify_payments cfg df b = classify_payments cfg (drop_category df) b
  /\ and_then (classify_payments cfg df b)
       (fun out => classify_payments cfg out b)
     = classify_payments cfg df b.
Proof.
  split.
  - rewrite !classify_payments_rows. unfold drop_category.
    rewrite length_map, map_map. reflexivity.
  - rewrite classify_payments_rows.
    destruct (Nat.eqb (List.length df) 0) eqn:E; [reflexivity|].
    simpl and_then. rewrite classify_payments_rows, length_map, E, map_map.
    f_equal. apply map_ext. intros r.
    rewrite !classify_row_eq, category_of_set. reflexivity.
Qed.


(** *** The theorems at the sample ledger *)

Lemma tier1_first_category_wins_witness :
  let r := set_category "" (nth 1 Samples.ledger (Samples.row "" "" 0 0 "" "")) in
  nth_error (tier0 declared true (init_category Samples.ledger)) 1 = Some r
  /\ col_category r = ""
  /\ exists c,
       first_matching (CATEGORY_KEYWORDS declared) (description r) c
       /\ nth_error
            (tier1 declared (tier0 declared true (init_category Samples.ledger)))
            1
          = Some (set_category c r)
       /\ exists out,
            classify_payments declared Samples.ledger true = Ok out
            /\ nth_error out 1 = Some (set_category c r).
Proof.
  intros r.
  assert (H1 : nth_error (tier0 declared true (init_category Samples.ledger)) 1
               = Some r) by (vm_compute; reflexivity).
  assert (H2 : col_category r = "") by reflexivity.
  split; [exact H1|]. split; [exact H2|].
  apply (proj1 (tier1_first_category_wins Samples.ledger true 1 r H1 H2)).
  exists (nth 0 declared_CATEGORY_KEYWORDS ("", [])).
  split; [left; reflexivity|].
  exists "IT". split; [right; left; reflexivity|].
  apply StrFacts.contains_ci_spec. vm_compute. reflexivity.
Defined.

Lemma classify_payments_category_closed_witness :
  validate_config declared = Ok tt
  /\ classify_payments declared Samples.ledger true
     = Ok Samples.ledger_classified
  /\ List.length Samples.ledger_classified = List.length Samples.ledger
  /\ Forall (fun r => exists c,
                category r = Some c /\ c <> ""
                /\ (In c CATEGORIES \/ c = "Uncategorised"))
       Samples.ledger_classified.
Proof.
  assert (H1 : validate_config declared = Ok tt) by (vm_compute; reflexivity).
  assert (H2 : classify_payments declared Samples.ledger true
               = Ok Samples.ledger_classified) by (vm_compute; reflexivity).
  split; [exact H1|]. split; [exact H2|].
  destruct (classify_payments_category_closed declared Samples.ledger true
              Samples.ledger_classified H1 H2) as [Hl [Hf _]].
  split; [exact Hl | exact Hf].
Defined.

Lemma direct_mapping_takes_precedence_witness :
  let r := nth 0 Samples.ledger (Samples.row "" "" 0 0 "" "") in
  nth_error Samples.ledger 0 = Some r
  /\ direct_entry (DIRECT_EXPENSE_TYPE_MAPPING declared)
       (department r) (expense_type r) "IT"
  /\ exists out,
       classify_payments declared Samples.ledger true = Ok out
       /\ nth_error out 0 = Some (set_category "IT" r).
Proof.
  intros r.
  assert (H1 : nth_error Samples.ledger 0 = Some r) by reflexivity.
  assert (H2 : direct_entry (DIRECT_EXPENSE_TYPE_MAPPING declared)
                 (department r) (expense_type r) "IT").
  { exists (snd (nth 0 declared_DIRECT_EXPENSE_TYPE_MAPPING ("", []))).
    split; [left; reflexivity|]. simpl. tauto. }
  split; [exact H1|]. split; [exact H2|].
  apply (proj1 (direct_mapping_takes_precedence Samples.ledger 0 r H1) "IT" H2).
Defined.

(** The order of the categories decides, not the keyword: "capital" is a
    keyword of Construction, but it holds "IT", a keyword of the first
    category. *)
Example first_category_beats_better_keyword :
  classify_payments declared
    [Samples.row "DfT" "ROADS LTD" (10 # 1) 20089 "Sundry" "capital works"]
    false
  = Ok [set_category "IT"
          (Samples.row "DfT" "ROADS LTD" (10 # 1) 20089 "Sundry"
             "capital works")].
Proof. vm_compute. reflexivity. Qed.

(** The direct mapping has "IN COUNTRY ESCORT" for the Home Office; the same
    words in another case or with a space before them are not looked up
    there. *)
Example direct_mapping_is_exact :
  map category
    (tier0 declared true
       (init_category
          [ Samples.row "Home Office" "G4S" (10 # 1) 20089 "IN COUNTRY ESCORT" "";
            Samples.row "Home Office" "G4S" (10 # 1) 20089 "In Country Escort" "";
            Samples.row "Home Office" "G4S" (10 # 1) 20089 " IN COUNTRY ESCORT" "" ]))
  = [Some "Operations"; Some ""; Some ""].
Proof. vm_compute. reflexivity. Qed.

End ClassifyFacts.

(** ** The detectors *)

Module AnomalyFacts.

Import Config Anomalies.

(** *** Sorting the dates of a group *)

Lemma insert_date_perm (d : Z) (l : list Z) :
  Permutation (insert_date d l) (d :: l).
Proof.
  induction l as [|x l IH]; simpl.
  - apply Permutation_refl.
  - destruct (d <=? x).
    + apply Permutation_refl.
    + apply perm_trans with (x :: d :: l).
      * apply perm_skip, IH.
      * apply perm_swap.
Qed.

Lemma sort_perm (l : list Z) : Permutation (sort l) l.
Proof.
  induction l as [|d l IH]; simpl.
  - apply perm_nil.
  - apply perm_trans with (d :: sort l).
    + apply insert_date_perm.
    + apply perm_skip, IH.
Qed.

Lemma insert_date_sorted (d : Z) (l : list Z) :
  StronglySorted Z.le l -> StronglySorted Z.le (insert_date d l).
Proof.
  induction 1 as [|x l Hs IH Hx]; simpl.
  - constructor; constructor.
  - destruct (d <=? x) eqn:E.
    + apply Z.leb_le in E. constructor.
      * constructor; assumption.
      * constructor; [exact E|].
        eapply Forall_impl; [|exact Hx]. intros y Hy. simpl in Hy. lia.
    + apply Z.leb_gt in E. constructor; [exact IH|].
      apply Forall_forall. intros y Hy.
      apply (Permutation_in _ (insert_date_perm d l)) in Hy.
      destruct Hy as [<- | Hy]; [lia|].
      rewrite Forall_forall in Hx. apply Hx, Hy.
Qed.

Lemma sort_sorted (l : list Z) : StronglySorted Z.le (sort l).
Proof.
  induction l as [|d l IH]; simpl.
  - constructor.
  - apply insert_date_sorted, IH.
Qed.

(** *** Two dates of a group within the window *)

Lemma close_pair_perm (w : Z) (l l' : list Z) :
  Permutation l l' -> close_pair w l -> close_pair w l'.
Proof.
  induction 1 as [|x l l' Hp IH|x y l|l l' l'' _ IH1 _ IH2]; simpl.
  - tauto.
  - intros [[y [Hy Hw]] | H].
    + left. exists y. split; [|exact Hw]. eapply Permutation_in; eassumption.
    + right. apply IH, H.
  - intros [[z [[<- | Hz] Hw]] | [[z [Hz Hw]] | H]].
    + left. exists y. split; [left; reflexivity | lia].
    + right. left. exists z. split; assumption.
    + left. exists z. split; [right; assumption | assumption].
    + right. right. exact H.
  - intros H. apply IH2, IH1, H.
Qed.

Lemma has_close_dates_sorted (w : Z) (l : list Z) :
  StronglySorted Z.le l ->
  (has_close_dates l w = true <-> close_pair w l).
Proof.
  induction 1 as [|d0 rest Hs IH Hd0].
  - simpl. split; [discriminate | tauto].
  - destruct rest as [|d1 tl].
    + simpl. split; [discriminate|]. intros [[y [[] _]] | []].
    + cbn [has_close_dates]. inversion Hd0 as [|? ? H01 Htl]; subst.
      inversion Hs as [|? ? _ Hd1]; subst.
      destruct (d1 - d0 <=? w) eqn:E.
      * apply Z.leb_le in E. split; [|reflexivity]. intros _.
        left. exists d1. split; [left; reflexivity | lia].
      * apply Z.leb_gt in E. rewrite IH. cbn [close_pair]. split.
        -- intros H. right. exact H.
        -- intros [[y [Hy Hw]] | H]; [|exact H]. exfalso.
           assert (d1 <= y).
           { destruct Hy as [<- | Hy]; [lia|].
             rewrite Forall_forall in Hd1. apply Hd1, Hy. }
           lia.
Qed.


Lemma close_pair_index (w : Z) (l : list Z) :
  close_pair w l <->
  exists i j, (i < j < List.length l)%nat
              /\ Z.abs (nth j l 0 - nth i l 0) <= w.
Proof.
  induction l as [|x rest IH].
  - simpl. split; [tauto|]. intros [i [j [H _]]]. simpl in H. lia.
  - cbn [close_pair]. rewrite IH. split.
    + intros [[y [Hy Hw]] | [i [j [Hij Hw]]]].
      * destruct (In_nth _ _ 0 Hy) as [k [Hk Hn]].
        exists 0%nat, (S k). simpl. split; [lia|]. rewrite Hn. exact Hw.
      * exists (S i), (S j). simpl. split; [lia | exact Hw].
    + intros [i [j [Hij Hw]]]. simpl in Hij.
      destruct j as [|j]; [lia|]. destruct i as [|i].
      * left. exists (nth j rest 0). split; [apply nth_In; lia | exact Hw].
      * right. exists i, j. split; [lia | exact Hw].
Qed.

Lemma naive_all_pairs_spec (l : list Z) (w : Z) :
  naive_all_pairs l w = true <->
  exists i j, (i < List.length l)%nat /\ (j < List.length l)%nat /\ i <> j
              /\ Z.abs (nth j l 0 - nth i l 0) <= w.
Proof.
  unfold naive_all_pairs. rewrite existsb_exists. split.
  - intros [i [Hi H]]. apply existsb_exists in H. destruct H as [j [Hj H]].
    apply in_seq in Hi, Hj. apply andb_true_iff in H. destruct H as [Hne Hw].
    apply negb_true_iff, Nat.eqb_neq in Hne. apply Z.leb_le in Hw.
    exists i, j. split; [lia|]. split; [lia|]. split; assumption.
  - intros [i [j [Hi [Hj [Hne Hw]]]]]. exists i. split; [apply in_seq; lia|].
    apply existsb_exists. exists j. split; [apply in_seq; lia|].
    apply andb_true_iff. split.
    + apply negb_true_iff, Nat.eqb_neq, Hne.
    + apply Z.leb_le, Hw.
Qed.

Lemma naive_all_pairs_close_pair (l : list Z) (w : Z) :
  naive_all_pairs l w = true <-> close_pair w l.
Proof.
  rewrite naive_all_pairs_spec, close_pair_index. split.
  - intros [i [j [Hi [Hj [Hne Hw]]]]].
    destruct (Nat.lt_ge_cases i j) as [Hlt | Hge].
    + exists i, j. split; [lia | exact Hw].
    + exists j, i. split; [lia|]. rewrite <- Z.abs_opp.
      replace (- (nth i l 0 - nth j l 0)) with (nth j l 0 - nth i l 0) by lia.
      exact Hw.
  - intros [i [j [Hij Hw]]]. exists i, j.
    split; [lia|]. split; [lia|]. split; [lia | exact Hw].
Qed.

(** C3.  On the ascending dates of a group the scan of the adjacent pairs
    answers as the check of all pairs does: it flags the group exactly when
    some two of its records, anywhere in the group, have dates at most
    [window_days] apart. *)
Theorem adjacent_scan_equals_all_pairs (dates : list Z) (window_days : Z) :
  has_close_dates (sort dates) window_days = naive_all_pairs dates window_days
  /\ (has_close_dates (sort dates) window_days = true <->
      exists i j,
        (i < List.length dates)%nat /\ (j < List.length dates)%nat /\ i <> j
        /\ Z.abs (nth j dates 0 - nth i dates 0) <= window_days).
Proof.
  assert (H : has_close_dates (sort dates) window_days = true
              <-> naive_all_pairs dates window_days = true).
  { rewrite (has_close_dates_sorted _ _ (sort_sorted dates)).
    rewrite naive_all_pairs_close_pair. split.
    - apply close_pair_perm, sort_perm.
    - apply close_pair_perm, Permutation_sym, sort_perm. }
  split.
  - apply eq_true_iff_eq, H.
  - rewrite H. apply naive_all_pairs_spec.
Qed.


(** *** Comparisons of amounts *)

Lemma Qgtb_lt (x y : Q) : Qgtb x y = true <-> (y < x)%Q.
Proof.
  unfold Qgtb. rewrite negb_true_iff. split.
  - intros H. apply Qnot_le_lt. intros Hle.
    apply Qle_bool_iff in Hle. congruence.
  - intros H. destruct (Qle_bool x y) eqn:E; [|reflexivity].
    apply Qle_bool_iff in E. exfalso. apply (Qlt_not_le _ _ H E).
Qed.

(** *** Frames built by the detectors *)

Lemma rows_of_anomalies (l : list Anomaly) : rows (of_anomalies l) = l.
Proof. destruct l; reflexivity. Qed.

Lemma schema_of_anomalies (l : list Anomaly) :
  schema (of_anomalies l) = anomaly_schema.
Proof. destruct l; reflexivity. Qed.

Lemma of_anomalies_eq (l : list Anomaly) :
  of_anomalies l = {| schema := anomaly_schema; rows := l |}.
Proof. destruct l; reflexivity. Qed.

(** *** High payments *)

Lemma threshold_of_absent (d : string) (table : list (string * Q)) :
  ~ In d (map fst table) -> threshold_of d table = None.
Proof.
  induction table as [|[d' t] table IH]; simpl; intros H.
  - reflexivity.
  - destruct (String.eqb d d') eqn:E.
    + apply String.eqb_eq in E. exfalso. apply H. left. symmetry. exact E.
    + apply IH. intros Hin. apply H. right. exact Hin.
Qed.

Lemma threshold_of_In (d : string) (t : Q) (table : list (string * Q)) :
  NoDup (map fst table) ->
  (threshold_of d table = Some t <-> In (d, t) table).
Proof.
  induction table as [|[d' t'] table IH]; simpl; intros Hnd.
  - split; [discriminate | tauto].
  - inversion Hnd as [|? ? Hnotin Hnd']; subst.
    destruct (String.eqb d d') eqn:E.
    + apply String.eqb_eq in E. subst d'. split.
      * intros H. injection H as ->. left. reflexivity.
      * intros [H | H]; [injection H as ->; reflexivity|].
        exfalso. apply Hnotin. apply in_map_iff. exists (d, t).
        split; [reflexivity | exact H].
    + apply String.eqb_neq in E. rewrite (IH Hnd'). split.
      * intros H. right. exact H.
      * intros [H | H]; [injection H as -> ->; contradiction | exact H].
Qed.

Lemma merge_filters {A B : Type} (p1 p2 p : A -> bool) (f1 f2 f : A -> B)
  (l : list A) :
  (forall x, In x l ->
     (p1 x = true /\ p2 x = false /\ p x = true /\ f x = f1 x)
     \/ (p1 x = false /\ p2 x = true /\ p x = true /\ f x = f2 x)
     \/ (p1 x = false /\ p2 x = false /\ p x = false)) ->
  Permutation (map f1 (filter p1 l) ++ map f2 (filter p2 l))
    (map f (filter p l)).
Proof.
  induction l as [|x l IH]; intros H; simpl.
  - apply perm_nil.
  - assert (IH' := IH (fun y Hy => H y (or_intror Hy))).
    destruct (H x (or_introl eq_refl))
      as [[-> [-> [-> Hf]]] | [[-> [-> [-> Hf]]] | [-> [-> ->]]]]; simpl.
    + rewrite Hf. apply perm_skip, IH'.
    + rewrite Hf. apply Permutation_sym.
      apply Permutation_cons_app, Permutation_sym, IH'.
    + exact IH'.
Qed.

Lemma high_payment_rows (table : list (string * Q)) (df : DataFrame) :
  NoDup (map fst table) ->
  Permutation
    (flat_map
       (fun dt : string * Q =>
          let (dept, threshold) := dt in
          let high :=
            filter (fun r => String.eqb (department r) dept
                             && Qgtb (amount r) threshold) df in
          map (fun row => {|
            anomaly_type := "high_payment";
            severity := "high";
            anomaly_department := department row;
            anomaly_supplier := supplier row;
            details := PaymentExceeds (amount row) threshold;
            anomaly_amount := Finite (amount row);
            count := 1
          |}) high)
       table)
    (map (high_payment_anomaly table) (filter (exceeds_threshold table) df)).
Proof.
  induction table as [|[d t] table IH]; intros Hnd.
  - simpl. unfold exceeds_threshold. simpl.
    induction df as [|r df IHdf]; simpl; [apply perm_nil | exact IHdf].
  - inversion Hnd as [|? ? Hnotin Hnd']; subst. cbn [flat_map].
    eapply perm_trans.
    { apply Permutation_app_head, IH, Hnd'. }
    apply merge_filters. intros r _.
    unfold exceeds_threshold, high_payment_anomaly. cbn [threshold_of].
    destruct (String.eqb (department r) d) eqn:E.
    + apply String.eqb_eq in E.
      rewrite E, (threshold_of_absent d table Hnotin). simpl.
      destruct (Qgtb (amount r) t); [left | right; right]; tauto.
    + simpl. destruct (threshold_of (department r) table) as [t'|].
      * destruct (Qgtb (amount r) t'); [right; left | right; right]; tauto.
      * right; right; tauto.
Qed.

(** C4.  [detect_high_payments] returns a frame holding one anomaly for
    each record whose department has a configured threshold that the
    amount strictly exceeds, and nothing else; each is a [high_payment] of
    severity [high] and count 1 that carries the amount of its record.  A
    department without a threshold yields no anomaly. *)
Theorem detect_high_payments_flags_exceeding (cfg : Config.t) (df : DataFrame) :
  let table := high_payment (ANOMALY_THRESHOLDS cfg) in
  NoDup (map fst table) ->
  Permutation (rows (detect_high_payments cfg df))
    (map (high_payment_anomaly table) (filter (exceeds_threshold table) df))
  /\ schema (detect_high_payments cfg df) = anomaly_schema
  /\ (forall r,
        exceeds_threshold table r = true <->
        exists t, In (department r, t) table /\ (t < amount r)%Q)
  /\ (forall r,
        anomaly_type (high_payment_anomaly table r) = "high_payment"
        /\ severity (high_payment_anomaly table r) = "high"
        /\ count (high_payment_anomaly table r) = 1
        /\ anomaly_amount (high_payment_anomaly table r) = Finite (amount r)).
Proof.
  intros table Hnd. split; [|split; [|split]].
  - unfold detect_high_payments. rewrite rows_of_anomalies.
    apply high_payment_rows, Hnd.
  - apply schema_of_anomalies.
  - intros r. unfold exceeds_threshold. split.
    + destruct (threshold_of (department r) table) as [t|] eqn:E;
        [|discriminate].
      intros H. exists t. split.
      * apply threshold_of_In; assumption.
      * apply Qgtb_lt, H.
    + intros [t [Hin Hlt]]. apply (threshold_of_In _ _ _ Hnd) in Hin.
      rewrite Hin. apply Qgtb_lt, Hlt.
  - intros r. repeat split.
Qed.


(** *** The aggregator *)

(** A loop whose body raises [e] on the members that [bad] marks and
    appends [item x] for the others. *)
Lemma collect_guarded {A B : Type} (body : A -> Result B) (bad : A -> bool)
  (item : A -> B) (e : Exn) (l : list A) :
  (forall x, body x = if bad x then Raise e else Ok (item x)) ->
  collect body l = if existsb bad l then Raise e else Ok (map item l).
Proof.
  intros Hbody. induction l as [|x l IH]; cbn [collect existsb map].
  - reflexivity.
  - rewrite Hbody. destruct (bad x); cbn [bind orb]; [reflexivity|].
    rewrite IH. destruct (existsb bad l); reflexivity.
Qed.

Lemma collect_Forall {A B : Type} (body : A -> Result B) (P : B -> Prop)
  (l : list A) :
  (forall x y, body x = Ok y -> P y) ->
  forall out, collect body l = Ok out -> Forall P out.
Proof.
  intros Hbody. induction l as [|x l IH]; cbn [collect]; intros out Hout.
  - injection Hout as <-. constructor.
  - destruct (body x) as [y|e] eqn:Ey; cbn [bind] in Hout; [|discriminate].
    destruct (collect body l) as [ys|e] eqn:Eys; cbn [bind] in Hout;
      [|discriminate].
    injection Hout as <-. constructor; [eapply Hbody, Ey | apply IH; reflexivity].
Qed.

(** The frame of the concentration detector, when it returns. *)
Lemma concentration_frame (cfg : Config.t) (df : DataFrame)
  (c : AnomalyFrame) :
  detect_supplier_concentration cfg df = Ok c ->
  exists spend txn,
    spend_results cfg df = Ok spend /\ txn_results cfg df = Ok txn
    /\ c = {| schema := anomaly_schema; rows := spend ++ txn |}.
Proof.
  unfold detect_supplier_concentration.
  destruct (spend_results cfg df) as [spend|e]; cbn [bind]; [|discriminate].
  destruct (txn_results cfg df) as [txn|e]; cbn [bind]; [|discriminate].
  intros H. injection H as <-. exists spend, txn.
  split; [reflexivity|]. split; [reflexivity | apply of_anomalies_eq].
Qed.

Lemma detect_anomalies_eq (cfg : Config.t) (df : DataFrame) :
  detect_anomalies cfg df
  = bind (detect_supplier_concentration cfg df) (fun concentration =>
      match rows (detect_high_payments cfg df)
            ++ rows (detect_duplicate_patterns cfg df)
            ++ rows concentration with
      | [] => Raise ValueError
      | a :: l => Ok {| schema := anomaly_schema; rows := a :: l |}
      end).
Proof.
  unfold detect_anomalies.
  destruct (detect_supplier_concentration cfg df) as [c|e] eqn:E3;
    cbn [bind]; [|reflexivity].
  destruct (concentration_frame cfg df c E3) as [spend [txn [_ [_ ->]]]].
  destruct (detect_high_payments cfg df) as [s1 l1] eqn:E1.
  destruct (detect_duplicate_patterns cfg df) as [s2 l2] eqn:E2.
  assert (H1 : s1 = anomaly_schema).
  { change s1 with (schema {| schema := s1; rows := l1 |}). rewrite <- E1.
    apply schema_of_anomalies. }
  assert (H2 : s2 = anomaly_schema).
  { change s2 with (schema {| schema := s2; rows := l2 |}). rewrite <- E2.
    apply schema_of_anomalies. }
  subst s1 s2. cbn [rows].
  destruct l1 as [|a1 l1], l2 as [|a2 l2], (spend ++ txn) as [|a3 l3];
    cbn -[anomaly_schema]; rewrite ?app_nil_r, <- ?app_assoc; reflexivity.
Qed.

(** Without an anomaly from any detector the aggregator raises. *)
Lemma detect_anomalies_raises (cfg : Config.t) (df : DataFrame) :
  rows (detect_high_payments cfg df) = [] ->
  rows (detect_duplicate_patterns cfg df) = [] ->
  detect_supplier_concentration cfg df = Ok _empty_anomaly_df ->
  detect_anomalies cfg df = Raise ValueError.
Proof.
  intros H1 H2 H3. rewrite detect_anomalies_eq, H1, H2, H3. reflexivity.
Qed.


(** C1.  On a table from which no detector reports an anomaly, the empty
    table or the eleven payments of [quiet_ledger], [detect_anomalies] does
    not return the empty anomaly table: the three frames are dropped as
    empty and [pl.concat] of no frame raises [ValueError]. *)
Theorem detect_anomalies_without_anomaly_raises :
  rows (detect_high_payments declared []) = []
  /\ rows (detect_duplicate_patterns declared []) = []
  /\ detect_supplier_concentration declared [] = Ok _empty_anomaly_df
  /\ detect_anomalies declared [] = Raise ValueError
  /\ rows (detect_high_payments declared Samples.quiet_ledger) = []
  /\ rows (detect_duplicate_patterns declared Samples.quiet_ledger) = []
  /\ detect_supplier_concentration declared Samples.quiet_ledger
     = Ok _empty_anomaly_df
  /\ detect_anomalies declared Samples.quiet_ledger = Raise ValueError.
Proof. repeat split; vm_compute; reflexivity. Qed.

(** *** The order of the report *)

Lemma StronglySorted_app {A : Type} (R : A -> A -> Prop) (l1 l2 : list A) :
  StronglySorted R l1 -> StronglySorted R l2 ->
  (forall a b, In a l1 -> In b l2 -> R a b) ->
  StronglySorted R (l1 ++ l2).
Proof.
  induction 1 as [|a l1 Hs IH Ha]; intros H2 Hc; simpl.
  - exact H2.
  - constructor.
    + apply IH; [exact H2|]. intros x y Hx Hy. apply Hc; [right|]; assumption.
    + apply Forall_app. split; [exact Ha|].
      apply Forall_forall. intros y Hy. apply Hc; [left; reflexivity | exact Hy].
Qed.

Lemma StronglySorted_nth {A : Type} (R : A -> A -> Prop) (l : list A) :
  StronglySorted R l ->
  forall i j a b,
    (i < j)%nat -> nth_error l i = Some a -> nth_error l j = Some b -> R a b.
Proof.
  induction 1 as [|x l Hs IH Hx]; intros i j a b Hij Hi Hj.
  - destruct i; discriminate.
  - destruct j as [|j]; [lia|]. simpl in Hj. destruct i as [|i].
    + simpl in Hi. injection Hi as <-. rewrite Forall_forall in Hx.
      apply Hx. eapply nth_error_In, Hj.
    + simpl in Hi. apply (IH i j); [lia | assumption | assumption].
Qed.

Lemma one_detector_sorted (ty : string) (l : list Anomaly) :
  Forall (fun a => anomaly_type a = ty) l -> StronglySorted rank_le l.
Proof.
  induction 1 as [|a l Ha Hl IH]; constructor.
  - exact IH.
  - eapply Forall_impl; [|exact Hl]. intros b Hb. unfold rank_le.
    rewrite Ha, Hb. apply Nat.le_refl.
Qed.

Lemma high_payments_type (cfg : Config.t) (df : DataFrame) :
  Forall (fun a => anomaly_type a = "high_payment")
    (rows (detect_high_payments cfg df)).
Proof.
  unfold detect_high_payments. rewrite rows_of_anomalies.
  apply Forall_forall. intros a Ha. apply in_flat_map in Ha.
  destruct Ha as [[d t] [_ Ha]]. apply in_map_iff in Ha.
  destruct Ha as [r [<- _]]. reflexivity.
Qed.

Lemma duplicate_patterns_type (cfg : Config.t) (df : DataFrame) :
  Forall (fun a => anomaly_type a = "duplicate_pattern")
    (rows (detect_duplicate_patterns cfg df)).
Proof.
  unfold detect_duplicate_patterns. rewrite rows_of_anomalies.
  apply Forall_forall. intros a Ha. apply in_flat_map in Ha.
  destruct Ha as [g [_ Ha]].
  destruct (has_close_dates (dup_date g)
              (duplicate_window_days (ANOMALY_THRESHOLDS cfg))).
  - destruct Ha as [<- | []]. reflexivity.
  - destruct Ha.
Qed.

Lemma spend_results_type (cfg : Config.t) (df : DataFrame)
  (spend : list Anomaly) :
  spend_results cfg df = Ok spend ->
  Forall (fun a => anomaly_type a = "supplier_concentration_spend") spend.
Proof.
  unfold spend_results. apply collect_Forall. intros row y.
  destruct (py_div _ _); cbn [bind]; [|discriminate].
  intros H. injection H as <-. reflexivity.
Qed.

Lemma txn_results_type (cfg : Config.t) (df : DataFrame)
  (txn : list Anomaly) :
  txn_results cfg df = Ok txn ->
  Forall (fun a => anomaly_type a = "supplier_concentration_txn") txn.
Proof.
  unfold txn_results. apply collect_Forall. intros row y.
  destruct (py_div _ _); cbn [bind]; [|discriminate].
  intros H. injection H as <-. reflexivity.
Qed.

Lemma report_rows (cfg : Config.t) (df : DataFrame) (out : AnomalyFrame) :
  detect_anomalies cfg df = Ok out ->
  exists spend txn,
    spend_results cfg df = Ok spend /\ txn_results cfg df = Ok txn
    /\ rows out
       = rows (detect_high_payments cfg df)
         ++ rows (detect_duplicate_patterns cfg df)
         ++ spend ++ txn.
Proof.
  rewrite detect_anomalies_eq.
  destruct (detect_supplier_concentration cfg df) as [c|e] eqn:E;
    cbn [bind]; [|discriminate].
  destruct (concentration_frame cfg df c E) as [spend [txn [Hs [Ht ->]]]].
  cbn [rows]. intros H. exists spend, txn.
  split; [exact Hs|]. split; [exact Ht|].
  destruct (rows (detect_high_payments cfg df)
            ++ rows (detect_duplicate_patterns cfg df)
            ++ spend ++ txn);
    [discriminate|].
  injection H as <-. reflexivity.
Qed.

Lemma blocks_sorted (l0 l1 l2 l3 : list Anomaly) :
  Forall (fun a => anomaly_type a = "high_payment") l0 ->
  Forall (fun a => anomaly_type a = "duplicate_pattern") l1 ->
  Forall (fun a => anomaly_type a = "supplier_concentration_spend") l2 ->
  Forall (fun a => anomaly_type a = "supplier_concentration_txn") l3 ->
  StronglySorted rank_le (l0 ++ l1 ++ l2 ++ l3).
Proof.
  intros H0 H1 H2 H3.
  pose proof (proj1 (Forall_forall _ _) H0) as F0.
  pose proof (proj1 (Forall_forall _ _) H1) as F1.
  pose proof (proj1 (Forall_forall _ _) H2) as F2.
  pose proof (proj1 (Forall_forall _ _) H3) as F3.
  repeat apply StronglySorted_app;
    try (eapply one_detector_sorted; eassumption).
  - intros a b Ha Hb. unfold rank_le. rewrite (F2 a Ha), (F3 b Hb).
    vm_compute. lia.
  - intros a b Ha Hb. unfold rank_le. rewrite (F1 a Ha).
    apply in_app_or in Hb. destruct Hb as [Hb | Hb];
      [rewrite (F2 b Hb) | rewrite (F3 b Hb)]; vm_compute; lia.
  - intros a b Ha Hb. unfold rank_le. rewrite (F0 a Ha).
    apply in_app_or in Hb. destruct Hb as [Hb | Hb];
      [rewrite (F1 b Hb)|].
    + vm_compute. lia.
    + apply in_app_or in Hb. destruct Hb as [Hb | Hb];
        [rewrite (F2 b Hb) | rewrite (F3 b Hb)]; vm_compute; lia.
Qed.

(** C10.  In the table that [detect_anomalies] returns, the anomalies stand
    in the order of the detectors: an anomaly of an earlier detector
    ([high_payment], then [duplicate_pattern], then
    [supplier_concentration_spend], then [supplier_concentration_txn])
    stands before every anomaly of a later one, for every input table and so
    for every order of its rows. *)
Theorem anomalies_in_detector_order (cfg : Config.t) (df : DataFrame)
  (out : AnomalyFrame) :
  detect_anomalies cfg df = Ok out ->
  Forall (fun a => In (anomaly_type a)
                     [ "high_payment"; "duplicate_pattern";
                       "supplier_concentration_spend";
                       "supplier_concentration_txn" ]) (rows out)
  /\ forall i j a b,
       nth_error (rows out) i = Some a ->
       nth_error (rows out) j = Some b ->
       (detector_rank (anomaly_type a) < detector_rank (anomaly_type b))%nat ->
       (i < j)%nat.
Proof.
  intros Hout.
  destruct (report_rows cfg df out Hout) as [spend [txn [Hsp [Htx ->]]]].
  pose proof (high_payments_type cfg df) as H0.
  pose proof (duplicate_patterns_type cfg df) as H1.
  pose proof (spend_results_type cfg df spend Hsp) as H2.
  pose proof (txn_results_type cfg df txn Htx) as H3.
  split.
  - repeat (apply Forall_app; split);
      [ eapply Forall_impl; [|exact H0] | eapply Forall_impl; [|exact H1]
      | eapply Forall_impl; [|exact H2] | eapply Forall_impl; [|exact H3] ];
      intros a Ha; cbn beta in Ha; rewrite Ha; simpl; tauto.
  - intros i j a b Hi Hj Hlt.
    pose proof (blocks_sorted _ _ _ _ H0 H1 H2 H3) as Hs.
    destruct (Nat.lt_ge_cases i j) as [Hij | Hji]; [exact Hij|].
    exfalso. destruct (Nat.eq_dec i j) as [-> | Hne].
    + rewrite Hi in Hj. injection Hj as ->. lia.
    + assert (Hr : rank_le b a).
      { apply (StronglySorted_nth _ _ Hs j i); [lia | assumption | assumption]. }
      unfold rank_le in Hr. lia.
Qed.

Lemma anomalies_in_detector_order_witness :
  detect_anomalies declared Samples.ledger = Ok Samples.ledger_anomalies
  /\ forall i j a b,
       nth_error (rows Samples.ledger_anomalies) i = Some a ->
       nth_error (rows Samples.ledger_anomalies) j = Some b ->
       (detector_rank (anomaly_type a) < detector_rank (anomaly_type b))%nat ->
       (i < j)%nat.
Proof.
  assert (H : detect_anomalies declared Samples.ledger
              = Ok Samples.ledger_anomalies) by (vm_compute; reflexivity).
  split; [exact H|].
  apply (proj2 (anomalies_in_detector_order declared Samples.ledger
                  Samples.ledger_anomalies H)).
Defined.

(** *** Grouping by a key *)

Section Distinct.

Context {K : Type}.
Variable eqb : K -> K -> bool.
Hypothesis eqb_refl : forall a, eqb a a = true.
Hypothesis eqb_sym : forall a b, eqb a b = eqb b a.
Hypothesis eqb_trans :
  forall a b c, eqb a b = true -> eqb b c = true -> eqb a c = true.

Lemma distinct_incl (l : list K) (k : K) : In k (distinct eqb l) -> In k l.
Proof.
  revert k. induction l as [|a l IH]; intros k; simpl.
  - tauto.
  - intros [-> | H]; [left; reflexivity|].
    apply filter_In in H. right. apply IH, H.
Qed.

Lemma distinct_cover (l : list K) (k : K) :
  In k l -> exists k0, In k0 (distinct eqb l) /\ eqb k0 k = true.
Proof.
  induction l as [|a l IH]; simpl.
  - tauto.
  - intros [-> | H].
    + exists k. split; [left; reflexivity | apply eqb_refl].
    + destruct (IH H) as [k0 [Hin Hk]].
      destruct (eqb a k0) eqn:E.
      * exists a. split; [left; reflexivity|]. eapply eqb_trans; eassumption.
      * exists k0. split; [|exact Hk]. right. apply filter_In.
        split; [exact Hin|]. rewrite E. reflexivity.
Qed.

Lemma distinct_apart (l : list K) :
  ForallOrdPairs (fun a b => eqb a b = false) (distinct eqb l).
Proof.
  induction l as [|a l IH]; simpl.
  - constructor.
  - constructor.
    + apply Forall_forall. intros b Hb. apply filter_In in Hb.
      destruct Hb as [_ Hb]. apply negb_true_iff, Hb.
    + clear -IH. induction IH as [|b l' Hb _ IH']; simpl.
      * constructor.
      * destruct (negb (eqb a b)); [|exact IH'].
        constructor; [|exact IH'].
        apply Forall_forall. intros c Hc. apply filter_In in Hc.
        rewrite Forall_forall in Hb. apply Hb, Hc.
Qed.

Lemma filter_equivalent_none (l : list K) (k : K) :
  (forall k0, In k0 l -> eqb k0 k = false) ->
  filter (fun x => eqb x k) l = [].
Proof.
  induction l as [|a l IH]; intros H; simpl.
  - reflexivity.
  - rewrite (H a (or_introl eq_refl)). apply IH.
    intros k0 Hk0. apply H. right. exact Hk0.
Qed.

Lemma filter_equivalent_one (l : list K) (k k0 : K) :
  ForallOrdPairs (fun a b => eqb a b = false) l ->
  In k0 l -> eqb k0 k = true ->
  filter (fun x => eqb x k) l = [k0].
Proof.
  induction 1 as [|a l Ha _ IH]; intros Hin Hk.
  - destruct Hin.
  - simpl. rewrite Forall_forall in Ha. destruct Hin as [-> | Hin].
    + rewrite Hk. f_equal. apply filter_equivalent_none.
      intros b Hb. destruct (eqb b k) eqn:E; [|reflexivity].
      rewrite <- (Ha b Hb). symmetry.
      apply (eqb_trans k0 k b); [exact Hk|]. rewrite eqb_sym. exact E.
    + destruct (eqb a k) eqn:E.
      * exfalso. specialize (Ha k0 Hin).
        rewrite (eqb_trans a k k0) in Ha; [discriminate | exact E|].
        rewrite eqb_sym. exact Hk.
      * apply IH; assumption.
Qed.

(** The group of a key that some row of the table has. *)
Lemma distinct_group (l : list K) (k k' : K) :
  In k' l -> eqb k' k = true ->
  exists k0,
    filter (fun x => eqb x k) (distinct eqb l) = [k0]
    /\ eqb k0 k = true /\ In k0 l.
Proof.
  intros Hin Hk. destruct (distinct_cover l k' Hin) as [k0 [H0 Hk0]].
  exists k0. split; [|split].
  - apply filter_equivalent_one.
    + apply distinct_apart.
    + exact H0.
    + eapply eqb_trans; eassumption.
  - eapply eqb_trans; eassumption.
  - apply distinct_incl, H0.
Qed.

End Distinct.

Lemma filter_flat_map {A B : Type} (p : B -> bool) (q : A -> bool)
  (h : A -> list B) (l : list A) :
  (forall k x, In k l -> In x (h k) -> p x = q k) ->
  filter p (flat_map h l) = flat_map h (filter q l).
Proof.
  induction l as [|k l IH]; intros H; simpl.
  - reflexivity.
  - rewrite filter_app, IH by (intros k' x Hk'; apply H; right; exact Hk').
    assert (Hk : filter p (h k) = if q k then h k else []).
    { assert (Hx : forall x, In x (h k) -> p x = q k)
        by (intros x; apply H; left; reflexivity).
      destruct (q k).
      - clear -Hx. induction (h k) as [|x t IHt]; simpl; [reflexivity|].
        rewrite (Hx x (or_introl eq_refl)). f_equal.
        apply IHt. intros y Hy. apply Hx. right. exact Hy.
      - clear -Hx. induction (h k) as [|x t IHt]; simpl; [reflexivity|].
        rewrite (Hx x (or_introl eq_refl)).
        apply IHt. intros y Hy. apply Hx. right. exact Hy. }
    rewrite Hk. destruct (q k); reflexivity.
Qed.

Lemma flat_map_filter_map {A B C : Type} (f : B -> list C) (p : B -> bool)
  (g : A -> B) (l : list A) :
  flat_map f (filter p (map g l))
  = flat_map (fun k => if p (g k) then f (g k) else []) l.
Proof.
  induction l as [|k l IH]; simpl.
  - reflexivity.
  - destruct (p (g k)); simpl; rewrite IH; reflexivity.
Qed.

Lemma map_filter_flat_map {A B : Type} (m : A -> B) (p : A -> bool)
  (l : list A) :
  map m (filter p l) = flat_map (fun k => if p k then [m k] else []) l.
Proof.
  induction l as [|k l IH]; simpl.
  - reflexivity.
  - destruct (p k); simpl; rewrite IH; reflexivity.
Qed.


(** *** The keys of the detectors *)

Lemma dup_key_eqb_refl (a : string * string * Q) : dup_key_eqb a a = true.
Proof.
  unfold dup_key_eqb. rewrite !String.eqb_refl, Qeq_bool_refl. reflexivity.
Qed.

Lemma dup_key_eqb_true (a b : string * string * Q) :
  dup_key_eqb a b = true <->
  fst (fst a) = fst (fst b) /\ snd (fst a) = snd (fst b)
  /\ (snd a == snd b)%Q.
Proof.
  unfold dup_key_eqb.
  rewrite !andb_true_iff, !String.eqb_eq, Qeq_bool_iff. tauto.
Qed.

Lemma dup_key_eqb_sym (a b : string * string * Q) :
  dup_key_eqb a b = dup_key_eqb b a.
Proof.
  apply eq_true_iff_eq. rewrite !dup_key_eqb_true.
  split; intros [H1 [H2 H3]]; (split; [|split]);
    solve [symmetry; assumption].
Qed.

Lemma dup_key_eqb_trans (a b c : string * string * Q) :
  dup_key_eqb a b = true -> dup_key_eqb b c = true -> dup_key_eqb a c = true.
Proof.
  rewrite !dup_key_eqb_true. intros [H1 [H2 H3]] [H4 [H5 H6]].
  split; [congruence|]. split; [congruence|].
  eapply Qeq_trans; eassumption.
Qed.

Lemma dup_key_eqb_congr (a b c : string * string * Q) :
  dup_key_eqb a b = true -> dup_key_eqb a c = dup_key_eqb b c.
Proof.
  intros H. destruct (dup_key_eqb b c) eqn:E.
  - eapply dup_key_eqb_trans; eassumption.
  - destruct (dup_key_eqb a c) eqn:E'; [|reflexivity].
    rewrite <- E. symmetry. apply (dup_key_eqb_trans b a c); [|exact E'].
    rewrite dup_key_eqb_sym. exact H.
Qed.

(** *** Duplicate patterns *)

Lemma duplicate_rows (cfg : Config.t) (df : DataFrame) :
  rows (detect_duplicate_patterns cfg df)
  = flat_map (duplicate_report cfg df) (distinct dup_key_eqb (map dup_key df)).
Proof.
  unfold detect_duplicate_patterns, grouped, group_by.
  rewrite rows_of_anomalies, map_map, flat_map_filter_map.
  apply flat_map_ext. intros k. unfold duplicate_report. cbn [dup_count dup_date
    dup_department dup_supplier dup_amount fst snd].
  destruct (2 <=? len (filter (fun r => dup_key_eqb k (dup_key r)) df));
    reflexivity.
Qed.

(** C8.  A group of records of one department, supplier and amount that
    has two or more members and an adjacent gap within the window is
    reported by exactly one anomaly; its count is the size of the whole
    group, its amount the shared amount, and its severity [medium] for a
    group of 2 or 3 and [high] for a group of 4 or more. *)
Theorem duplicate_group_reported_once (cfg : Config.t) (df : DataFrame)
  (d s : string) (a : Q) :
  let members := of_payment d s a df in
  2 <= len members ->
  has_close_dates (sort (map date members))
    (duplicate_window_days (ANOMALY_THRESHOLDS cfg)) = true ->
  exists x,
    duplicates_for d s a (rows (detect_duplicate_patterns cfg df)) = [x]
    /\ anomaly_type x = "duplicate_pattern"
    /\ anomaly_department x = d
    /\ anomaly_supplier x = s
    /\ (exists q, anomaly_amount x = Finite q /\ (q == a)%Q)
    /\ count x = len members
    /\ (len members = 2 \/ len members = 3 -> severity x = "medium")
    /\ (4 <= len members -> severity x = "high").
Proof.
  intros members Hn Hclose.
  assert (Hex : exists r, In r df /\ dup_key_eqb (d, s, a) (dup_key r) = true).
  { subst members. destruct (of_payment d s a df) as [|r m] eqn:E.
    - unfold len in Hn. simpl in Hn. lia.
    - exists r.
      apply (proj1 (filter_In (fun r => dup_key_eqb (d, s, a) (dup_key r))
                      r df)).
      fold (of_payment d s a df). rewrite E. left. reflexivity. }
  destruct Hex as [r [Hr Hk]].
  destruct (distinct_group dup_key_eqb dup_key_eqb_refl dup_key_eqb_sym
              dup_key_eqb_trans (map dup_key df) (d, s, a) (dup_key r))
    as [k0 [Hf [Hk0 _]]].
  { apply in_map, Hr. }
  { rewrite dup_key_eqb_sym. exact Hk. }
  assert (Hm : filter (fun r => dup_key_eqb k0 (dup_key r)) df = members).
  { apply filter_ext. intros r'. apply dup_key_eqb_congr, Hk0. }
  rewrite duplicate_rows. unfold duplicates_for.
  rewrite (filter_flat_map _ (fun k => dup_key_eqb k (d, s, a))).
  2:{ intros k x _ Hx. unfold duplicate_report in Hx.
      destruct ((2 <=? len (filter (fun r => dup_key_eqb k (dup_key r)) df))
                && has_close_dates
                     (sort (map date
                              (filter (fun r => dup_key_eqb k (dup_key r)) df)))
                     (duplicate_window_days (ANOMALY_THRESHOLDS cfg)));
        [|destruct Hx].
      destruct Hx as [<- | []]. reflexivity. }
  rewrite Hf. cbn [flat_map]. rewrite app_nil_r.
  unfold duplicate_report. rewrite Hm, Hclose.
  apply Z.leb_le in Hn as Hn'. rewrite Hn'. cbn [andb].
  apply dup_key_eqb_true in Hk0. cbn [fst snd] in Hk0.
  destruct Hk0 as [Hd [Hs Ha]].
  eexists. split; [reflexivity|]. cbn [anomaly_type anomaly_department
    anomaly_supplier anomaly_amount count severity].
  split; [reflexivity|]. split; [exact Hd|]. split; [exact Hs|].
  split; [exists (snd k0); split; [reflexivity | exact Ha]|].
  split; [reflexivity|]. split.
  - intros H. destruct (4 <=? len members) eqn:E; [|reflexivity].
    apply Z.leb_le in E. lia.
  - intros H. apply Z.leb_le in H. rewrite H. reflexivity.
Qed.


(** *** Supplier concentration *)

Lemma pair_key_eqb_eq (a b : string * string) :
  pair_key_eqb a b = true <-> a = b.
Proof.
  unfold pair_key_eqb. rewrite andb_true_iff, !String.eqb_eq.
  destruct a, b; simpl. split.
  - intros [-> ->]. reflexivity.
  - intros H. injection H as -> ->. split; reflexivity.
Qed.

Lemma pair_key_eqb_refl (a : string * string) : pair_key_eqb a a = true.
Proof. apply pair_key_eqb_eq. reflexivity. Qed.

Lemma pair_key_eqb_sym (a b : string * string) :
  pair_key_eqb a b = pair_key_eqb b a.
Proof.
  apply eq_true_iff_eq. rewrite !pair_key_eqb_eq. split; congruence.
Qed.

Lemma pair_key_eqb_trans (a b c : string * string) :
  pair_key_eqb a b = true -> pair_key_eqb b c = true ->
  pair_key_eqb a c = true.
Proof. rewrite !pair_key_eqb_eq. congruence. Qed.

Lemma string_eqb_trans (a b c : string) :
  String.eqb a b = true -> String.eqb b c = true -> String.eqb a c = true.
Proof. rewrite !String.eqb_eq. congruence. Qed.

Lemma join_single {L V : Type} (dept : L -> string) (v : L -> V)
  (left : list L) (right : list (string * V)) :
  (forall l, In l left ->
     filter (fun r => String.eqb (dept l) (fst r)) right = [(dept l, v l)]) ->
  join dept left right = map (fun l => (l, v l)) left.
Proof.
  unfold join. induction left as [|l left IH]; intros H; simpl.
  - reflexivity.
  - rewrite (H l (or_introl eq_refl)). simpl. f_equal.
    apply IH. intros l' Hl'. apply H. right. exact Hl'.
Qed.

(** The total of the department of every group of suppliers. *)
Lemma department_of_group {V : Type} (agg : DataFrame -> V) (df : DataFrame)
  (k : string * string) :
  In k (distinct pair_key_eqb (map pair_key df)) ->
  filter (fun r : string * V => String.eqb (fst k) (fst r))
    (map (fun g : string * DataFrame => (fst g, agg (snd g)))
       (group_by String.eqb department df))
  = [(fst k, agg (of_department (fst k) df))].
Proof.
  intros Hk. apply distinct_incl in Hk. apply in_map_iff in Hk.
  destruct Hk as [r [<- Hr]]. cbn [pair_key fst].
  unfold group_by. rewrite map_map. cbn [fst snd].
  destruct (distinct_group String.eqb String.eqb_refl String.eqb_sym
              string_eqb_trans (map department df) (department r)
              (department r))
    as [d0 [Hf [Hd0 _]]].
  { apply in_map, Hr. }
  { apply String.eqb_refl. }
  apply String.eqb_eq in Hd0. subst d0.
  assert (E : forall (l : list string),
            filter (fun r0 : string * V => String.eqb (department r) (fst r0))
              (map (fun d0 => (d0, agg (filter (fun r0 => String.eqb d0 (department r0)) df))) l)
            = map (fun d0 => (d0, agg (filter (fun r0 => String.eqb d0 (department r0)) df)))
                (filter (fun d0 => String.eqb d0 (department r)) l)).
  { induction l as [|x l IHl]; simpl; [reflexivity|].
    rewrite (String.eqb_sym (department r) x).
    destruct (String.eqb x (department r)); simpl; rewrite IHl; reflexivity. }
  rewrite E, Hf. reflexivity.
Qed.


Lemma map_filter_map {A B C : Type} (m : B -> C) (p : B -> bool) (g : A -> B)
  (l : list A) :
  map m (filter p (map g l))
  = flat_map (fun k => if p (g k) then [m (g k)] else []) l.
Proof.
  induction l as [|k l IH]; simpl.
  - reflexivity.
  - destruct (p (g k)); simpl; rewrite IH; reflexivity.
Qed.

Lemma supplier_spend_eq (df : DataFrame) :
  supplier_spend df
  = map (fun k : string * string => {|
           spend_department := fst k;
           spend_supplier := snd k;
           supplier_total := sum_amount (of_supplier (fst k) (snd k) df);
           txn_count := len (of_supplier (fst k) (snd k) df);
           dept_total := sum_amount (of_department (fst k) df) |})
      (distinct pair_key_eqb (map pair_key df)).
Proof.
  unfold supplier_spend.
  rewrite (join_single _
             (fun g : (string * string) * DataFrame =>
                sum_amount (of_department (fst (fst g)) df))).
  - unfold group_by. rewrite !map_map. reflexivity.
  - intros g Hg. unfold group_by in Hg. apply in_map_iff in Hg.
    destruct Hg as [k [<- Hk]]. cbn [fst snd]. unfold dept_spend.
    apply (department_of_group sum_amount df k Hk).
Qed.

Lemma existsb_filter_map {A B : Type} (bad p : B -> bool) (g : A -> B)
  (l : list A) :
  existsb bad (filter p (map g l)) = existsb (fun k => p (g k) && bad (g k)) l.
Proof.
  induction l as [|k l IH]; simpl.
  - reflexivity.
  - destruct (p (g k)); simpl; rewrite IH; reflexivity.
Qed.

(** The loop of the spend variant: it raises when some pair that passed
    the filter sits in a department of total zero, and otherwise reports
    pair by pair. *)
Lemma spend_results_eq (cfg : Config.t) (df : DataFrame) :
  spend_results cfg df
  = if existsb (spend_fails cfg df) (pairs df) then Raise ZeroDivisionError
    else Ok (flat_map (spend_report cfg df) (pairs df)).
Proof.
  unfold spend_results. rewrite supplier_spend_eq.
  erewrite (collect_guarded _ (fun row => is_zero (dept_total row)) _
              ZeroDivisionError).
  2:{ intros row. unfold py_div.
      destruct (is_zero (dept_total row)); cbn [bind]; reflexivity. }
  rewrite existsb_filter_map, map_filter_map. reflexivity.
Qed.

Lemma spend_rows (cfg : Config.t) (df : DataFrame) (spend : list Anomaly) :
  spend_results cfg df = Ok spend ->
  spend = flat_map (spend_report cfg df) (pairs df).
Proof.
  rewrite spend_results_eq.
  destruct (existsb (spend_fails cfg df) (pairs df)); [discriminate|].
  intros H. injection H as <-. reflexivity.
Qed.

Lemma anomalies_for_other_type (ty ty' d s : string) (l : list Anomaly) :
  ty' <> ty ->
  Forall (fun a => anomaly_type a = ty') l -> anomalies_for ty d s l = [].
Proof.
  intros Hne. induction 1 as [|a l Ha _ IH]; simpl.
  - reflexivity.
  - rewrite Ha. apply String.eqb_neq in Hne. rewrite Hne. simpl. exact IH.
Qed.

(** C7.  On [refund_ledger] the department DfT pays 100 and is paid 100
    back: its total is zero, the quotient of the column is an infinity,
    which passes the filter, and the quotient of line 194 raises
    [ZeroDivisionError].  [detect_supplier_concentration] raises it, and so
    does [detect_anomalies]: the one supplier of HMRC, who holds the whole
    spend of its department, is not reported.  On [share_ledger], where no
    total is zero, the report is what the claim says: 160,000 of 1,000,000
    is reported once, with severity [high], the total spend and the two
    transactions of the supplier, and 150,000 of 1,000,000 is not
    reported. *)
Theorem spend_concentration_raises_on_zero_total :
  let threshold := concentration_threshold_spend (ANOMALY_THRESHOLDS declared) in
  sum_amount (of_department "DfT" Samples.refund_ledger) = Finite 0
  /\ fdiv (sum_amount (of_supplier "DfT" "ALPHA" Samples.refund_ledger))
       (sum_amount (of_department "DfT" Samples.refund_ledger)) = PosInf
  /\ fgt PosInf threshold = true
  /\ py_div (sum_amount (of_supplier "DfT" "ALPHA" Samples.refund_ledger))
       (sum_amount (of_department "DfT" Samples.refund_ledger))
     = Raise ZeroDivisionError
  /\ fdiv (sum_amount (of_supplier "HMRC" "CHARLIE" Samples.refund_ledger))
       (sum_amount (of_department "HMRC" Samples.refund_ledger)) = Finite 1
  /\ fgt (Finite 1) threshold = true
  /\ detect_supplier_concentration declared Samples.refund_ledger
     = Raise ZeroDivisionError
  /\ detect_anomalies declared Samples.refund_ledger = Raise ZeroDivisionError
  /\ exists out,
       detect_supplier_concentration declared Samples.share_ledger = Ok out
       /\ anomalies_for "supplier_concentration_spend" "HMRC" "ALPHA" (rows out)
          = [spend_anomaly declared Samples.share_ledger "HMRC" "ALPHA"]
       /\ severity (spend_anomaly declared Samples.share_ledger "HMRC" "ALPHA")
          = "high"
       /\ anomaly_amount
            (spend_anomaly declared Samples.share_ledger "HMRC" "ALPHA")
          = Finite (160000 # 1)
       /\ count (spend_anomaly declared Samples.share_ledger "HMRC" "ALPHA") = 2
       /\ anomalies_for "supplier_concentration_spend" "HMRC" "BRAVO" (rows out)
          = [].
Proof.
  cbv zeta.
  repeat (split; [vm_compute; reflexivity|]).
  eexists. split; [vm_compute; reflexivity|].
  repeat split; vm_compute; reflexivity.
Qed.


(** *** The theorems at sample ledgers *)

Lemma detect_high_payments_flags_exceeding_witness :
  let table := high_payment (ANOMALY_THRESHOLDS declared) in
  NoDup (map fst table)
  /\ Permutation (rows (detect_high_payments declared Samples.high_ledger))
       [ high_payment_anomaly table
           (Samples.row "HMRC" "ACME LTD" (934001 # 1) 20090 "Fees"
              "above the threshold") ].
Proof.
  intros table.
  assert (H : NoDup (map fst table)).
  { apply (NoDup_map_inv (fun d => String.length d)). vm_compute.
    repeat constructor; simpl; intuition discriminate. }
  split; [exact H|].
  exact (proj1 (detect_high_payments_flags_exceeding declared
                  Samples.high_ledger H)).
Defined.

Lemma duplicate_group_reported_once_witness :
  let members := of_payment "HMRC" "ACME LTD" (100 # 1) Samples.repeat_ledger in
  2 <= len members
  /\ has_close_dates (sort (map date members))
       (duplicate_window_days (ANOMALY_THRESHOLDS declared)) = true
  /\ exists x,
       duplicates_for "HMRC" "ACME LTD" (100 # 1)
         (rows (detect_duplicate_patterns declared Samples.repeat_ledger)) = [x]
       /\ anomaly_type x = "duplicate_pattern"
       /\ anomaly_department x = "HMRC"
       /\ anomaly_supplier x = "ACME LTD"
       /\ (exists q, anomaly_amount x = Finite q /\ (q == 100 # 1)%Q)
       /\ count x = len members
       /\ (len members = 2 \/ len members = 3 -> severity x = "medium")
       /\ (4 <= len members -> severity x = "high").
Proof.
  intros members.
  assert (H1 : 2 <= len members) by (apply Z.leb_le; reflexivity).
  assert (H2 : has_close_dates (sort (map date members))
                 (duplicate_window_days (ANOMALY_THRESHOLDS declared)) = true)
    by reflexivity.
  split; [exact H1|]. split; [exact H2|].
  exact (duplicate_group_reported_once declared Samples.repeat_ledger
           "HMRC" "ACME LTD" (100 # 1) H1 H2).
Defined.

(** The examples of the specification. *)

Example high_payment_at_threshold :
  map anomaly_amount (rows (detect_high_payments declared Samples.high_ledger))
  = [Finite (934001 # 1)].
Proof. reflexivity. Qed.

Example share_at_threshold :
  exists out,
    detect_supplier_concentration declared Samples.share_ledger = Ok out
    /\ map anomaly_supplier
         (filter (fun a => String.eqb (anomaly_type a)
                             "supplier_concentration_spend") (rows out))
       = ["ALPHA"; "CHARLIE"; "DELTA"; "ECHO"].
Proof. eexists. split; vm_compute; reflexivity. Qed.

(** The doubles that the literals of [config.py] and the quotients of the
    examples denote. *)
Example declared_thresholds_are_doubles :
  round64 (15 # 100)
  = Finite (concentration_threshold_spend (ANOMALY_THRESHOLDS declared))
  /\ round64 (10 # 100)
     = Finite (concentration_threshold_txn (ANOMALY_THRESHOLDS declared))
  /\ fdiv (Finite (150000 # 1)) (Finite (1000000 # 1))
     = Finite (concentration_threshold_spend (ANOMALY_THRESHOLDS declared))
  /\ fdiv (Finite (160000 # 1)) (Finite (1000000 # 1))
     = Finite (5764607523034235 # 36028797018963968)
  /\ fmul (Finite (concentration_threshold_spend (ANOMALY_THRESHOLDS declared)))
       (Finite 100) = Finite 15.
Proof. repeat split; vm_compute; reflexivity. Qed.

(** Rounding: a third, the two ties just above 2^53, which go to the even
    mantissa, the least subnormal and half of it, the overflow, and the sum
    of the doubles of [0.1] and [0.2]. *)
Example round64_samples :
  round64 (1 # 3) = Finite (6004799503160661 # 18014398509481984)
  /\ round64 (9007199254740993 # 1) = Finite (9007199254740992 # 1)
  /\ round64 (9007199254740995 # 1) = Finite (9007199254740996 # 1)
  /\ round64 (1 # 2 ^ 1074) = Finite (1 # 2 ^ 1074)
  /\ round64 (1 # 2 ^ 1075) = Finite 0
  /\ round64 (inject_Z (2 ^ 1024 - 2 ^ 970 - 1))
     = Finite (inject_Z (2 ^ 1024 - 2 ^ 971))
  /\ round64 (inject_Z (2 ^ 1024 - 2 ^ 970)) = PosInf
  /\ fadd (Finite (3602879701896397 # 36028797018963968))
       (Finite (3602879701896397 # 18014398509481984))
     = Finite (1351079888211149 # 4503599627370496).
Proof. repeat split; vm_compute; reflexivity. Qed.

Example duplicates_outside_window :
  rows (detect_duplicate_patterns declared
          [ Samples.row "HMRC" "ACME LTD" (100 # 1) 20089 "Fees" "";
            Samples.row "HMRC" "ACME LTD" (100 # 1) 20108 "Fees" "" ]) = [].
Proof. reflexivity. Qed.

End AnomalyFacts.

(** ** More on the classifier and the configuration *)

Module ClassifyMore.

Import Config Classify ClassifyFacts.

(** *** Tier 2 and the fallback *)

Lemma kw_cat_empty (s : string) (table : KeywordTable) (c : string) :
  Forall (fun ck : string * list string => fst ck <> "") table ->
  kw_cat s table c = "" ->
  c = "" /\ Forall (fun ck => str_contains (snd ck) s = false) table.
Proof.
  intros Hn. revert c. induction Hn as [|ck table Hck _ IH]; intros c H.
  - split; [exact H | constructor].
  - rewrite kw_cat_cons in H.
    destruct (String.eqb c "") eqn:Ec.
    + apply String.eqb_eq in Ec. subst c. simpl in H.
      destruct (str_contains (snd ck) s) eqn:Es.
      * destruct (IH _ H) as [Hf _]. contradiction.
      * destruct (IH _ H) as [_ Hr]. split; [reflexivity|].
        constructor; assumption.
    + simpl in H. destruct (IH _ H) as [Hc _]. subst c. discriminate.
Qed.

Lemma declared_names :
  Forall (fun ck : string * list string => fst ck <> "")
    declared_CATEGORY_KEYWORDS.
Proof. repeat constructor; discriminate. Qed.

Lemma tier2_rows (cfg : Config.t) (b : bool) (df : DataFrame) :
  tier2 cfg (tier1 cfg (tier0 cfg b (init_category df)))
  = map (fun r => set_category (tier2_cat cfg b r) r) df.
Proof.
  unfold tier2. rewrite keyword_fold_rows, tier1_rows, map_map.
  apply map_ext. intros r.
  rewrite (fold_step_row expense_type) by reflexivity. reflexivity.
Qed.

(** X1.  Tier 2: a record that is unclassified after Tier 1 and whose expense
    type holds a keyword receives the first category of
    [CATEGORY_KEYWORDS] that has such a keyword. *)
Theorem tier2_first_category_wins (df : DataFrame) (b : bool) (i : nat)
  (r : Row) :
  nth_error (tier1 declared (tier0 declared b (init_category df))) i = Some r ->
  col_category r = "" ->
  (exists ck, In ck (CATEGORY_KEYWORDS declared)
              /\ category_matches (snd ck) (expense_type r)) ->
  exists c,
    first_matching (CATEGORY_KEYWORDS declared) (expense_type r) c
    /\ nth_error
         (tier2 declared (tier1 declared (tier0 declared b (init_category df))))
         i
       = Some (set_category c r)
    /\ exists out,
         classify_payments declared df b = Ok out
         /\ nth_error out i = Some (set_category c r).
Proof.
  intros Hr Hcat Hex. rewrite tier1_rows, nth_error_map in Hr.
  destruct (nth_error df i) as [r0|] eqn:Hr0; [|discriminate].
  cbn [option_map] in Hr. injection Hr as <-.
  change (tier1_cat declared b r0 = "") in Hcat.
  change (expense_type (set_category (tier1_cat declared b r0) r0))
    with (expense_type r0) in *.
  destruct (first_matching_exists _ _ declared_keywords_nonempty Hex) as [c Hc].
  assert (Hne : c <> "").
  { apply declared_category_named, (first_matching_in _ _ _ Hc). }
  assert (Hk : tier2_cat declared b r0 = c).
  { unfold tier2_cat. rewrite Hcat.
    apply first_matching_kw_cat;
      [exact declared_keywords_nonempty | exact Hne | exact Hc]. }
  exists c. split; [exact Hc|]. split.
  - rewrite tier2_rows, nth_error_map, Hr0. cbn [option_map]. rewrite Hk.
    reflexivity.
  - destruct (classify_payments_nth declared df b i r0 Hr0) as [out [Ho Hn]].
    exists out. split; [exact Ho|]. rewrite Hn. unfold category_of.
    rewrite Hk. apply String.eqb_neq in Hne. rewrite Hne. reflexivity.
Qed.


Lemma uncategorised_not_declared : ~ In "Uncategorised" CATEGORIES.
Proof. intros H. apply mem_In in H. vm_compute in H. discriminate. Qed.

Lemma tier0_cat_empty (b : bool) (r : Row) :
  tier0_cat declared b r = "" <->
  b = false
  \/ forall c, ~ direct_entry (DIRECT_EXPENSE_TYPE_MAPPING declared)
                   (department r) (expense_type r) c.
Proof.
  unfold tier0_cat. destruct b.
  - split.
    + intros H. right. intros c Hc.
      rewrite (tier0_expr_entry (set_category "" r) _ c) in H.
      * subst c. apply categories_named.
        apply (valid_mapping declared declared_valid).
        apply in_map_iff. exists ((department r, expense_type r), "").
        split; [reflexivity|]. apply in_tier0_conditions. exact Hc.
      * exact declared_mapping_unique.
      * apply in_tier0_conditions. exact Hc.
      * reflexivity.
    + intros [H | H]; [discriminate|].
      rewrite tier0_expr_no_entry; [reflexivity|].
      intros Hin. apply in_map_iff in Hin.
      destruct Hin as [[[d e] c] [Hk Hin]]. simpl in Hk.
      injection Hk as -> ->. apply (H c). apply in_tier0_conditions. exact Hin.
  - split; [intros _; left; reflexivity | reflexivity].
Qed.

Lemma kw_cat_empty_iff (s c : string) :
  kw_cat s declared_CATEGORY_KEYWORDS c = "" <->
  c = ""
  /\ forall ck, In ck declared_CATEGORY_KEYWORDS ->
               ~ category_matches (snd ck) s.
Proof.
  split.
  - intros H. destruct (kw_cat_empty _ _ _ declared_names H) as [Hc Hf].
    split; [exact Hc|]. intros ck Hin Hm.
    rewrite Forall_forall in Hf. specialize (Hf ck Hin).
    apply str_contains_matches in Hm.
    + congruence.
    + pose proof declared_keywords_nonempty as Hne.
      rewrite Forall_forall in Hne. apply Hne, Hin.
  - intros [-> Hno].
    apply no_match_kw_cat; [exact declared_keywords_nonempty | exact Hno].
Qed.

(** X2.  The fallback: a record ends as [Uncategorised] exactly when Tier 0 did
    not classify it (the direct mapping is off or has no entry for its
    department and expense type) and no keyword of any category occurs in
    its description or in its expense type. *)
Theorem uncategorised_iff_no_tier_matches (df : DataFrame) (b : bool)
  (i : nat) (r : Row) :
  nth_error df i = Some r ->
  exists out r',
    classify_payments declared df b = Ok out
    /\ nth_error out i = Some r'
    /\ (category r' = Some "Uncategorised" <->
        (b = false
         \/ forall c, ~ direct_entry (DIRECT_EXPENSE_TYPE_MAPPING declared)
                          (department r) (expense_type r) c)
        /\ (forall ck, In ck (CATEGORY_KEYWORDS declared) ->
                       ~ category_matches (snd ck) (description r))
        /\ (forall ck, In ck (CATEGORY_KEYWORDS declared) ->
                       ~ category_matches (snd ck) (expense_type r))).
Proof.
  intros Hr.
  destruct (classify_payments_nth declared df b i r Hr) as [out [Ho Hn]].
  exists out, (set_category (category_of declared b r) r).
  split; [exact Ho|]. split; [exact Hn|].
  cbn [category set_category].
  assert (H2 : tier2_cat declared b r = "" <->
               (b = false
                \/ forall c, ~ direct_entry (DIRECT_EXPENSE_TYPE_MAPPING declared)
                                 (department r) (expense_type r) c)
               /\ (forall ck, In ck (CATEGORY_KEYWORDS declared) ->
                              ~ category_matches (snd ck) (description r))
               /\ (forall ck, In ck (CATEGORY_KEYWORDS declared) ->
                              ~ category_matches (snd ck) (expense_type r))).
  { unfold tier2_cat, tier1_cat.
    change (CATEGORY_KEYWORDS declared) with declared_CATEGORY_KEYWORDS.
    rewrite !kw_cat_empty_iff, tier0_cat_empty. tauto. }
  rewrite <- H2. unfold category_of.
  destruct (String.eqb (tier2_cat declared b r) "") eqn:E.
  - apply String.eqb_eq in E. split; [intros _; exact E | reflexivity].
  - apply String.eqb_neq in E. split; [|contradiction].
    intros H. injection H as H. exfalso. apply uncategorised_not_declared.
    rewrite <- H.
    assert (Hv : tier2_cat declared b r = ""
                 \/ In (tier2_cat declared b r) CATEGORIES).
    { unfold tier2_cat, tier1_cat.
      apply kw_cat_valid; [exact declared_valid|].
      apply kw_cat_valid; [exact declared_valid|].
      apply tier0_cat_valid, declared_valid. }
    destruct Hv as [Hv | Hv]; [contradiction | exact Hv].
Qed.


(** *** What a run depends on *)

Lemma tier0_expr_fields (conds : list ((string * string) * string))
  (r r' : Row) :
  department r = department r' ->
  expense_type r = expense_type r' ->
  col_category r = col_category r' ->
  tier0_expr conds r = tier0_expr conds r'.
Proof.
  intros Hd He Hc. unfold tier0_expr. rewrite Hc.
  generalize (col_category r') as expr.
  induction conds as [|cc conds IH]; intros expr; simpl.
  - reflexivity.
  - rewrite IH. unfold when_then_otherwise. rewrite Hd, He, Hc. reflexivity.
Qed.

Lemma category_of_fields (cfg : Config.t) (b : bool) (r r' : Row) :
  department r = department r' ->
  expense_type r = expense_type r' ->
  description r = description r' ->
  category_of cfg b r = category_of cfg b r'.
Proof.
  intros Hd He Hs. unfold category_of, tier2_cat, tier1_cat, tier0_cat.
  rewrite He, Hs.
  rewrite (tier0_expr_fields _ (set_category "" r) (set_category "" r')
             Hd He eq_refl).
  reflexivity.
Qed.

(** X5.  The category of a record is decided by its department, its expense
    type and its description alone: two records that agree on the three
    receive the same category, whatever their supplier, amount and date and
    whatever else their tables hold. *)
Theorem category_depends_on_three_columns (cfg : Config.t) (b : bool)
  (df df' : DataFrame) (i j : nat) (r r' : Row) :
  nth_error df i = Some r ->
  nth_error df' j = Some r' ->
  department r = department r' ->
  expense_type r = expense_type r' ->
  description r = description r' ->
  exists out out' x x',
    classify_payments cfg df b = Ok out
    /\ classify_payments cfg df' b = Ok out'
    /\ nth_error out i = Some x
    /\ nth_error out' j = Some x'
    /\ category x = category x'.
Proof.
  intros Hr Hr' Hd He Hs.
  destruct (classify_payments_nth cfg df b i r Hr) as [out [Ho Hn]].
  destruct (classify_payments_nth cfg df' b j r' Hr') as [out' [Ho' Hn']].
  exists out, out', (set_category (category_of cfg b r) r),
    (set_category (category_of cfg b r') r').
  repeat (split; [assumption|]). cbn [category set_category].
  rewrite (category_of_fields cfg b r r') by assumption. reflexivity.
Qed.

(** X3.  Switching the direct mapping off changes nothing for a record that has
    no entry in it: Tiers 1 and 2 and the fallback give it the category
    they give with the mapping on. *)
Theorem direct_map_off_same_without_entry (cfg : Config.t) (df : DataFrame)
  (i : nat) (r : Row) :
  nth_error df i = Some r ->
  (forall c, ~ direct_entry (DIRECT_EXPENSE_TYPE_MAPPING cfg)
               (department r) (expense_type r) c) ->
  exists out_on out_off,
    classify_payments cfg df true = Ok out_on
    /\ classify_payments cfg df false = Ok out_off
    /\ nth_error out_on i = nth_error out_off i.
Proof.
  intros Hr Hno.
  destruct (classify_payments_nth cfg df true i r Hr) as [out1 [Ho1 Hn1]].
  destruct (classify_payments_nth cfg df false i r Hr) as [out2 [Ho2 Hn2]].
  exists out1, out2. split; [exact Ho1|]. split; [exact Ho2|].
  rewrite Hn1, Hn2. do 2 f_equal.
  unfold category_of, tier2_cat, tier1_cat, tier0_cat.
  rewrite tier0_expr_no_entry; [reflexivity|].
  intros Hin. apply in_map_iff in Hin. destruct Hin as [[[d e] c] [Hk Hin]].
  simpl in Hk. injection Hk as -> ->.
  apply (Hno c). apply in_tier0_conditions. exact Hin.
Qed.

(** X4.  A run returns exactly on the tables that have a row; the table it
    returns has the rows of the input, in their order, and differs from it
    in the [category] column only. *)
Theorem classify_payments_keeps_rows (cfg : Config.t) (df : DataFrame)
  (b : bool) :
  (df = [] -> classify_payments cfg df b = Raise ZeroDivisionError)
  /\ (df <> [] ->
      exists out,
        classify_payments cfg df b = Ok out
        /\ List.length out = List.length df
        /\ drop_category out = drop_category df
        /\ Forall (fun r => category r <> None) out).
Proof.
  rewrite classify_payments_rows. split.
  - intros ->. reflexivity.
  - intros Hne. destruct df as [|r df]; [contradiction|].
    cbn [List.length Nat.eqb]. eexists. split; [reflexivity|].
    split; [apply length_map|]. split.
    + unfold drop_category. rewrite map_map. apply map_ext. intros x.
      rewrite classify_row_eq. reflexivity.
    + apply Forall_map, Forall_forall. intros x _. rewrite classify_row_eq.
      discriminate.
Qed.


(** *** Checking the configuration *)

(** X7.  [validate_config] accepts a configuration exactly when the keyword
    table names the declared categories, each of them and no other, every
    entry of the direct mapping targets a declared category, and each of
    the three departments has a high-payment threshold; every other
    configuration is refused with [ValueError]. *)
Theorem validate_config_accepts_iff (cfg : Config.t) :
  (validate_config cfg = Ok tt <->
   (forall c, In c (map fst (CATEGORY_KEYWORDS cfg)) <-> In c CATEGORIES)
   /\ (forall d m e c,
         In (d, m) (DIRECT_EXPENSE_TYPE_MAPPING cfg) -> In (e, c) m ->
         In c CATEGORIES)
   /\ (forall d, In d ["HMRC"; "Home Office"; "DfT"] ->
                 exists t, In (d, t) (high_payment (ANOMALY_THRESHOLDS cfg))))
  /\ (validate_config cfg = Ok tt \/ validate_config cfg = Raise ValueError).
Proof.
  unfold validate_config.
  assert (H1 : set_eq (map fst (CATEGORY_KEYWORDS cfg)) CATEGORIES = true <->
               forall c, In c (map fst (CATEGORY_KEYWORDS cfg))
                         <-> In c CATEGORIES).
  { unfold set_eq. rewrite andb_true_iff, !subset_incl. unfold incl. split.
    - intros [Ha Hb] c. split; [apply Ha | apply Hb].
    - intros H. split; intros c; apply H. }
  assert (H2 : forallb (fun dm => subset (map snd (snd dm)) CATEGORIES)
                 (DIRECT_EXPENSE_TYPE_MAPPING cfg) = true <->
               forall d m e c,
                 In (d, m) (DIRECT_EXPENSE_TYPE_MAPPING cfg) -> In (e, c) m ->
                 In c CATEGORIES).
  { rewrite forallb_forall. split.
    - intros H d m e c Hm Hec. specialize (H _ Hm). simpl in H.
      apply subset_incl in H. apply H. apply in_map_iff.
      exists (e, c). split; [reflexivity | exact Hec].
    - intros H [d m] Hm. simpl. apply subset_incl. intros c Hc.
      apply in_map_iff in Hc. destruct Hc as [[e c'] [Heq Hec]].
      simpl in Heq. subst c'. apply (H d m e c Hm Hec). }
  assert (H3 : subset ["HMRC"; "Home Office"; "DfT"]
                 (map fst (high_payment (ANOMALY_THRESHOLDS cfg))) = true <->
               forall d, In d ["HMRC"; "Home Office"; "DfT"] ->
                         exists t, In (d, t)
                                     (high_payment (ANOMALY_THRESHOLDS cfg))).
  { rewrite subset_incl. unfold incl. split.
    - intros H d Hd. specialize (H d Hd). apply in_map_iff in H.
      destruct H as [[d' t] [Heq Hin]]. simpl in Heq. subst d'.
      exists t. exact Hin.
    - intros H d Hd. destruct (H d Hd) as [t Hin]. apply in_map_iff.
      exists (d, t). split; [reflexivity | exact Hin]. }
  rewrite <- H1, <- H2, <- H3.
  destruct (set_eq (map fst (CATEGORY_KEYWORDS cfg)) CATEGORIES);
    destruct (forallb (fun dm => subset (map snd (snd dm)) CATEGORIES)
                (DIRECT_EXPENSE_TYPE_MAPPING cfg));
    destruct (subset ["HMRC"; "Home Office"; "DfT"]
                (map fst (high_payment (ANOMALY_THRESHOLDS cfg))));
    cbn [negb]; (split; [split; [intros H; try discriminate H; tauto
                                | intros [? [? ?]]; try reflexivity;
                                  discriminate]
                        | tauto]).
Qed.


(** *** The theorems at the sample ledger *)

Lemma tier2_first_category_wins_witness :
  let r := set_category "" (nth 3 Samples.ledger (Samples.row "" "" 0 0 "" "")) in
  nth_error
    (tier1 declared (tier0 declared true (init_category Samples.ledger))) 3
  = Some r
  /\ col_category r = ""
  /\ exists c,
       first_matching (CATEGORY_KEYWORDS declared) (expense_type r) c
       /\ nth_error
            (tier2 declared
               (tier1 declared (tier0 declared true (init_category Samples.ledger))))
            3
          = Some (set_category c r)
       /\ exists out,
            classify_payments declared Samples.ledger true = Ok out
            /\ nth_error out 3 = Some (set_category c r).
Proof.
  intros r.
  assert (H1 : nth_error
                 (tier1 declared
                    (tier0 declared true (init_category Samples.ledger))) 3
               = Some r) by (vm_compute; reflexivity).
  assert (H2 : col_category r = "") by reflexivity.
  split; [exact H1|]. split; [exact H2|].
  apply (tier2_first_category_wins Samples.ledger true 3 r H1 H2).
  exists (nth 3 declared_CATEGORY_KEYWORDS ("", [])).
  split; [right; right; right; left; reflexivity|].
  exists "train". split; [right; left; reflexivity|].
  apply StrFacts.contains_ci_spec. vm_compute. reflexivity.
Defined.

Lemma uncategorised_iff_no_tier_matches_witness :
  let r := nth 2 Samples.ledger (Samples.row "" "" 0 0 "" "") in
  nth_error Samples.ledger 2 = Some r
  /\ exists out r',
       classify_payments declared Samples.ledger true = Ok out
       /\ nth_error out 2 = Some r'
       /\ (category r' = Some "Uncategorised" <->
           (true = false
            \/ forall c, ~ direct_entry (DIRECT_EXPENSE_TYPE_MAPPING declared)
                             (department r) (expense_type r) c)
           /\ (forall ck, In ck (CATEGORY_KEYWORDS declared) ->
                          ~ category_matches (snd ck) (description r))
           /\ (forall ck, In ck (CATEGORY_KEYWORDS declared) ->
                          ~ category_matches (snd ck) (expense_type r))).
Proof.
  intros r.
  assert (H : nth_error Samples.ledger 2 = Some r) by reflexivity.
  split; [exact H|].
  exact (uncategorised_iff_no_tier_matches Samples.ledger true 2 r H).
Defined.

Lemma category_depends_on_three_columns_witness :
  let r := nth 1 Samples.ledger (Samples.row "" "" 0 0 "" "") in
  let r' := Samples.row "HMRC" "OTHER SUPPLIER" (7 # 2) 1 "Fees"
              "Legal advice on IT" in
  nth_error Samples.ledger 1 = Some r
  /\ nth_error [r'] 0 = Some r'
  /\ department r = department r'
  /\ expense_type r = expense_type r'
  /\ description r = description r'
  /\ exists out out' x x',
       classify_payments declared Samples.ledger true = Ok out
       /\ classify_payments declared [r'] true = Ok out'
       /\ nth_error out 1 = Some x
       /\ nth_error out' 0 = Some x'
       /\ category x = category x'.
Proof.
  intros r r'.
  assert (H1 : nth_error Samples.ledger 1 = Some r) by reflexivity.
  assert (H2 : nth_error [r'] 0 = Some r') by reflexivity.
  assert (H3 : department r = department r') by reflexivity.
  assert (H4 : expense_type r = expense_type r') by reflexivity.
  assert (H5 : description r = description r') by reflexivity.
  repeat (split; [assumption|]).
  exact (category_depends_on_three_columns declared true Samples.ledger [r']
           1 0 r r' H1 H2 H3 H4 H5).
Defined.

Lemma direct_map_off_same_without_entry_witness :
  let r := nth 2 Samples.ledger (Samples.row "" "" 0 0 "" "") in
  nth_error Samples.ledger 2 = Some r
  /\ (forall c, ~ direct_entry (DIRECT_EXPENSE_TYPE_MAPPING declared)
                   (department r) (expense_type r) c)
  /\ exists out_on out_off,
       classify_payments declared Samples.ledger true = Ok out_on
       /\ classify_payments declared Samples.ledger false = Ok out_off
       /\ nth_error out_on 2 = nth_error out_off 2.
Proof.
  intros r.
  assert (H1 : nth_error Samples.ledger 2 = Some r) by reflexivity.
  assert (H2 : forall c, ~ direct_entry (DIRECT_EXPENSE_TYPE_MAPPING declared)
                           (department r) (expense_type r) c).
  { assert (H0 : tier0_cat declared true r = "") by (vm_compute; reflexivity).
    apply tier0_cat_empty in H0. destruct H0 as [H0 | H0];
      [discriminate | exact H0]. }
  split; [exact H1|]. split; [exact H2|].
  exact (direct_map_off_same_without_entry declared Samples.ledger 2 r H1 H2).
Defined.

Lemma classify_payments_keeps_rows_witness :
  Samples.ledger <> []
  /\ exists out,
       classify_payments declared Samples.ledger true = Ok out
       /\ List.length out = List.length Samples.ledger
       /\ drop_category out = drop_category Samples.ledger
       /\ Forall (fun r => category r <> None) out.
Proof.
  assert (H : Samples.ledger <> []) by discriminate.
  split; [exact H|].
  exact (proj2 (classify_payments_keeps_rows declared Samples.ledger true) H).
Defined.

End ClassifyMore.

(** ** More on the detectors *)

Module AnomalyMore.

Import Config Anomalies AnomalyFacts.

(** *** The transaction variant of the concentration detector *)

Lemma supplier_txns_eq (df : DataFrame) :
  supplier_txns df
  = map (fun k : string * string => {|
           txns_department := fst k;
           txns_supplier := snd k;
           supplier_txn_count := len (of_supplier (fst k) (snd k) df);
           supplier_amount := sum_amount (of_supplier (fst k) (snd k) df);
           dept_txn_total := len (of_department (fst k) df) |})
      (distinct pair_key_eqb (map pair_key df)).
Proof.
  unfold supplier_txns.
  rewrite (join_single _
             (fun g : (string * string) * DataFrame =>
                len (of_department (fst (fst g)) df))).
  - unfold group_by. rewrite !map_map. reflexivity.
  - intros g Hg. unfold group_by in Hg. apply in_map_iff in Hg.
    destruct Hg as [k [<- Hk]]. cbn [fst snd]. unfold dept_txns.
    apply (department_of_group (fun m : DataFrame => len m) df k Hk).
Qed.

Lemma pair_has_rows (df : DataFrame) (k : string * string) :
  In k (pairs df) -> 1 <= len (of_supplier (fst k) (snd k) df).
Proof.
  intros Hk. apply distinct_incl in Hk. apply in_map_iff in Hk.
  destruct Hk as [r [<- Hr]].
  assert (Hin : In r (of_supplier (fst (pair_key r)) (snd (pair_key r)) df)).
  { apply filter_In. split; [exact Hr|]. apply pair_key_eqb_refl. }
  unfold len.
  destruct (of_supplier (fst (pair_key r)) (snd (pair_key r)) df);
    [destruct Hin | simpl; lia].
Qed.

Lemma department_has_rows (df : DataFrame) (d s : string) :
  of_supplier d s df <> [] -> 0 < len (of_department d df).
Proof.
  intros Hex. destruct (of_supplier d s df) as [|r m] eqn:E; [contradiction|].
  assert (Hr : In r (of_supplier d s df)) by (rewrite E; left; reflexivity).
  apply filter_In in Hr. destruct Hr as [Hr Hk].
  apply pair_key_eqb_eq in Hk. injection Hk as Hd _.
  assert (Hin : In r (of_department d df)).
  { apply filter_In. split; [exact Hr|]. rewrite Hd. apply String.eqb_refl. }
  unfold len. destruct (of_department d df); [destruct Hin | simpl; lia].
Qed.

Lemma count_not_zero (n : Z) : 0 < n -> is_zero (of_int n) = false.
Proof.
  intros Hn. unfold is_zero, of_int.
  destruct (Qeq_bool (inject_Z n) 0) eqn:E; [|reflexivity].
  apply Qeq_bool_iff in E. unfold Qeq in E. simpl in E. lia.
Qed.

(** The loop of the transaction variant never raises: a department of the
    table has a transaction. *)
Lemma txn_results_eq (cfg : Config.t) (df : DataFrame) :
  txn_results cfg df = Ok (flat_map (txn_report cfg df) (pairs df)).
Proof.
  unfold txn_results. rewrite supplier_txns_eq.
  erewrite (collect_guarded _
              (fun row => is_zero (of_int (dept_txn_total row))) _
              ZeroDivisionError).
  2:{ intros row. unfold py_div.
      destruct (is_zero (of_int (dept_txn_total row))); cbn [bind];
        reflexivity. }
  rewrite existsb_filter_map, map_filter_map.
  cbn [dept_txn_total supplier_txn_count].
  replace (existsb _ (distinct pair_key_eqb (map pair_key df))) with false;
    [reflexivity|].
  symmetry. apply not_true_is_false. intros H. apply existsb_exists in H.
  destruct H as [k [Hk H]]. apply andb_true_iff in H. destruct H as [_ H].
  rewrite count_not_zero in H; [discriminate|].
  apply (department_has_rows df (fst k) (snd k)).
  pose proof (pair_has_rows df k Hk) as Hn. intros E. rewrite E in Hn.
  unfold len in Hn. simpl in Hn. lia.
Qed.

Lemma txn_rows (cfg : Config.t) (df : DataFrame) (txn : list Anomaly) :
  txn_results cfg df = Ok txn ->
  txn = flat_map (txn_report cfg df) (pairs df).
Proof. rewrite txn_results_eq. intros H. injection H as <-. reflexivity. Qed.

Lemma concentration_eq (cfg : Config.t) (df : DataFrame) :
  detect_supplier_concentration cfg df
  = if existsb (spend_fails cfg df) (pairs df) then Raise ZeroDivisionError
    else Ok {| schema := anomaly_schema;
               rows := flat_map (spend_report cfg df) (pairs df)
                       ++ flat_map (txn_report cfg df) (pairs df) |}.
Proof.
  unfold detect_supplier_concentration.
  rewrite spend_results_eq, txn_results_eq.
  destruct (existsb (spend_fails cfg df) (pairs df)); cbn [bind];
    [reflexivity|].
  rewrite of_anomalies_eq. reflexivity.
Qed.

(** X22.  [detect_supplier_concentration] raises [ZeroDivisionError] exactly
    on the tables in which some department and supplier pass the filter of
    the spend variant while the total of the department is zero; on every
    other table it returns the frame of the reports of the spend variant,
    pair by pair, followed by those of the transaction variant. *)
Theorem concentration_outcome (cfg : Config.t) (df : DataFrame) :
  (existsb (spend_fails cfg df) (pairs df) = true ->
   detect_supplier_concentration cfg df = Raise ZeroDivisionError)
  /\ (existsb (spend_fails cfg df) (pairs df) = false ->
      detect_supplier_concentration cfg df
      = Ok {| schema := anomaly_schema;
              rows := flat_map (spend_report cfg df) (pairs df)
                      ++ flat_map (txn_report cfg df) (pairs df) |})
  /\ (forall k,
        spend_fails cfg df k = true <->
        fgt (fdiv (sum_amount (of_supplier (fst k) (snd k) df))
                  (sum_amount (of_department (fst k) df)))
          (concentration_threshold_spend (ANOMALY_THRESHOLDS cfg)) = true
        /\ is_zero (sum_amount (of_department (fst k) df)) = true)
  /\ forall e,
       detect_supplier_concentration cfg df = Raise e -> e = ZeroDivisionError.
Proof.
  rewrite concentration_eq. split; [|split; [|split]].
  - intros H. rewrite H. reflexivity.
  - intros H. rewrite H. reflexivity.
  - intros k. unfold spend_fails. apply andb_true_iff.
  - intros e. destruct (existsb (spend_fails cfg df) (pairs df));
      [|discriminate].
    intros H. injection H as <-. reflexivity.
Qed.

Lemma concentration_rows (cfg : Config.t) (df : DataFrame)
  (out : AnomalyFrame) :
  detect_supplier_concentration cfg df = Ok out ->
  rows out
  = flat_map (spend_report cfg df) (pairs df)
    ++ flat_map (txn_report cfg df) (pairs df).
Proof.
  intros H. destruct (concentration_frame cfg df out H)
    as [spend [txn [Hs [Ht ->]]]].
  rewrite (spend_rows cfg df spend Hs), (txn_rows cfg df txn Ht). reflexivity.
Qed.

Lemma pair_in_table (df : DataFrame) (d s : string) :
  of_supplier d s df <> [] -> In (d, s) (map pair_key df).
Proof.
  intros Hex. destruct (of_supplier d s df) as [|r m] eqn:E; [contradiction|].
  assert (Hr : In r (of_supplier d s df)) by (rewrite E; left; reflexivity).
  apply filter_In in Hr. destruct Hr as [Hr Hk].
  apply pair_key_eqb_eq in Hk. rewrite Hk. apply in_map, Hr.
Qed.

(** The report on one pair, read off the report on all pairs. *)
Lemma report_of_pair (report : string * string -> list Anomaly)
  (ty : string) (df : DataFrame) (d s : string) :
  (forall k x, In x (report k) ->
     anomaly_type x = ty /\ anomaly_department x = fst k
     /\ anomaly_supplier x = snd k) ->
  of_supplier d s df <> [] ->
  anomalies_for ty d s (flat_map report (pairs df)) = report (d, s).
Proof.
  intros Hrep Hex. unfold anomalies_for, pairs.
  rewrite (filter_flat_map _ (fun k => pair_key_eqb k (d, s))).
  2:{ intros k x _ Hx. destruct (Hrep k x Hx) as [-> [-> ->]].
      rewrite String.eqb_refl. reflexivity. }
  destruct (distinct_group pair_key_eqb pair_key_eqb_refl pair_key_eqb_sym
              pair_key_eqb_trans (map pair_key df) (d, s) (d, s)
              (pair_in_table df d s Hex) (pair_key_eqb_refl _))
    as [k0 [Hf [Hk0 _]]].
  apply pair_key_eqb_eq in Hk0. subst k0. rewrite Hf. cbn [flat_map].
  apply app_nil_r.
Qed.

Lemma spend_report_fields (cfg : Config.t) (df : DataFrame)
  (k : string * string) (x : Anomaly) :
  In x (spend_report cfg df k) ->
  anomaly_type x = "supplier_concentration_spend"
  /\ anomaly_department x = fst k /\ anomaly_supplier x = snd k.
Proof.
  unfold spend_report. destruct (fgt _ _); [|intros []].
  intros [<- | []]. repeat split.
Qed.

Lemma txn_report_fields (cfg : Config.t) (df : DataFrame)
  (k : string * string) (x : Anomaly) :
  In x (txn_report cfg df k) ->
  anomaly_type x = "supplier_concentration_txn"
  /\ anomaly_department x = fst k /\ anomaly_supplier x = snd k.
Proof.
  unfold txn_report. destruct (fgt _ _); [|intros []].
  intros [<- | []]. repeat split.
Qed.

Lemma reports_of_type (report : string * string -> list Anomaly)
  (ty : string) (l : list (string * string)) :
  (forall k x, In x (report k) -> anomaly_type x = ty) ->
  Forall (fun a => anomaly_type a = ty) (flat_map report l).
Proof.
  intros H. apply Forall_forall. intros x Hx. apply in_flat_map in Hx.
  destruct Hx as [k [_ Hx]]. eapply H, Hx.
Qed.

Lemma spend_found (cfg : Config.t) (df : DataFrame) (out : AnomalyFrame)
  (d s : string) :
  detect_supplier_concentration cfg df = Ok out ->
  of_supplier d s df <> [] ->
  anomalies_for "supplier_concentration_spend" d s (rows out)
  = spend_report cfg df (d, s).
Proof.
  intros Hout Hex. rewrite (concentration_rows cfg df out Hout).
  unfold anomalies_for at 1. rewrite filter_app.
  fold (anomalies_for "supplier_concentration_spend" d s
          (flat_map (spend_report cfg df) (pairs df))).
  fold (anomalies_for "supplier_concentration_spend" d s
          (flat_map (txn_report cfg df) (pairs df))).
  rewrite (anomalies_for_other_type _ "supplier_concentration_txn" d s
             (flat_map (txn_report cfg df) (pairs df))).
  - rewrite app_nil_r.
    apply report_of_pair; [apply spend_report_fields | exact Hex].
  - discriminate.
  - apply reports_of_type. intros k x Hx. apply (txn_report_fields cfg df k x Hx).
Qed.

Lemma txn_found (cfg : Config.t) (df : DataFrame) (out : AnomalyFrame)
  (d s : string) :
  detect_supplier_concentration cfg df = Ok out ->
  of_supplier d s df <> [] ->
  anomalies_for "supplier_concentration_txn" d s (rows out)
  = txn_report cfg df (d, s).
Proof.
  intros Hout Hex. rewrite (concentration_rows cfg df out Hout).
  unfold anomalies_for at 1. rewrite filter_app.
  fold (anomalies_for "supplier_concentration_txn" d s
          (flat_map (spend_report cfg df) (pairs df))).
  fold (anomalies_for "supplier_concentration_txn" d s
          (flat_map (txn_report cfg df) (pairs df))).
  rewrite (anomalies_for_other_type _ "supplier_concentration_spend" d s
             (flat_map (spend_report cfg df) (pairs df))).
  - cbn [app].
    apply report_of_pair; [apply txn_report_fields | exact Hex].
  - discriminate.
  - apply reports_of_type. intros k x Hx.
    apply (spend_report_fields cfg df k x Hx).
Qed.

(** X12.  The transaction variant, on a table on which
    [detect_supplier_concentration] returns: a department and supplier of
    the table are reported as [supplier_concentration_txn] exactly when the
    quotient of the number of transactions of the supplier by the number of
    transactions of the department, as a double, is strictly above the
    threshold; the report is one anomaly of severity [medium] that carries
    the total spend and the number of transactions of the supplier. *)
Theorem txn_concentration_flags_share (cfg : Config.t) (df : DataFrame)
  (out : AnomalyFrame) (d s : string) :
  let threshold := concentration_threshold_txn (ANOMALY_THRESHOLDS cfg) in
  let share :=
    fdiv (of_int (len (of_supplier d s df)))
         (of_int (len (of_department d df))) in
  let found := anomalies_for "supplier_concentration_txn" d s (rows out) in
  detect_supplier_concentration cfg df = Ok out ->
  of_supplier d s df <> [] ->
  (fgt share threshold = true -> found = [txn_anomaly cfg df d s])
  /\ (fgt share threshold = false -> found = [])
  /\ share = round64 (inject_Z (len (of_supplier d s df))
                      / inject_Z (len (of_department d df)))
  /\ severity (txn_anomaly cfg df d s) = "medium"
  /\ anomaly_amount (txn_anomaly cfg df d s) = sum_amount (of_supplier d s df)
  /\ count (txn_anomaly cfg df d s) = len (of_supplier d s df).
Proof.
  intros threshold share found Hout Hex. subst found.
  rewrite (txn_found cfg df out d s Hout Hex). unfold txn_report.
  cbn [fst snd]. fold threshold. fold share.
  split; [|split; [|split; [|repeat split]]].
  - intros H. rewrite H. reflexivity.
  - intros H. rewrite H. reflexivity.
  - subst share. unfold fdiv, of_int.
    pose proof (count_not_zero _ (department_has_rows df d s Hex)) as Hz.
    unfold is_zero, of_int in Hz. rewrite Hz. reflexivity.
Qed.

(** X23.  The spend variant, on a table on which
    [detect_supplier_concentration] returns: a department and supplier of
    the table are reported as [supplier_concentration_spend] exactly when
    the quotient of the total of the supplier by the total of the
    department, all three doubles, is strictly above the threshold or is
    NaN; the report is one anomaly of severity [high] that carries the
    total spend and the number of transactions of the supplier, and the
    total of the department of a reported supplier is not zero. *)
Theorem spend_share_reported_when_returns (cfg : Config.t) (df : DataFrame)
  (out : AnomalyFrame) (d s : string) :
  let threshold := concentration_threshold_spend (ANOMALY_THRESHOLDS cfg) in
  let share :=
    fdiv (sum_amount (of_supplier d s df)) (sum_amount (of_department d df)) in
  let found := anomalies_for "supplier_concentration_spend" d s (rows out) in
  detect_supplier_concentration cfg df = Ok out ->
  of_supplier d s df <> [] ->
  (fgt share threshold = true ->
   found = [spend_anomaly cfg df d s]
   /\ is_zero (sum_amount (of_department d df)) = false)
  /\ (fgt share threshold = false -> found = [])
  /\ severity (spend_anomaly cfg df d s) = "high"
  /\ anomaly_amount (spend_anomaly cfg df d s)
     = sum_amount (of_supplier d s df)
  /\ count (spend_anomaly cfg df d s) = len (of_supplier d s df).
Proof.
  intros threshold share found Hout Hex. subst found.
  rewrite (spend_found cfg df out d s Hout Hex). unfold spend_report.
  cbn [fst snd]. fold threshold. fold share.
  split; [|split; [|repeat split]].
  - intros H. rewrite H. split; [reflexivity|].
    rewrite concentration_eq in Hout.
    destruct (existsb (spend_fails cfg df) (pairs df)) eqn:E; [discriminate|].
    destruct (is_zero (sum_amount (of_department d df))) eqn:Ez; [|reflexivity].
    rewrite <- E. symmetry. apply existsb_exists. exists (d, s). split.
    + destruct (distinct_cover pair_key_eqb pair_key_eqb_refl
                  pair_key_eqb_trans (map pair_key df) (d, s)
                  (pair_in_table df d s Hex)) as [k0 [Hk0 Hk]].
      apply pair_key_eqb_eq in Hk. subst k0. exact Hk0.
    + unfold spend_fails. cbn [fst snd]. fold threshold. fold share.
      rewrite H, Ez. reflexivity.
  - intros H. rewrite H. reflexivity.
Qed.

(** X24.  The comparison is one of doubles.  In [cents_ledger] a supplier
    is paid 0.45 and another 2.55: in exact arithmetic the share of the
    first is above 15/100, and the threshold, the double of [0.15], is
    below 15/100.  The total of the department rounds to 3 and the
    quotient to the double of [0.15], which is not above the threshold: the
    supplier is not reported, the other one is. *)
Theorem rounded_share_is_compared :
  let threshold := concentration_threshold_spend (ANOMALY_THRESHOLDS declared) in
  (threshold < 15 # 100)%Q
  /\ (15 # 100 < exact_share "HMRC" "ALPHA" Samples.cents_ledger)%Q
  /\ sum_amount (of_department "HMRC" Samples.cents_ledger) = Finite 3
  /\ fdiv (sum_amount (of_supplier "HMRC" "ALPHA" Samples.cents_ledger))
       (sum_amount (of_department "HMRC" Samples.cents_ledger))
     = Finite threshold
  /\ exists out,
       detect_supplier_concentration declared Samples.cents_ledger = Ok out
       /\ anomalies_for "supplier_concentration_spend" "HMRC" "ALPHA" (rows out)
          = []
       /\ anomalies_for "supplier_concentration_spend" "HMRC" "BRAVO" (rows out)
          = [spend_anomaly declared Samples.cents_ledger "HMRC" "BRAVO"].
Proof.
  cbv zeta.
  repeat (split; [vm_compute; reflexivity|]).
  eexists. split; [vm_compute; reflexivity|].
  split; vm_compute; reflexivity.
Qed.

(** X13.  The two variants are reported side by side: on a table on which
    [detect_supplier_concentration] returns, a supplier whose two
    quotients are above their thresholds has an anomaly of each type in the
    frame, the two carrying the same amount and count. *)
Theorem concentration_variants_both_reported (cfg : Config.t)
  (df : DataFrame) (out : AnomalyFrame) (d s : string) :
  detect_supplier_concentration cfg df = Ok out ->
  of_supplier d s df <> [] ->
  fgt (fdiv (sum_amount (of_supplier d s df))
            (sum_amount (of_department d df)))
    (concentration_threshold_spend (ANOMALY_THRESHOLDS cfg)) = true ->
  fgt (fdiv (of_int (len (of_supplier d s df)))
            (of_int (len (of_department d df))))
    (concentration_threshold_txn (ANOMALY_THRESHOLDS cfg)) = true ->
  In (spend_anomaly cfg df d s) (rows out)
  /\ In (txn_anomaly cfg df d s) (rows out)
  /\ anomaly_amount (spend_anomaly cfg df d s)
     = anomaly_amount (txn_anomaly cfg df d s)
  /\ count (spend_anomaly cfg df d s) = count (txn_anomaly cfg df d s).
Proof.
  intros Hout Hex Hs Ht.
  assert (H1 : anomalies_for "supplier_concentration_spend" d s (rows out)
               = [spend_anomaly cfg df d s]).
  { rewrite (spend_found cfg df out d s Hout Hex). unfold spend_report.
    cbn [fst snd]. rewrite Hs. reflexivity. }
  assert (H2 : anomalies_for "supplier_concentration_txn" d s (rows out)
               = [txn_anomaly cfg df d s]).
  { rewrite (txn_found cfg df out d s Hout Hex). unfold txn_report.
    cbn [fst snd]. rewrite Ht. reflexivity. }
  split; [|split; [|split; reflexivity]].
  - assert (H : In (spend_anomaly cfg df d s)
                  (anomalies_for "supplier_concentration_spend" d s (rows out)))
      by (rewrite H1; left; reflexivity).
    apply filter_In in H. apply H.
  - assert (H : In (txn_anomaly cfg df d s)
                  (anomalies_for "supplier_concentration_txn" d s (rows out)))
      by (rewrite H2; left; reflexivity).
    apply filter_In in H. apply H.
Qed.

(** *** The aggregator *)

(** X14.  [detect_anomalies] raises what [detect_supplier_concentration]
    raises, which is [ZeroDivisionError].  When that detector returns,
    [detect_anomalies] returns exactly when some detector reports an
    anomaly, and then the table of the fixed schema whose rows are those of
    the high payments, of the duplicate patterns and of the supplier
    concentration, in this order; when no detector reports anything it
    raises [ValueError].  It never fails on the schemas of the frames and
    never returns the empty table. *)
Theorem detect_anomalies_returns_iff_some_anomaly (cfg : Config.t)
  (df : DataFrame) :
  (forall e,
     detect_supplier_concentration cfg df = Raise e ->
     e = ZeroDivisionError /\ detect_anomalies cfg df = Raise e)
  /\ (forall concentration,
        detect_supplier_concentration cfg df = Ok concentration ->
        let all :=
          rows (detect_high_payments cfg df)
          ++ rows (detect_duplicate_patterns cfg df)
          ++ rows concentration in
        (all = [] -> detect_anomalies cfg df = Raise ValueError)
        /\ (all <> [] ->
            detect_anomalies cfg df
            = Ok {| schema := anomaly_schema; rows := all |}))
  /\ detect_anomalies cfg df <> Raise SchemaError
  /\ detect_anomalies cfg df <> Ok _empty_anomaly_df.
Proof.
  rewrite detect_anomalies_eq.
  destruct (detect_supplier_concentration cfg df) as [c|e] eqn:E; cbn [bind].
  - split; [intros e H; discriminate|]. split.
    + intros c' H. injection H as <-. cbv zeta.
      destruct (rows (detect_high_payments cfg df)
                ++ rows (detect_duplicate_patterns cfg df) ++ rows c).
      * split; [reflexivity | intros H; contradiction].
      * split; [discriminate | reflexivity].
    + destruct (rows (detect_high_payments cfg df)
                ++ rows (detect_duplicate_patterns cfg df) ++ rows c);
        split; discriminate.
  - assert (He : e = ZeroDivisionError).
    { rewrite concentration_eq in E.
      destruct (existsb (spend_fails cfg df) (pairs df)); [|discriminate].
      injection E as <-. reflexivity. }
    subst e. split.
    + intros e H. injection H as <-. split; reflexivity.
    + split; [intros c H; discriminate|]. split; discriminate.
Qed.

(** *** Duplicate patterns: what is not reported *)

Lemma duplicates_of_group (cfg : Config.t) (df : DataFrame) (d s : string)
  (a : Q) :
  (of_payment d s a df = [] ->
   duplicates_for d s a (rows (detect_duplicate_patterns cfg df)) = [])
  /\ (of_payment d s a df <> [] ->
      exists k0,
        dup_key_eqb k0 (d, s, a) = true
        /\ filter (fun r => dup_key_eqb k0 (dup_key r)) df = of_payment d s a df
        /\ duplicates_for d s a (rows (detect_duplicate_patterns cfg df))
           = duplicate_report cfg df k0).
Proof.
  assert (Hfl : duplicates_for d s a (rows (detect_duplicate_patterns cfg df))
                = flat_map (duplicate_report cfg df)
                    (filter (fun k => dup_key_eqb k (d, s, a))
                       (distinct dup_key_eqb (map dup_key df)))).
  { rewrite duplicate_rows. unfold duplicates_for.
    apply filter_flat_map. intros k x _ Hx. unfold duplicate_report in Hx.
    destruct ((2 <=? len (filter (fun r => dup_key_eqb k (dup_key r)) df))
              && has_close_dates
                   (sort (map date
                            (filter (fun r => dup_key_eqb k (dup_key r)) df)))
                   (duplicate_window_days (ANOMALY_THRESHOLDS cfg)));
      [|destruct Hx].
    destruct Hx as [<- | []]. reflexivity. }
  rewrite Hfl. split.
  - intros Hnone. rewrite filter_equivalent_none; [reflexivity|].
    intros k0 Hk0. apply distinct_incl in Hk0. apply in_map_iff in Hk0.
    destruct Hk0 as [r [<- Hr]].
    destruct (dup_key_eqb (dup_key r) (d, s, a)) eqn:E; [|reflexivity].
    exfalso.
    assert (Hin : In r (of_payment d s a df)).
    { apply filter_In. split; [exact Hr|]. rewrite dup_key_eqb_sym. exact E. }
    rewrite Hnone in Hin. destruct Hin.
  - intros Hsome. destruct (of_payment d s a df) as [|r m] eqn:E;
      [contradiction|].
    assert (Hr : In r (of_payment d s a df)) by (rewrite E; left; reflexivity).
    apply filter_In in Hr. destruct Hr as [Hr Hk].
    destruct (distinct_group dup_key_eqb dup_key_eqb_refl dup_key_eqb_sym
                dup_key_eqb_trans (map dup_key df) (d, s, a) (dup_key r))
      as [k0 [Hf [Hk0 _]]].
    { apply in_map, Hr. }
    { rewrite dup_key_eqb_sym. exact Hk. }
    exists k0. split; [exact Hk0|]. split.
    + rewrite <- E. apply filter_ext. intros r'.
      apply dup_key_eqb_congr, Hk0.
    + rewrite Hf. cbn [flat_map]. apply app_nil_r.
Qed.

(** X15.  A group of records of one department, supplier and amount that has a
    single member, or whose sorted dates have no adjacent gap within the
    window, is not reported. *)
Theorem duplicate_group_not_reported (cfg : Config.t) (df : DataFrame)
  (d s : string) (a : Q) :
  let members := of_payment d s a df in
  len members < 2
  \/ has_close_dates (sort (map date members))
       (duplicate_window_days (ANOMALY_THRESHOLDS cfg)) = false ->
  duplicates_for d s a (rows (detect_duplicate_patterns cfg df)) = [].
Proof.
  intros members H. subst members.
  destruct (duplicates_of_group cfg df d s a) as [Hnone Hsome].
  destruct (of_payment d s a df) as [|r m] eqn:E.
  - apply Hnone. reflexivity.
  - destruct Hsome as [k0 [_ [Hm ->]]]; [discriminate|].
    unfold duplicate_report. rewrite Hm.
    destruct H as [H | H].
    + apply Z.leb_gt in H. rewrite H. reflexivity.
    + rewrite H, andb_false_r. reflexivity.
Qed.

(** X16.  Every anomaly that the duplicate detector reports stands for a group of
    the table: its amount is finite, its count is the number of the records
    that share its department, supplier and amount, which is at least 2;
    the sorted dates of the group have an adjacent gap within the window;
    and its severity is [high] from 4 records on and [medium] below. *)
Theorem duplicate_anomalies_are_groups (cfg : Config.t) (df : DataFrame) :
  Forall
    (fun x =>
       exists a,
         anomaly_amount x = Finite a
         /\ let members :=
              of_payment (anomaly_department x) (anomaly_supplier x) a df in
            anomaly_type x = "duplicate_pattern"
            /\ count x = len members
            /\ 2 <= count x
            /\ has_close_dates (sort (map date members))
                 (duplicate_window_days (ANOMALY_THRESHOLDS cfg)) = true
            /\ (4 <= count x -> severity x = "high")
            /\ (count x < 4 -> severity x = "medium"))
    (rows (detect_duplicate_patterns cfg df)).
Proof.
  rewrite duplicate_rows. apply Forall_forall. intros x Hx.
  apply in_flat_map in Hx. destruct Hx as [k [_ Hx]].
  unfold duplicate_report in Hx.
  destruct (2 <=? len (filter (fun r => dup_key_eqb k (dup_key r)) df)) eqn:E2;
    [|destruct Hx].
  destruct (has_close_dates
              (sort (map date (filter (fun r => dup_key_eqb k (dup_key r)) df)))
              (duplicate_window_days (ANOMALY_THRESHOLDS cfg))) eqn:Ec;
    [|destruct Hx].
  destruct Hx as [<- | []].
  exists (snd k). split; [reflexivity|].
  cbn [anomaly_type anomaly_department anomaly_supplier anomaly_amount count
       severity].
  change (of_payment (fst (fst k)) (snd (fst k)) (snd k) df)
    with (filter (fun r => dup_key_eqb k (dup_key r)) df).
  apply Z.leb_le in E2.
  split; [reflexivity|]. split; [reflexivity|]. split; [exact E2|].
  split; [exact Ec|]. split.
  - intros H. apply Z.leb_le in H. rewrite H. reflexivity.
  - intros H. apply Z.leb_gt in H. rewrite H. reflexivity.
Qed.


(** *** Severity and count of what is reported *)

(** X17.  Every anomaly of the report has severity [high] or [medium], never
    [info], and a count of at least 1.  The severity is [high] for a high
    payment and for a spend concentration and [medium] for a transaction
    concentration; a high payment has count 1 and a duplicate pattern a
    count of at least 2. *)
Theorem report_severity_and_count (cfg : Config.t) (df : DataFrame)
  (out : AnomalyFrame) :
  detect_anomalies cfg df = Ok out ->
  Forall
    (fun a =>
       (severity a = "high" \/ severity a = "medium")
       /\ 1 <= count a
       /\ (anomaly_type a = "high_payment" ->
           severity a = "high" /\ count a = 1)
       /\ (anomaly_type a = "duplicate_pattern" -> 2 <= count a)
       /\ (anomaly_type a = "supplier_concentration_spend" ->
           severity a = "high")
       /\ (anomaly_type a = "supplier_concentration_txn" ->
           severity a = "medium"))
    (rows out).
Proof.
  intros Hout.
  destruct (report_rows cfg df out Hout) as [spend [txn [Hsp [Htx ->]]]].
  rewrite (spend_rows cfg df spend Hsp), (txn_rows cfg df txn Htx).
  repeat (apply Forall_app; split); apply Forall_forall; intros x Hx.
  - unfold detect_high_payments in Hx. rewrite rows_of_anomalies in Hx.
    apply in_flat_map in Hx. destruct Hx as [[d t] [_ Hx]].
    apply in_map_iff in Hx. destruct Hx as [r [<- _]]. cbn.
    repeat split; try discriminate; try lia. left. reflexivity.
  - rewrite duplicate_rows in Hx. apply in_flat_map in Hx.
    destruct Hx as [k [_ Hx]]. unfold duplicate_report in Hx.
    destruct (2 <=? len (filter (fun r => dup_key_eqb k (dup_key r)) df))
      eqn:E2; [|destruct Hx].
    destruct (has_close_dates _ _); [|destruct Hx].
    destruct Hx as [<- | []]. apply Z.leb_le in E2.
    cbn [anomaly_type severity count].
    split; [|repeat split; try discriminate; lia].
    destruct (4 <=? len (filter (fun r => dup_key_eqb k (dup_key r)) df));
      [left | right]; reflexivity.
  - apply in_flat_map in Hx.
    destruct Hx as [k [Hk Hx]]. unfold spend_report in Hx.
    destruct (fgt _ _); [|destruct Hx]. destruct Hx as [<- | []].
    pose proof (pair_has_rows df k Hk) as Hn.
    cbn [anomaly_type severity count spend_anomaly].
    repeat split; try discriminate; try exact Hn; try lia. left. reflexivity.
  - apply in_flat_map in Hx.
    destruct Hx as [k [Hk Hx]]. unfold txn_report in Hx.
    destruct (fgt _ _); [|destruct Hx]. destruct Hx as [<- | []].
    pose proof (pair_has_rows df k Hk) as Hn.
    cbn [anomaly_type severity count txn_anomaly].
    repeat split; try discriminate; try exact Hn; try lia. right. reflexivity.
Qed.


(** *** The detectors do not read the category *)

Section SameColumns.

Variable f : Row -> Row.
Hypothesis f_department : forall r, department (f r) = department r.
Hypothesis f_supplier : forall r, supplier (f r) = supplier r.
Hypothesis f_amount : forall r, amount (f r) = amount r.
Hypothesis f_date : forall r, date (f r) = date r.

Lemma filter_map_same (p : Row -> bool) (l : DataFrame) :
  (forall r, p (f r) = p r) ->
  filter p (map f l) = map f (filter p l).
Proof.
  intros Hp. induction l as [|r l IH]; simpl.
  - reflexivity.
  - rewrite Hp. destruct (p r); simpl; rewrite IH; reflexivity.
Qed.

Lemma sum_amount_map (l : DataFrame) : sum_amount (map f l) = sum_amount l.
Proof.
  unfold sum_amount. generalize (Finite 0).
  induction l as [|r l IH]; intros acc; simpl.
  - reflexivity.
  - rewrite f_amount. apply IH.
Qed.

Lemma len_map (l : DataFrame) : len (map f l) = len l.
Proof. unfold len. rewrite length_map. reflexivity. Qed.

Lemma dates_map (l : DataFrame) : map date (map f l) = map date l.
Proof. rewrite map_map. apply map_ext. exact f_date. Qed.

Lemma dup_key_map (r : Row) : dup_key (f r) = dup_key r.
Proof. unfold dup_key. rewrite f_department, f_supplier, f_amount. reflexivity. Qed.

Lemma pair_key_map (r : Row) : pair_key (f r) = pair_key r.
Proof. unfold pair_key. rewrite f_department, f_supplier. reflexivity. Qed.

Lemma of_supplier_map (d s : string) (df : DataFrame) :
  of_supplier d s (map f df) = map f (of_supplier d s df).
Proof.
  unfold of_supplier. apply filter_map_same. intros r.
  rewrite pair_key_map. reflexivity.
Qed.

Lemma of_department_map (d : string) (df : DataFrame) :
  of_department d (map f df) = map f (of_department d df).
Proof.
  unfold of_department. apply filter_map_same. intros r.
  rewrite f_department. reflexivity.
Qed.

Lemma detect_high_payments_map (cfg : Config.t) (df : DataFrame) :
  detect_high_payments cfg (map f df) = detect_high_payments cfg df.
Proof.
  unfold detect_high_payments. f_equal. apply flat_map_ext. intros [d t].
  rewrite filter_map_same.
  - rewrite map_map. apply map_ext. intros r.
    rewrite f_department, f_supplier, f_amount. reflexivity.
  - intros r. rewrite f_department, f_amount. reflexivity.
Qed.

Lemma detect_duplicate_patterns_map (cfg : Config.t) (df : DataFrame) :
  detect_duplicate_patterns cfg (map f df) = detect_duplicate_patterns cfg df.
Proof.
  assert (H : rows (detect_duplicate_patterns cfg (map f df))
              = rows (detect_duplicate_patterns cfg df)).
  { rewrite !duplicate_rows, map_map.
    rewrite (map_ext (fun r => dup_key (f r)) dup_key dup_key_map).
    apply flat_map_ext. intros k. unfold duplicate_report.
    rewrite filter_map_same
      by (intros r; rewrite dup_key_map; reflexivity).
    rewrite len_map, dates_map. reflexivity. }
  unfold detect_duplicate_patterns in *. rewrite !rows_of_anomalies in H.
  rewrite H. reflexivity.
Qed.

Lemma pairs_map (df : DataFrame) : pairs (map f df) = pairs df.
Proof.
  unfold pairs. rewrite map_map.
  rewrite (map_ext (fun r => pair_key (f r)) pair_key pair_key_map).
  reflexivity.
Qed.

Lemma existsb_same {A : Type} (p q : A -> bool) (l : list A) :
  (forall x, p x = q x) -> existsb p l = existsb q l.
Proof.
  intros H. induction l as [|x l IH]; simpl.
  - reflexivity.
  - rewrite H, IH. reflexivity.
Qed.

Lemma detect_supplier_concentration_map (cfg : Config.t) (df : DataFrame) :
  detect_supplier_concentration cfg (map f df)
  = detect_supplier_concentration cfg df.
Proof.
  rewrite !concentration_eq, pairs_map.
  rewrite (existsb_same (spend_fails cfg (map f df)) (spend_fails cfg df)).
  2:{ intros k. unfold spend_fails.
      rewrite of_supplier_map, of_department_map, !sum_amount_map.
      reflexivity. }
  destruct (existsb (spend_fails cfg df) (pairs df)); [reflexivity|].
  f_equal. f_equal. f_equal.
  - apply flat_map_ext. intros k. unfold spend_report, spend_anomaly.
    rewrite of_supplier_map, of_department_map, !sum_amount_map, len_map.
    reflexivity.
  - apply flat_map_ext. intros k. unfold txn_report, txn_anomaly.
    rewrite of_supplier_map, of_department_map, !sum_amount_map, !len_map.
    reflexivity.
Qed.

Lemma detect_anomalies_map (cfg : Config.t) (df : DataFrame) :
  detect_anomalies cfg (map f df) = detect_anomalies cfg df.
Proof.
  unfold detect_anomalies.
  rewrite detect_high_payments_map, detect_duplicate_patterns_map,
    detect_supplier_concentration_map.
  reflexivity.
Qed.

End SameColumns.

(** X18.  Classifying first changes nothing for the detectors: on the table that
    [classify_payments] returns, each detector and [detect_anomalies]
    answer as on the unclassified table. *)
Theorem detectors_ignore_category (cfg cfg' : Config.t) (df : DataFrame)
  (b : bool) (out : DataFrame) :
  Classify.classify_payments cfg df b = Ok out ->
  detect_high_payments cfg' out = detect_high_payments cfg' df
  /\ detect_duplicate_patterns cfg' out = detect_duplicate_patterns cfg' df
  /\ detect_supplier_concentration cfg' out
     = detect_supplier_concentration cfg' df
  /\ detect_anomalies cfg' out = detect_anomalies cfg' df.
Proof.
  intros Hout. rewrite ClassifyFacts.classify_payments_rows in Hout.
  destruct (Nat.eqb (List.length df) 0); [discriminate|].
  injection Hout as <-.
  assert (Hd : forall r, department (Classify.classify_row cfg b r)
                         = department r)
    by (intros r; rewrite ClassifyFacts.classify_row_eq; reflexivity).
  assert (Hs : forall r, supplier (Classify.classify_row cfg b r) = supplier r)
    by (intros r; rewrite ClassifyFacts.classify_row_eq; reflexivity).
  assert (Ha : forall r, amount (Classify.classify_row cfg b r) = amount r)
    by (intros r; rewrite ClassifyFacts.classify_row_eq; reflexivity).
  assert (Ht : forall r, date (Classify.classify_row cfg b r) = date r)
    by (intros r; rewrite ClassifyFacts.classify_row_eq; reflexivity).
  split; [|split; [|split]].
  - apply detect_high_payments_map; assumption.
  - apply detect_duplicate_patterns_map; assumption.
  - apply detect_supplier_concentration_map; assumption.
  - apply detect_anomalies_map; assumption.
Qed.


(** *** The order of the rows of the input *)

Lemma sorted_permutation_eq (l l' : list Z) :
  StronglySorted Z.le l -> StronglySorted Z.le l' -> Permutation l l' ->
  l = l'.
Proof.
  intros Hs. revert l'. induction Hs as [|x l Hs IH Hx]; intros l' Hs' Hp.
  - apply Permutation_nil in Hp. symmetry. exact Hp.
  - destruct Hs' as [|y l' Hs' Hy].
    + apply Permutation_sym, Permutation_nil in Hp. discriminate.
    + assert (Hxy : x = y).
      { rewrite Forall_forall in Hx, Hy.
        assert (H1 : In y (x :: l))
          by (apply (Permutation_in _ (Permutation_sym Hp)); left; reflexivity).
        assert (H2 : In x (y :: l'))
          by (apply (Permutation_in _ Hp); left; reflexivity).
        destruct H1 as [H1 | H1]; [exact H1|].
        destruct H2 as [H2 | H2]; [symmetry; exact H2|].
        specialize (Hx y H1). specialize (Hy x H2). lia. }
      subst y. f_equal. apply IH; [exact Hs'|].
      apply Permutation_cons_inv in Hp. exact Hp.
Qed.

Lemma sort_permutation (l l' : list Z) :
  Permutation l l' -> sort l = sort l'.
Proof.
  intros Hp. apply sorted_permutation_eq; try apply sort_sorted.
  apply perm_trans with l; [apply sort_perm|].
  apply perm_trans with l'; [exact Hp | apply Permutation_sym, sort_perm].
Qed.

Lemma filter_permutation {A : Type} (p : A -> bool) (l l' : list A) :
  Permutation l l' -> Permutation (filter p l) (filter p l').
Proof.
  induction 1 as [|x l l' _ IH|x y l|l l' l'' _ IH1 _ IH2]; simpl.
  - apply perm_nil.
  - destruct (p x); [apply perm_skip|]; exact IH.
  - destruct (p x), (p y); try apply Permutation_refl. apply perm_swap.
  - eapply perm_trans; eassumption.
Qed.

Lemma flat_map_permutation {A B : Type} (h h' : A -> list B) (l : list A) :
  (forall x, Permutation (h x) (h' x)) ->
  Permutation (flat_map h l) (flat_map h' l).
Proof.
  intros H. induction l as [|x l IH]; simpl.
  - apply perm_nil.
  - apply Permutation_app; [apply H | exact IH].
Qed.

(** X19.  Permuting the rows of the input does not change what the
    detectors of single payments find: the high payments are the same up to
    their order, and every group of one department, supplier and amount is
    reported as a duplicate or not, with the same severity and count, as
    before.  The totals of the concentration detector are sums of doubles
    taken in the order of the rows, and are not spoken of. *)
Theorem row_order_is_irrelevant (cfg : Config.t) (df df' : DataFrame) :
  Permutation df df' ->
  let digest := map (fun x => (anomaly_type x, severity x, count x)) in
  Permutation (rows (detect_high_payments cfg df))
    (rows (detect_high_payments cfg df'))
  /\ (forall d s a,
        digest (duplicates_for d s a (rows (detect_duplicate_patterns cfg df)))
        = digest (duplicates_for d s a
                    (rows (detect_duplicate_patterns cfg df')))).
Proof.
  intros Hp digest. split.
  - unfold detect_high_payments. rewrite !rows_of_anomalies.
    apply flat_map_permutation. intros [d t].
    apply Permutation_map, filter_permutation, Hp.
  - intros d s a.
    pose proof (filter_permutation
                  (fun r => dup_key_eqb (d, s, a) (dup_key r)) df df' Hp) as Hm.
    fold (of_payment d s a df) in Hm. fold (of_payment d s a df') in Hm.
    destruct (duplicates_of_group cfg df d s a) as [Hn Hs].
    destruct (duplicates_of_group cfg df' d s a) as [Hn' Hs'].
    destruct (of_payment d s a df) as [|r m] eqn:E.
    + apply Permutation_nil in Hm. rewrite Hn, Hn' by assumption || reflexivity.
      reflexivity.
    + destruct (of_payment d s a df') as [|r' m'] eqn:E'.
      { apply Permutation_sym, Permutation_nil in Hm. discriminate. }
      destruct Hs as [k0 [_ [Hk ->]]]; [discriminate|].
      destruct Hs' as [k0' [_ [Hk' ->]]]; [discriminate|].
      unfold duplicate_report. rewrite Hk, Hk'.
      assert (Hl : len (r :: m) = len (r' :: m')).
      { unfold len. rewrite (Permutation_length Hm). reflexivity. }
      rewrite (sort_permutation _ _ (Permutation_map date Hm)), Hl.
      destruct ((2 <=? len (r' :: m'))
                && has_close_dates (sort (map date (r' :: m')))
                     (duplicate_window_days (ANOMALY_THRESHOLDS cfg)));
        reflexivity.
Qed.


(** *** The theorems at sample ledgers *)

Lemma txn_concentration_flags_share_witness :
  exists out,
    detect_supplier_concentration declared Samples.share_ledger = Ok out
    /\ of_supplier "HMRC" "ALPHA" Samples.share_ledger <> []
    /\ fgt (fdiv (of_int (len (of_supplier "HMRC" "ALPHA" Samples.share_ledger)))
                 (of_int (len (of_department "HMRC" Samples.share_ledger))))
         (concentration_threshold_txn (ANOMALY_THRESHOLDS declared)) = true
    /\ anomalies_for "supplier_concentration_txn" "HMRC" "ALPHA" (rows out)
       = [txn_anomaly declared Samples.share_ledger "HMRC" "ALPHA"].
Proof.
  eexists.
  assert (H0 : detect_supplier_concentration declared Samples.share_ledger
               = Ok _) by (vm_compute; reflexivity).
  assert (H1 : of_supplier "HMRC" "ALPHA" Samples.share_ledger <> [])
    by (vm_compute; discriminate).
  assert (H2 : fgt (fdiv (of_int (len (of_supplier "HMRC" "ALPHA"
                                         Samples.share_ledger)))
                         (of_int (len (of_department "HMRC"
                                         Samples.share_ledger))))
                 (concentration_threshold_txn (ANOMALY_THRESHOLDS declared))
               = true) by (vm_compute; reflexivity).
  split; [exact H0|]. split; [exact H1|]. split; [exact H2|].
  exact (proj1 (txn_concentration_flags_share declared Samples.share_ledger
                  _ "HMRC" "ALPHA" H0 H1) H2).
Defined.

Lemma concentration_outcome_witness :
  existsb (spend_fails declared Samples.refund_ledger)
    (pairs Samples.refund_ledger) = true
  /\ detect_supplier_concentration declared Samples.refund_ledger
     = Raise ZeroDivisionError.
Proof.
  assert (H : existsb (spend_fails declared Samples.refund_ledger)
                (pairs Samples.refund_ledger) = true)
    by (vm_compute; reflexivity).
  split; [exact H|].
  exact (proj1 (concentration_outcome declared Samples.refund_ledger) H).
Defined.

Lemma spend_share_reported_when_returns_witness :
  exists out,
    detect_supplier_concentration declared Samples.share_ledger = Ok out
    /\ of_supplier "HMRC" "ALPHA" Samples.share_ledger <> []
    /\ fgt (fdiv (sum_amount (of_supplier "HMRC" "ALPHA" Samples.share_ledger))
                 (sum_amount (of_department "HMRC" Samples.share_ledger)))
         (concentration_threshold_spend (ANOMALY_THRESHOLDS declared)) = true
    /\ anomalies_for "supplier_concentration_spend" "HMRC" "ALPHA" (rows out)
       = [spend_anomaly declared Samples.share_ledger "HMRC" "ALPHA"].
Proof.
  eexists.
  assert (H0 : detect_supplier_concentration declared Samples.share_ledger
               = Ok _) by (vm_compute; reflexivity).
  assert (H1 : of_supplier "HMRC" "ALPHA" Samples.share_ledger <> [])
    by (vm_compute; discriminate).
  assert (H2 : fgt (fdiv (sum_amount (of_supplier "HMRC" "ALPHA"
                                        Samples.share_ledger))
                         (sum_amount (of_department "HMRC"
                                        Samples.share_ledger)))
                 (concentration_threshold_spend (ANOMALY_THRESHOLDS declared))
               = true) by (vm_compute; reflexivity).
  split; [exact H0|]. split; [exact H1|]. split; [exact H2|].
  exact (proj1 (proj1 (spend_share_reported_when_returns declared
                         Samples.share_ledger _ "HMRC" "ALPHA" H0 H1) H2)).
Defined.

Lemma concentration_variants_both_reported_witness :
  exists out,
    detect_supplier_concentration declared Samples.share_ledger = Ok out
    /\ of_supplier "HMRC" "ALPHA" Samples.share_ledger <> []
    /\ In (spend_anomaly declared Samples.share_ledger "HMRC" "ALPHA")
         (rows out)
    /\ In (txn_anomaly declared Samples.share_ledger "HMRC" "ALPHA")
         (rows out).
Proof.
  eexists.
  assert (H0 : detect_supplier_concentration declared Samples.share_ledger
               = Ok _) by (vm_compute; reflexivity).
  assert (H1 : of_supplier "HMRC" "ALPHA" Samples.share_ledger <> [])
    by (vm_compute; discriminate).
  assert (H3 : fgt (fdiv (sum_amount (of_supplier "HMRC" "ALPHA"
                                        Samples.share_ledger))
                         (sum_amount (of_department "HMRC"
                                        Samples.share_ledger)))
                 (concentration_threshold_spend (ANOMALY_THRESHOLDS declared))
               = true) by (vm_compute; reflexivity).
  assert (H4 : fgt (fdiv (of_int (len (of_supplier "HMRC" "ALPHA"
                                         Samples.share_ledger)))
                         (of_int (len (of_department "HMRC"
                                         Samples.share_ledger))))
                 (concentration_threshold_txn (ANOMALY_THRESHOLDS declared))
               = true) by (vm_compute; reflexivity).
  split; [exact H0|]. split; [exact H1|].
  destruct (concentration_variants_both_reported declared Samples.share_ledger
              _ "HMRC" "ALPHA" H0 H1 H3 H4) as [Ha [Hb _]].
  split; [exact Ha | exact Hb].
Defined.

Lemma detect_anomalies_returns_iff_some_anomaly_witness :
  exists concentration,
    detect_supplier_concentration declared Samples.ledger = Ok concentration
    /\ rows (detect_high_payments declared Samples.ledger)
       ++ rows (detect_duplicate_patterns declared Samples.ledger)
       ++ rows concentration <> []
    /\ detect_anomalies declared Samples.ledger
       = Ok {| schema := anomaly_schema;
               rows :=
                 rows (detect_high_payments declared Samples.ledger)
                 ++ rows (detect_duplicate_patterns declared Samples.ledger)
                 ++ rows concentration |}.
Proof.
  eexists.
  assert (H0 : detect_supplier_concentration declared Samples.ledger = Ok _)
    by (vm_compute; reflexivity).
  split; [exact H0|].
  match type of H0 with
  | _ = Ok ?c =>
      assert (H : rows (detect_high_payments declared Samples.ledger)
                  ++ rows (detect_duplicate_patterns declared Samples.ledger)
                  ++ rows c <> []) by (vm_compute; discriminate)
  end.
  split; [exact H|].
  exact (proj2 (proj1 (proj2 (detect_anomalies_returns_iff_some_anomaly
                                declared Samples.ledger)) _ H0) H).
Defined.

Lemma duplicate_group_not_reported_witness :
  let members := of_payment "HMRC" "ACME LTD" (100 # 1) Samples.far_ledger in
  (len members < 2
   \/ has_close_dates (sort (map date members))
        (duplicate_window_days (ANOMALY_THRESHOLDS declared)) = false)
  /\ duplicates_for "HMRC" "ACME LTD" (100 # 1)
       (rows (detect_duplicate_patterns declared Samples.far_ledger)) = [].
Proof.
  intros members.
  assert (H : len members < 2
              \/ has_close_dates (sort (map date members))
                   (duplicate_window_days (ANOMALY_THRESHOLDS declared)) = false)
    by (right; reflexivity).
  split; [exact H|].
  exact (duplicate_group_not_reported declared Samples.far_ledger
           "HMRC" "ACME LTD" (100 # 1) H).
Defined.

Lemma report_severity_and_count_witness :
  detect_anomalies declared Samples.ledger = Ok Samples.ledger_anomalies
  /\ Forall
       (fun a =>
          (severity a = "high" \/ severity a = "medium")
          /\ 1 <= count a
          /\ (anomaly_type a = "high_payment" ->
              severity a = "high" /\ count a = 1)
          /\ (anomaly_type a = "duplicate_pattern" -> 2 <= count a)
          /\ (anomaly_type a = "supplier_concentration_spend" ->
              severity a = "high")
          /\ (anomaly_type a = "supplier_concentration_txn" ->
              severity a = "medium"))
       (rows Samples.ledger_anomalies).
Proof.
  assert (H : detect_anomalies declared Samples.ledger
              = Ok Samples.ledger_anomalies) by (vm_compute; reflexivity).
  split; [exact H|].
  exact (report_severity_and_count declared Samples.ledger
           Samples.ledger_anomalies H).
Defined.

Lemma detectors_ignore_category_witness :
  Classify.classify_payments declared Samples.ledger true
  = Ok Samples.ledger_classified
  /\ detect_anomalies declared Samples.ledger_classified
     = detect_anomalies declared Samples.ledger.
Proof.
  assert (H : Classify.classify_payments declared Samples.ledger true
              = Ok Samples.ledger_classified) by (vm_compute; reflexivity).
  split; [exact H|].
  apply (detectors_ignore_category declared declared Samples.ledger true
           Samples.ledger_classified H).
Defined.

Lemma row_order_is_irrelevant_witness :
  Permutation Samples.repeat_ledger (rev Samples.repeat_ledger)
  /\ Permutation (rows (detect_high_payments declared Samples.repeat_ledger))
       (rows (detect_high_payments declared (rev Samples.repeat_ledger)))
  /\ map (fun x => (anomaly_type x, severity x, count x))
       (duplicates_for "HMRC" "ACME LTD" (100 # 1)
          (rows (detect_duplicate_patterns declared Samples.repeat_ledger)))
     = map (fun x => (anomaly_type x, severity x, count x))
         (duplicates_for "HMRC" "ACME LTD" (100 # 1)
            (rows (detect_duplicate_patterns declared
                     (rev Samples.repeat_ledger)))).
Proof.
  assert (H : Permutation Samples.repeat_ledger (rev Samples.repeat_ledger))
    by apply Permutation_rev.
  split; [exact H|].
  destruct (row_order_is_irrelevant declared Samples.repeat_ledger
              (rev Samples.repeat_ledger) H) as [H1 H2].
  split; [exact H1 | apply H2].
Defined.

End AnomalyMore.

(** ** Bounds on what the detectors report *)

Module DetectorBounds.

Import Config Anomalies AnomalyFacts AnomalyMore.

(** *** The window of the duplicate detector *)

Lemma has_close_dates_wider (dates : list Z) (w w' : Z) :
  w <= w' -> has_close_dates dates w = true -> has_close_dates dates w' = true.
Proof.
  intros Hw. induction dates as [|d0 rest IH]; [discriminate|].
  destruct rest as [|d1 tl]; [discriminate|].
  cbn [has_close_dates] in *.
  destruct (d1 - d0 <=? w) eqn:E.
  - intros _. apply Z.leb_le in E.
    assert (E' : (d1 - d0 <=? w') = true) by (apply Z.leb_le; lia).
    rewrite E'. reflexivity.
  - intros H. destruct (d1 - d0 <=? w'); [reflexivity | apply IH, H].
Qed.

(** X21.  Widening the window of the duplicate detector loses nothing: every
    group that is reported under a window is reported under every wider
    one, with the same severity, amount and count. *)
Theorem wider_window_keeps_duplicates (cfg cfg' : Config.t) (df : DataFrame)
  (x : Anomaly) :
  duplicate_window_days (ANOMALY_THRESHOLDS cfg)
  <= duplicate_window_days (ANOMALY_THRESHOLDS cfg') ->
  In x (rows (detect_duplicate_patterns cfg df)) ->
  exists x',
    In x' (rows (detect_duplicate_patterns cfg' df))
    /\ anomaly_type x' = anomaly_type x
    /\ severity x' = severity x
    /\ anomaly_department x' = anomaly_department x
    /\ anomaly_supplier x' = anomaly_supplier x
    /\ anomaly_amount x' = anomaly_amount x
    /\ count x' = count x.
Proof.
  intros Hw Hx. rewrite duplicate_rows in *. apply in_flat_map in Hx.
  destruct Hx as [k [Hk Hx]]. unfold duplicate_report in Hx.
  destruct (2 <=? len (filter (fun r => dup_key_eqb k (dup_key r)) df)) eqn:E2;
    [|destruct Hx].
  destruct (has_close_dates
              (sort (map date (filter (fun r => dup_key_eqb k (dup_key r)) df)))
              (duplicate_window_days (ANOMALY_THRESHOLDS cfg))) eqn:Ec;
    [|destruct Hx].
  destruct Hx as [<- | []].
  apply (has_close_dates_wider _ _ _ Hw) in Ec.
  eexists. split.
  - apply in_flat_map. exists k. split; [exact Hk|].
    unfold duplicate_report. rewrite E2, Ec. left. reflexivity.
  - repeat split.
Qed.

Lemma wider_window_keeps_duplicates_witness :
  let cfg' :=
    {| CATEGORY_KEYWORDS := CATEGORY_KEYWORDS declared;
       DIRECT_EXPENSE_TYPE_MAPPING := DIRECT_EXPENSE_TYPE_MAPPING declared;
       ANOMALY_THRESHOLDS :=
         {| high_payment := high_payment (ANOMALY_THRESHOLDS declared);
            concentration_threshold_spend :=
              concentration_threshold_spend (ANOMALY_THRESHOLDS declared);
            concentration_threshold_txn :=
              concentration_threshold_txn (ANOMALY_THRESHOLDS declared);
            duplicate_window_days := 30 |} |} in
  let x := nth 0 (rows (detect_duplicate_patterns declared Samples.repeat_ledger))
             (high_payment_anomaly [] (Samples.row "" "" 0 0 "" "")) in
  duplicate_window_days (ANOMALY_THRESHOLDS declared)
  <= duplicate_window_days (ANOMALY_THRESHOLDS cfg')
  /\ In x (rows (detect_duplicate_patterns declared Samples.repeat_ledger))
  /\ exists x',
       In x' (rows (detect_duplicate_patterns cfg' Samples.repeat_ledger))
       /\ anomaly_type x' = anomaly_type x
       /\ severity x' = severity x
       /\ anomaly_department x' = anomaly_department x
       /\ anomaly_supplier x' = anomaly_supplier x
       /\ anomaly_amount x' = anomaly_amount x
       /\ count x' = count x.
Proof.
  intros cfg' x.
  assert (H1 : duplicate_window_days (ANOMALY_THRESHOLDS declared)
               <= duplicate_window_days (ANOMALY_THRESHOLDS cfg'))
    by (apply Z.leb_le; reflexivity).
  assert (H2 : In x (rows (detect_duplicate_patterns declared
                             Samples.repeat_ledger)))
    by (left; reflexivity).
  split; [exact H1|]. split; [exact H2|].
  exact (wider_window_keeps_duplicates declared cfg' Samples.repeat_ledger x
           H1 H2).
Defined.

End DetectorBounds.

(** ** Keywords are runs of letters *)

Module KeywordFacts.

Import Config Classify ClassifyFacts.

(** *** Keywords inside words *)

(** X6.  A keyword is searched as a run of letters, not as a word: a record
    that Tier 0 leaves unclassified and whose description holds the letters
    "it" next to each other, in any case and anywhere (as in "capital" or
    "audit"), is classified as IT, the first category, whatever else the
    description holds. *)
Theorem letters_inside_a_word_match (df : DataFrame) (b : bool) (i : nat)
  (r : Row) :
  nth_error (tier0 declared b (init_category df)) i = Some r ->
  col_category r = "" ->
  Str.ci_substring "IT" (description r) ->
  exists out,
    classify_payments declared df b = Ok out
    /\ nth_error out i = Some (set_category "IT" r).
Proof.
  intros Hr Hcat Hit. rewrite tier0_rows, nth_error_map in Hr.
  destruct (nth_error df i) as [r0|] eqn:Hr0; [|discriminate].
  cbn [option_map] in Hr. injection Hr as <-.
  change (tier0_cat declared b r0 = "") in Hcat.
  change (description (set_category (tier0_cat declared b r0) r0))
    with (description r0) in Hit.
  assert (Hfirst : first_matching declared_CATEGORY_KEYWORDS (description r0)
                     "IT").
  { exists [], (snd (nth 0 declared_CATEGORY_KEYWORDS ("", []))),
      (tl declared_CATEGORY_KEYWORDS).
    split; [reflexivity|]. split; [|constructor].
    exists "IT". split; [right; left; reflexivity | exact Hit]. }
  assert (Hk : tier1_cat declared b r0 = "IT").
  { unfold tier1_cat. rewrite Hcat.
    apply first_matching_kw_cat;
      [exact declared_keywords_nonempty | discriminate | exact Hfirst]. }
  destruct (classify_payments_nth declared df b i r0 Hr0) as [out [Ho Hn]].
  exists out. split; [exact Ho|]. rewrite Hn.
  unfold category_of, tier2_cat. rewrite Hk.
  rewrite kw_cat_keep by discriminate. reflexivity.
Qed.

Lemma letters_inside_a_word_match_witness :
  let r := set_category "" (nth 0 Samples.ledger (Samples.row "" "" 0 0 "" "")) in
  nth_error (tier0 declared false (init_category Samples.ledger)) 0 = Some r
  /\ col_category r = ""
  /\ Str.ci_substring "IT" (description r)
  /\ exists out,
       classify_payments declared Samples.ledger false = Ok out
       /\ nth_error out 0 = Some (set_category "IT" r).
Proof.
  intros r.
  assert (H1 : nth_error (tier0 declared false (init_category Samples.ledger)) 0
               = Some r) by reflexivity.
  assert (H2 : col_category r = "") by reflexivity.
  assert (H3 : Str.ci_substring "IT" (description r))
    by (apply StrFacts.contains_ci_spec; vm_compute; reflexivity).
  split; [exact H1|]. split; [exact H2|]. split; [exact H3|].
  exact (letters_inside_a_word_match Samples.ledger false 0 r H1 H2 H3).
Defined.

End KeywordFacts.

(** ** The environment file *)

Module EnvironFacts.

Import Environ.

Lemma contains_getenv (key : string) (env : t) :
  contains key env = false <-> getenv key env = None.
Proof.
  unfold contains. destruct (getenv key env); split; congruence.
Qed.

Lemma load_line_cases (raw_line : string) (env env' : t) :
  load_line raw_line env = Ok env' ->
  env' = env
  \/ exists key value,
       parse_line raw_line = Some (key, value)
       /\ key <> "" /\ getenv key env = None
       /\ has_nul key = false /\ has_nul value = false
       /\ env' = setenv key value env.
Proof.
  unfold load_line. destruct (parse_line raw_line) as [[key value]|].
  - destruct (String.eqb key "") eqn:Ek; simpl.
    + intros H. injection H as <-. left. reflexivity.
    + destruct (contains key env) eqn:Ec; simpl.
      * intros H. injection H as <-. left. reflexivity.
      * destruct (has_nul key) eqn:Hk; simpl; [discriminate|].
        destruct (has_nul value) eqn:Hv; [discriminate|].
        intros H. injection H as <-. right. exists key, value.
        apply String.eqb_neq in Ek. apply contains_getenv in Ec.
        repeat split; assumption.
  - intros H. injection H as <-. left. reflexivity.
Qed.

Lemma load_line_keeps (raw_line : string) (env env' : t) (k v : string) :
  load_line raw_line env = Ok env' ->
  getenv k env = Some v -> getenv k env' = Some v.
Proof.
  intros H Hk. destruct (load_line_cases _ _ _ H)
    as [-> | [key [value [_ [_ [Habs [_ [_ ->]]]]]]]]; [exact Hk|].
  unfold setenv. simpl. destruct (String.eqb k key) eqn:E; [|exact Hk].
  apply String.eqb_eq in E. subst key. congruence.
Qed.

Lemma load_lines_keeps (lines : list string) (env : t) (k v : string) :
  getenv k env = Some v -> getenv k (fst (load_lines lines env)) = Some v.
Proof.
  revert env. induction lines as [|raw lines IH]; intros env Hk; simpl.
  - exact Hk.
  - destruct (load_line raw env) as [env'|e] eqn:E; [|exact Hk].
    apply IH. eapply load_line_keeps; eassumption.
Qed.

(** X8.  Loading the file never changes a variable that is set: whatever the
    file holds, and also when loading stops on an error, every name of the
    environment keeps its value. *)
Theorem load_never_overwrites (file : option (list string)) (env : t)
  (k v : string) :
  getenv k env = Some v ->
  getenv k (fst (load_environment_variables file env)) = Some v.
Proof.
  intros Hk. destruct file as [lines|]; [|exact Hk].
  apply load_lines_keeps, Hk.
Qed.

Lemma load_lines_app (l1 l2 : list string) (env : t) :
  load_lines (l1 ++ l2) env
  = match load_lines l1 env with
    | (env1, None) => load_lines l2 env1
    | stopped => stopped
    end.
Proof.
  revert env. induction l1 as [|raw l1 IH]; intros env; simpl.
  - reflexivity.
  - destruct (load_line raw env) as [env'|e]; [apply IH | reflexivity].
Qed.

Lemma load_line_sets (raw_line : string) (env env' : t) (key value : string) :
  load_line raw_line env = Ok env' ->
  parse_line raw_line = Some (key, value) -> key <> "" ->
  contains key env' = true.
Proof.
  unfold load_line. intros H Hp Hk. rewrite Hp in H.
  apply String.eqb_neq in Hk. rewrite Hk in H. simpl in H.
  destruct (contains key env) eqn:Ec; simpl in H.
  - injection H as <-. exact Ec.
  - destruct (has_nul key || has_nul value); [discriminate|].
    injection H as <-. unfold contains, setenv. simpl.
    rewrite String.eqb_refl. reflexivity.
Qed.

Lemma contains_kept (lines : list string) (env : t) (k : string) :
  contains k env = true -> contains k (fst (load_lines lines env)) = true.
Proof.
  unfold contains. destruct (getenv k env) as [v|] eqn:E; [|discriminate].
  intros _. rewrite (load_lines_keeps lines env k v E). reflexivity.
Qed.

Lemma loaded_names_are_set (lines : list string) (env env' : t) :
  load_lines lines env = (env', None) ->
  forall raw key value,
    In raw lines -> parse_line raw = Some (key, value) -> key <> "" ->
    contains key env' = true.
Proof.
  revert env. induction lines as [|r lines IH]; intros env H raw key value Hin Hp Hk.
  - destruct Hin.
  - simpl in H. destruct (load_line r env) as [env1|e] eqn:E; [|discriminate].
    destruct Hin as [-> | Hin].
    + pose proof (load_line_sets _ _ _ _ _ E Hp Hk) as Hc.
      apply (contains_kept lines) in Hc. rewrite H in Hc. exact Hc.
    + apply (IH env1 H raw key value Hin Hp Hk).
Qed.

Lemma load_lines_settled (lines : list string) (env : t) :
  (forall raw key value,
     In raw lines -> parse_line raw = Some (key, value) -> key <> "" ->
     contains key env = true) ->
  load_lines lines env = (env, None).
Proof.
  induction lines as [|r lines IH]; intros H; simpl.
  - reflexivity.
  - assert (E : load_line r env = Ok env).
    { unfold load_line. destruct (parse_line r) as [[key value]|] eqn:Hp;
        [|reflexivity].
      destruct (String.eqb key "") eqn:Ek; [reflexivity|]. simpl.
      apply String.eqb_neq in Ek.
      rewrite (H r key value (or_introl eq_refl) Hp Ek). reflexivity. }
    rewrite E. apply IH. intros raw key value Hin.
    apply H. right. exact Hin.
Qed.

(** X9.  Loading is idempotent: on the environment that a load has produced,
    loading the same file again changes nothing and raises nothing. *)
Theorem load_twice_is_load_once (file : option (list string)) (env env' : t) :
  load_environment_variables file env = (env', None) ->
  load_environment_variables file env' = (env', None).
Proof.
  destruct file as [lines|]; simpl; [|intros _; reflexivity].
  intros H. apply load_lines_settled. apply (loaded_names_are_set lines env env' H).
Qed.

Lemma load_line_other (raw_line : string) (env env' : t) (k : string) :
  load_line raw_line env = Ok env' ->
  (forall v, parse_line raw_line <> Some (k, v)) ->
  getenv k env = None -> getenv k env' = None.
Proof.
  intros H Hno Hk. destruct (load_line_cases _ _ _ H)
    as [-> | [key [value [Hp [_ [_ [_ [_ ->]]]]]]]]; [exact Hk|].
  unfold setenv. simpl. destruct (String.eqb k key) eqn:E; [|exact Hk].
  apply String.eqb_eq in E. subst key. exfalso. apply (Hno value Hp).
Qed.

(** X10.  The first setting of a name wins: when the loop runs to its end, a
    name that was not set before has the value of the first line of the
    file that sets it, whatever later lines say. *)
Theorem first_setting_wins (before after : list string) (raw : string)
  (env env' : t) (k v : string) :
  load_environment_variables (Some (before ++ raw :: after)) env
  = (env', None) ->
  getenv k env = None ->
  parse_line raw = Some (k, v) ->
  k <> "" ->
  (forall raw' v', In raw' before -> parse_line raw' <> Some (k, v')) ->
  getenv k env' = Some v.
Proof.
  simpl. rewrite load_lines_app. intros H Habs Hp Hk Hfirst.
  assert (Hb : forall env0 env1 o,
             load_lines before env0 = (env1, o) ->
             getenv k env0 = None -> getenv k env1 = None).
  { clear H. induction before as [|r before IH]; intros env0 env1 o H0 H1.
    - simpl in H0. injection H0 as <- _. exact H1.
    - simpl in H0. destruct (load_line r env0) as [e0|e] eqn:E.
      + apply (IH (fun raw' v' Hin => Hfirst raw' v' (or_intror Hin)) e0 env1 o H0).
        apply (load_line_other r env0 e0 k E); [|exact H1].
        intros v'. apply Hfirst. left. reflexivity.
      + injection H0 as <- _. exact H1. }
  destruct (load_lines before env) as [env1 [e|]] eqn:E1; [discriminate|].
  pose proof (Hb env env1 None E1 Habs) as H1.
  simpl in H. destruct (load_line raw env1) as [env2|e] eqn:E2; [|discriminate].
  assert (H2 : getenv k env2 = Some v).
  { unfold load_line in E2. rewrite Hp in E2.
    apply String.eqb_neq in Hk. rewrite Hk in E2.
    apply contains_getenv in H1. rewrite H1 in E2. simpl in E2.
    destruct (has_nul k || has_nul v); [discriminate|].
    injection E2 as <-. unfold setenv. simpl. rewrite String.eqb_refl.
    reflexivity. }
  pose proof (load_lines_keeps after env2 k v H2) as H3.
  rewrite H in H3. exact H3.
Qed.


(** *** What a line gives *)

Lemma lstrip_first (p : ascii -> bool) (s : string) (c : ascii) :
  first_char (lstrip p s) = Some c -> p c = false.
Proof.
  induction s as [|x s IH]; simpl; [discriminate|].
  destruct (p x) eqn:E; [exact IH|].
  simpl. intros H. injection H as <-. exact E.
Qed.

Lemma lstrip_last (p : ascii -> bool) (s : string) (c : ascii) :
  last_char (lstrip p s) = Some c -> last_char s = Some c.
Proof.
  induction s as [|x s IH]; simpl; [discriminate|].
  destruct (p x) eqn:E.
  - intros H. specialize (IH H). destruct s; [discriminate | exact IH].
  - intros H. exact H.
Qed.

Lemma rstrip_last (p : ascii -> bool) (s : string) (c : ascii) :
  last_char (rstrip p s) = Some c -> p c = false.
Proof.
  induction s as [|x s IH]; simpl; [discriminate|].
  destruct (rstrip p s) as [|y kept] eqn:E.
  - destruct (p x) eqn:Ex; simpl; [discriminate|].
    intros H. injection H as <-. exact Ex.
  - intros H. apply IH. exact H.
Qed.

Lemma strip_clean (p : ascii -> bool) (s : string) : clean_ends p (strip p s).
Proof.
  unfold strip. split; intros c H.
  - eapply lstrip_first, H.
  - apply lstrip_last in H. eapply rstrip_last, H.
Qed.

Lemma lstrip_occurs (p : ascii -> bool) (c : ascii) (s : string) :
  occurs c s = false -> occurs c (lstrip p s) = false.
Proof.
  induction s as [|x s IH]; simpl; [reflexivity|].
  intros H. apply orb_false_iff in H. destruct H as [Hx Hs].
  destruct (p x); [apply IH, Hs|]. simpl. rewrite Hx, Hs. reflexivity.
Qed.

Lemma rstrip_occurs (p : ascii -> bool) (c : ascii) (s : string) :
  occurs c s = false -> occurs c (rstrip p s) = false.
Proof.
  induction s as [|x s IH]; simpl; [reflexivity|].
  intros H. apply orb_false_iff in H. destruct H as [Hx Hs].
  specialize (IH Hs). destruct (rstrip p s) as [|y kept].
  - destruct (p x); simpl; [reflexivity|]. rewrite Hx. reflexivity.
  - simpl in *. rewrite Hx. exact IH.
Qed.

Lemma strip_occurs (p : ascii -> bool) (c : ascii) (s : string) :
  occurs c s = false -> occurs c (strip p s) = false.
Proof. intros H. apply lstrip_occurs, rstrip_occurs, H. Qed.

(** [split_once] cuts a line at its first equals sign. *)
Lemma split_once_round_trip (line : string) :
  (forall key value,
     split_once line = Some (key, value) <->
     line = (key ++ "=" ++ value)%string /\ occurs "=" key = false)
  /\ (split_once line = None <-> occurs "=" line = false).
Proof.
  induction line as [|c line [IH1 IH2]].
  - split.
    + intros key value. split; [discriminate|].
      intros [H _]. destruct key; discriminate.
    + split; reflexivity.
  - cbn [split_once occurs]. destruct (Ascii.eqb c "=") eqn:E.
    + apply Ascii.eqb_eq in E. subst c. split.
      * intros key value. split.
        -- intros H. injection H as <- <-. split; reflexivity.
        -- intros [H Hk]. destruct key as [|x key].
           ++ simpl in H. injection H as ->. reflexivity.
           ++ simpl in H. injection H as <- _. simpl in Hk. discriminate.
      * split; discriminate.
    + split.
      * intros key value. destruct (split_once line) as [[k v]|] eqn:Es.
        -- split.
           ++ intros H. injection H as <- <-.
              destruct (proj1 (IH1 k v) eq_refl) as [-> Hk].
              split; [reflexivity|]. simpl. rewrite E. exact Hk.
           ++ intros [H Hk]. destruct key as [|x key].
              ** simpl in H. injection H as -> _. rewrite Ascii.eqb_refl in E.
                 discriminate.
              ** simpl in H. injection H as <- Hl. simpl in Hk.
                 apply orb_false_iff in Hk. destruct Hk as [_ Hk].
                 pose proof (proj2 (IH1 key value) (conj Hl Hk)) as H0.
                 injection H0 as -> ->. reflexivity.
        -- split; [discriminate|]. intros [H Hk]. destruct key as [|x key].
           ++ simpl in H. injection H as -> _. rewrite Ascii.eqb_refl in E.
              discriminate.
           ++ simpl in H. injection H as <- Hl. simpl in Hk.
              apply orb_false_iff in Hk. destruct Hk as [_ Hk].
              pose proof (proj2 (IH1 key value) (conj Hl Hk)) as H0.
              discriminate.
      * simpl. rewrite <- IH2. destruct (split_once line) as [[k v]|];
          split; congruence.
Qed.

Lemma split_once_key (line key value : string) :
  split_once line = Some (key, value) -> occurs "=" key = false.
Proof.
  revert key value. induction line as [|c line IH]; intros key value;
    cbn [split_once]; [discriminate|].
  destruct (Ascii.eqb c "=") eqn:E.
  - intros H. injection H as <- _. reflexivity.
  - destruct (split_once line) as [[k v]|]; [|discriminate].
    intros H. injection H as <- _. simpl. rewrite E. apply (IH k v eq_refl).
Qed.

Lemma parse_line_clean (raw key value : string) :
  parse_line raw = Some (key, value) ->
  occurs "=" key = false
  /\ clean_ends isspace key
  /\ clean_ends (Ascii.eqb "'") value.
Proof.
  unfold parse_line.
  destruct (String.eqb (strip isspace raw) "" || Str.starts_with "#" (strip isspace raw));
    [discriminate|].
  destruct (split_once (strip isspace raw)) as [[k v]|] eqn:E; [|discriminate].
  intros H. injection H as <- <-. split; [|split].
  - apply strip_occurs. eapply split_once_key, E.
  - apply strip_clean.
  - apply strip_clean.
Qed.

Lemma load_lines_origin (lines : list string) (env : t) (k v : string) :
  getenv k (fst (load_lines lines env)) = Some v ->
  getenv k env = Some v
  \/ (k <> "" /\ has_nul k = false /\ has_nul v = false
      /\ exists raw, In raw lines /\ parse_line raw = Some (k, v)).
Proof.
  revert env. induction lines as [|r lines IH]; intros env; simpl.
  - intros H. left. exact H.
  - destruct (load_line r env) as [env1|e] eqn:E; [|intros H; left; exact H].
    intros H. destruct (IH env1 H) as [H1 | [Hk [Hn [Hv [raw [Hin Hp]]]]]].
    + destruct (load_line_cases _ _ _ E)
        as [-> | [key [value [Hp [Hne [_ [Hnk [Hnv ->]]]]]]]].
      * left. exact H1.
      * unfold setenv in H1. simpl in H1.
        destruct (String.eqb k key) eqn:Ek; [|left; exact H1].
        apply String.eqb_eq in Ek. subst key. injection H1 as ->.
        right. repeat split; try assumption.
        exists r. split; [left; reflexivity | exact Hp].
    + right. repeat split; try assumption.
      exists raw. split; [right; exact Hin | exact Hp].
Qed.

(** X11.  Every variable that loading adds comes from a line of the file and is
    well formed: its name is not empty, holds no equals sign and no NUL and
    has no whitespace at either end, and its value holds no NUL and has no
    single quote at either end. *)
Theorem loaded_variables_are_well_formed (lines : list string) (env : t)
  (k v : string) :
  getenv k env = None ->
  getenv k (fst (load_environment_variables (Some lines) env)) = Some v ->
  (exists raw, In raw lines /\ parse_line raw = Some (k, v))
  /\ k <> "" /\ occurs "=" k = false /\ has_nul k = false
  /\ clean_ends isspace k
  /\ has_nul v = false /\ clean_ends (Ascii.eqb "'") v.
Proof.
  simpl. intros Habs H.
  destruct (load_lines_origin lines env k v H)
    as [H0 | [Hk [Hn [Hv [raw [Hin Hp]]]]]]; [congruence|].
  destruct (parse_line_clean raw k v Hp) as [He [Hc Hq]].
  split; [exists raw; split; assumption|].
  repeat (split; [assumption|]). exact Hq.
Qed.


(** *** The theorems at a sample file *)

Lemma load_never_overwrites_witness :
  getenv "ANTHROPIC_MODEL" [("ANTHROPIC_MODEL", "opus")] = Some "opus"
  /\ getenv "ANTHROPIC_MODEL"
       (fst (load_environment_variables (Some Samples.dotenv)
               [("ANTHROPIC_MODEL", "opus")]))
     = Some "opus".
Proof.
  assert (H : getenv "ANTHROPIC_MODEL" [("ANTHROPIC_MODEL", "opus")]
              = Some "opus") by reflexivity.
  split; [exact H|].
  exact (load_never_overwrites (Some Samples.dotenv)
           [("ANTHROPIC_MODEL", "opus")] "ANTHROPIC_MODEL" "opus" H).
Defined.

Lemma load_twice_is_load_once_witness :
  let env' := [("ANTHROPIC_MODEL", "claude"); ("ANTHROPIC_API_KEY", "sk-test");
               ("HOME", "/root")] in
  load_environment_variables (Some Samples.dotenv) [("HOME", "/root")]
  = (env', None)
  /\ load_environment_variables (Some Samples.dotenv) env' = (env', None).
Proof.
  intros env'.
  assert (H : load_environment_variables (Some Samples.dotenv)
                [("HOME", "/root")] = (env', None))
    by (vm_compute; reflexivity).
  split; [exact H|].
  exact (load_twice_is_load_once (Some Samples.dotenv) [("HOME", "/root")]
           env' H).
Defined.

Lemma first_setting_wins_witness :
  let before := firstn 2 Samples.dotenv in
  let raw := nth 2 Samples.dotenv "" in
  let after := skipn 3 Samples.dotenv in
  let env' := [("ANTHROPIC_MODEL", "claude"); ("ANTHROPIC_API_KEY", "sk-test");
               ("HOME", "/root")] in
  load_environment_variables (Some (before ++ raw :: after)) [("HOME", "/root")]
  = (env', None)
  /\ getenv "ANTHROPIC_API_KEY" [("HOME", "/root")] = None
  /\ parse_line raw = Some ("ANTHROPIC_API_KEY", "sk-test")
  /\ getenv "ANTHROPIC_API_KEY" env' = Some "sk-test".
Proof.
  intros before raw after env'.
  assert (H1 : load_environment_variables (Some (before ++ raw :: after))
                 [("HOME", "/root")] = (env', None))
    by (vm_compute; reflexivity).
  assert (H2 : getenv "ANTHROPIC_API_KEY" [("HOME", "/root")] = None)
    by reflexivity.
  assert (H3 : parse_line raw = Some ("ANTHROPIC_API_KEY", "sk-test"))
    by (vm_compute; reflexivity).
  assert (H4 : "ANTHROPIC_API_KEY" <> "") by discriminate.
  assert (H5 : forall raw' v', In raw' before ->
                 parse_line raw' <> Some ("ANTHROPIC_API_KEY", v')).
  { intros raw' v' [<- | [<- | []]]; vm_compute; discriminate. }
  split; [exact H1|]. split; [exact H2|]. split; [exact H3|].
  exact (first_setting_wins before after raw [("HOME", "/root")] env'
           "ANTHROPIC_API_KEY" "sk-test" H1 H2 H3 H4 H5).
Defined.

Lemma loaded_variables_are_well_formed_witness :
  getenv "ANTHROPIC_MODEL" [("HOME", "/root")] = None
  /\ getenv "ANTHROPIC_MODEL"
       (fst (load_environment_variables (Some Samples.dotenv)
               [("HOME", "/root")]))
     = Some "claude"
  /\ clean_ends isspace "ANTHROPIC_MODEL"
  /\ clean_ends (Ascii.eqb "'") "claude".
Proof.
  assert (H1 : getenv "ANTHROPIC_MODEL" [("HOME", "/root")] = None)
    by reflexivity.
  assert (H2 : getenv "ANTHROPIC_MODEL"
                 (fst (load_environment_variables (Some Samples.dotenv)
                         [("HOME", "/root")]))
               = Some "claude") by (vm_compute; reflexivity).
  split; [exact H1|]. split; [exact H2|].
  destruct (loaded_variables_are_well_formed Samples.dotenv
              [("HOME", "/root")] "ANTHROPIC_MODEL" "claude" H1 H2)
    as [_ [_ [_ [_ [Hk [_ Hv]]]]]].
  split; [exact Hk | exact Hv].
Defined.

End EnvironFacts.
